(** * pdFetch: change tracking and incremental synchronisation

    A shallow embedding of the change-tracking core of pdFetch
    (core/sn_tools.js, core/fs_tools.js, core/session.js,
    core/config_tools.js, business/operation.js, business/main.js) and
    the properties of it that the specification states.

    The program is sequential JavaScript over the Node file system.  It is
    embedded by explicit state passing: every operation takes the file
    system before and returns the file system after, together with the
    value it returns.  A [try]/[catch] of the source becomes a [match] on
    an [option]: [None] stands for "the call threw".  The external
    collaborators (the REST call of the catalog, the headless browser) are
    an environment record of oracles.  The monitoring callback [$m] only
    reports; its calls are left out, its arity is kept because one call
    site passes it where an array is expected. *)

From Stdlib Require Import Ascii.
From stdpp Require Import gmap strings list fin_maps.

Open Scope string_scope.
Open Scope list_scope.

(** ** node:path, POSIX flavour *)

Module Path.

(** A parsed path string: whether it starts with a slash, and its
    segments. *)
Record path := { absolute : bool; segs : list string }.

(** [s.split("/")] *)
Fixpoint split_slash (s : string) : list string :=
  match s with
  | EmptyString => [EmptyString]
  | String c s' =>
      if Ascii.eqb c "/"%char then EmptyString :: split_slash s'
      else match split_slash s' with
           | [] => [String c EmptyString]
           | h :: t => String c h :: t
           end
  end.

(** One step of Node's [normalizeString]: the stack holds the segments
    kept so far, last one first. *)
Definition norm_step (allowAboveRoot : bool) (stack : list string) (seg : string)
  : list string :=
  if decide (seg = "" ∨ seg = ".") then stack
  else if decide (seg = "..") then
    match stack with
    | top :: rest =>
        if decide (top = "..") then (if allowAboveRoot then ".." :: stack else stack)
        else rest
    | [] => if allowAboveRoot then [".."] else []
    end
  else seg :: stack.

Definition normalize_segs (allowAboveRoot : bool) (l : list string) : list string :=
  rev (fold_left (norm_step allowAboveRoot) l []).

Definition starts_with_slash (s : string) : bool :=
  match s with
  | String c _ => Ascii.eqb c "/"%char
  | EmptyString => false
  end.

Definition of_string (s : string) : path :=
  let a := starts_with_slash s in
  {| absolute := a; segs := normalize_segs (negb a) (split_slash s) |}.

(** [path.join(base, p)] for an absolute [base]: the pieces are glued with
    a separator and the whole is normalised.  A leading slash of [p] does
    not restart the path. *)
Definition join (base : list string) (p : path) : list string :=
  normalize_segs false (base ++ segs p).

(** [path.resolve(base, p)] for an absolute [base]: an absolute [p]
    replaces [base]. *)
Definition resolve (base : list string) (p : path) : list string :=
  if absolute p then normalize_segs false (segs p)
  else normalize_segs false (base ++ segs p).

(** An absolute path printed back as a string. *)
Definition to_string (p : list string) : string :=
  "/" +:+ String.concat "/" p.

#[global] Instance path_eq_dec : EqDecision path.
Proof. solve_decision. Defined.

(** The template literal [`${p}${suffix}`] on a printed absolute path. *)
Definition append_to_last (p : list string) (suffix : string) : list string :=
  match rev p with
  | [] => [suffix]
  | l :: r => rev r ++ [l +:+ suffix]
  end.

End Path.

(** ** The file system *)

(** What a file holds is kept at the level the program reads it back:
    a JSON article list, a JSON change report, a rendered article, or
    bytes that are not JSON of either shape. *)

Record Version := { display_value : string }.

(** The value of [sys_updated_on_msecs]: [new Date(s).getTime()] is a
    number of milliseconds, or [NaN] when the date does not parse; in a
    file, where [JSON.stringify] has written [NaN] as [null], it is a
    number or [null]. *)
Inductive msecs :=
  | Msecs (z : Z)
  | NaN
  | Null.

Record Article := {
  sys_id : string;
  number : string;
  version : Version;
  short_description : string;
  kb_knowledge_base : string;
  sys_domain : string;
  sys_updated_on : string;
  sys_updated_on_msecs : msecs
}.

(** What [JSON.parse] reads back of what [JSON.stringify] wrote for an
    article: [NaN] has become [null], the other values are as they
    were. *)
Definition json_msecs (m : msecs) : msecs :=
  match m with
  | NaN => Null
  | _ => m
  end.

Definition json_article (a : Article) : Article :=
  {| sys_id := sys_id a; number := number a; version := version a;
     short_description := short_description a;
     kb_knowledge_base := kb_knowledge_base a; sys_domain := sys_domain a;
     sys_updated_on := sys_updated_on a;
     sys_updated_on_msecs := json_msecs (sys_updated_on_msecs a) |}.

Record Changes := {
  added : list string;
  updated : list string;
  removed : list string
}.

Record ChangesFile := { last_updated_on : string; changes : Changes }.

Inductive content :=
  | JsonArticles (l : list Article)
  | JsonChanges (r : ChangesFile)
  | Pdf (articleNumber : string)
  | Opaque (bytes : string).

Inductive node :=
  | Dir
  | File (c : content).

#[global] Instance Version_eq_dec : EqDecision Version.
Proof. solve_decision. Defined.
#[global] Instance msecs_eq_dec : EqDecision msecs.
Proof. solve_decision. Defined.
#[global] Instance Article_eq_dec : EqDecision Article.
Proof. solve_decision. Defined.
#[global] Instance Changes_eq_dec : EqDecision Changes.
Proof. solve_decision. Defined.
#[global] Instance ChangesFile_eq_dec : EqDecision ChangesFile.
Proof. solve_decision. Defined.
#[global] Instance content_eq_dec : EqDecision content.
Proof. solve_decision. Defined.
#[global] Instance node_eq_dec : EqDecision node.
Proof. solve_decision. Defined.

(** The file system maps the segments of an absolute path to what lies
    there. *)
Abbreviation FS := (gmap (list string) node).

Module NodeFs.

Definition existsSync (fs : FS) (p : list string) : bool :=
  bool_decide (is_Some (fs !! p)).

Definition isDirectory (n : node) : bool :=
  match n with Dir => true | File _ => false end.

(** [lstat]: throws when nothing lies at [p]. *)
Definition lstat (fs : FS) (p : list string) : option node := fs !! p.

Definition is_dir (fs : FS) (p : list string) : bool :=
  bool_decide (p = [] ∨ fs !! p = Some Dir).

Definition parent (p : list string) : list string := removelast p.

(** The names of the entries directly below [p]. *)
Definition child_name (p : list string) (k : list string) : option string :=
  match last k with
  | Some name => if decide (k = p ++ [name]) then Some name else None
  | None => None
  end.

Definition readdir (fs : FS) (p : list string) : option (list string) :=
  if is_dir fs p then Some (omap (λ kv, child_name p kv.1) (map_to_list fs))
  else None.

(** [writeFile]: throws on a directory and when the parent folder is
    missing. *)
Definition writeFile (fs : FS) (p : list string) (c : content) : option FS :=
  match fs !! p with
  | Some Dir => None
  | _ => if is_dir fs (parent p) then Some (<[p := File c]> fs) else None
  end.

(** [unlink]: removes a file; throws on a directory or a missing path. *)
Definition unlink (fs : FS) (p : list string) : option FS :=
  match fs !! p with
  | Some (File _) => Some (delete p fs)
  | _ => None
  end.

(** [rm(p, { recursive: true, force: true })] *)
Definition rm_rf (fs : FS) (p : list string) : FS :=
  filter (λ kv, ¬ (p `prefix_of` kv.1)) fs.

Definition subtree (fs : FS) (p : list string) : FS :=
  filter (λ kv, p `prefix_of` kv.1) fs.

Definition has_children (fs : FS) (p : list string) : bool :=
  bool_decide (Exists (λ kv, p `prefix_of` kv.1 ∧ kv.1 ≠ p) (map_to_list fs)).

Definition move_tree (fs : FS) (a b : list string) : FS :=
  list_to_map ((λ kv, (b ++ drop (length a) kv.1, kv.2))
               <$> map_to_list (subtree fs a)) ∪ rm_rf (rm_rf fs b) a.

(** [renameSync(a, b)]: a file replaces a file; a folder moves with all
    that is below it onto a free path or an empty folder; every other
    combination throws. *)
Definition renameSync (fs : FS) (a b : list string) : option FS :=
  match fs !! a with
  | None => None
  | Some (File c) =>
      match fs !! b with
      | Some Dir => None
      | _ => if is_dir fs (parent b) then Some (<[b := File c]> (delete a fs))
             else None
      end
  | Some Dir =>
      if decide (a = b) then Some fs
      else if bool_decide (a `prefix_of` b) then None
      else match fs !! b with
           | Some (File _) => None
           | Some Dir => if has_children fs b then None else Some (move_tree fs a b)
           | None => if is_dir fs (parent b) then Some (move_tree fs a b) else None
           end
  end.

(** The non-empty prefixes of a path, shortest first. *)
Fixpoint ancestors_from (pre p : list string) : list (list string) :=
  match p with
  | [] => []
  | s :: p' => (pre ++ [s]) :: ancestors_from (pre ++ [s]) p'
  end.

(** [mkdirSync(p, { recursive: true })]: creates the missing folders of
    the path; throws when a file is in the way. *)
Definition mkdirSync (fs : FS) (p : list string) : option FS :=
  fold_left
    (λ acc q, fs' ← acc;
              match fs' !! q with
              | Some (File _) => None
              | Some Dir => Some fs'
              | None => Some (<[q := Dir]> fs')
              end)
    (ancestors_from [] p) (Some fs).

End NodeFs.

(** ** glob: the patterns the program uses *)

Module Glob.

(** One path segment against one pattern segment: [*] stands for any run
    of characters, [?] for one. *)
Fixpoint wild_match (pat s : string) : bool :=
  match pat with
  | EmptyString => match s with EmptyString => true | String _ _ => false end
  | String c pat' =>
      if Ascii.eqb c "*"%char then
        (fix star (s : string) : bool :=
           wild_match pat' s
           || match s with
              | EmptyString => false
              | String _ s' => star s'
              end) s
      else match s with
           | EmptyString => false
           | String d s' => (Ascii.eqb c "?"%char || Ascii.eqb c d) && wild_match pat' s'
           end
  end.

Definition starts_with_dot (s : string) : bool :=
  match s with
  | String c _ => Ascii.eqb c "."%char
  | EmptyString => false
  end.

(** A name that starts with a dot is matched only by a pattern segment
    that starts with a dot. *)
Definition seg_match (pat s : string) : bool :=
  wild_match pat s && (negb (starts_with_dot s) || starts_with_dot pat).

Fixpoint segs_match (pats ss : list string) : bool :=
  match pats, ss with
  | [], [] => true
  | p :: pats', s :: ss' => seg_match p s && segs_match pats' ss'
  | _, _ => false
  end.

(** A key of the file system against a pattern: an absolute pattern is
    laid over the whole key and the match is the absolute path; a relative
    pattern is laid over what follows [cwd] and the match is relative to
    [cwd]. *)
Definition match_key (cwd : list string) (pat : Path.path) (k : list string)
  : option Path.path :=
  if Path.absolute pat then
    if segs_match (Path.segs pat) k
    then Some {| Path.absolute := true; Path.segs := k |} else None
  else
    if bool_decide (cwd `prefix_of` k) && segs_match (Path.segs pat) (drop (length cwd) k)
    then Some {| Path.absolute := false; Path.segs := drop (length cwd) k |}
    else None.

(** [glob.sync(pattern, { cwd })]; [cwd] is resolved first. *)
Definition sync (fs : FS) (cwd : list string) (pattern : string) : list Path.path :=
  omap (λ kv, match_key (Path.normalize_segs false cwd) (Path.of_string pattern) kv.1)
       (map_to_list fs).

End Glob.

(** ** core/fs_tools.js *)

Module FsTools.

(** What a caller hands over as [patterns]: an array of strings, [null],
    or (one call site) a function, of which only [length], its number of
    declared parameters, is looked at. *)
Inductive js_patterns :=
  | PatArray (ps : list string)
  | PatNull
  | PatFunction (arity : nat).

(** [patterns && patterns.length > 0] *)
Definition has_patterns (patterns : js_patterns) : bool :=
  match patterns with
  | PatArray ps => bool_decide (0 < length ps)
  | PatNull => false
  | PatFunction arity => bool_decide (0 < arity)
  end.

(** [Set.prototype.add]: insertion order, no duplicates. *)
Definition set_add (acc : list Path.path) (x : Path.path) : list Path.path :=
  if decide (x ∈ acc) then acc else acc ++ [x].

(** The body of the deletion loop for one entry; [None] when [lstat] or
    [unlink] throws. *)
Definition delete_entry (fs : FS) (folderPath : list string) (file : Path.path)
  : option FS :=
  let filePath := Path.join folderPath file in
  match NodeFs.lstat fs filePath with
  | None => None
  | Some stat =>
      if NodeFs.isDirectory stat then Some (NodeFs.rm_rf fs filePath)
      else NodeFs.unlink fs filePath
  end.

(** The deletion loop: the first throw leaves the loop, what was deleted
    before stays deleted. *)
Fixpoint delete_loop (fs : FS) (folderPath : list string) (files : list Path.path)
  : FS :=
  match files with
  | [] => fs
  | file :: rest =>
      match delete_entry fs folderPath file with
      | None => fs
      | Some fs' => delete_loop fs' folderPath rest
      end
  end.

(** The matches of all non-empty patterns, in order. *)
Definition glob_all (fs : FS) (folderPath : list string) (ps : list string)
  : list Path.path :=
  fold_left
    (λ filesToDelete pattern,
       fold_left set_add (Glob.sync fs folderPath pattern) filesToDelete)
    (filter (λ pattern, pattern ≠ "") ps) [].

Definition removeFolderContents (fs : FS) (folderPath : list string)
    (patterns : js_patterns) : FS :=
  match NodeFs.readdir fs (Path.normalize_segs false folderPath) with
  | None => fs
  | Some files =>
      if has_patterns patterns then
        match patterns with
        | PatArray ps => delete_loop fs folderPath (glob_all fs folderPath ps)
        | _ => fs (* [patterns.filter] is not a function *)
        end
      else
        delete_loop fs folderPath
          (fold_left set_add (Path.of_string <$> files) [])
  end.

End FsTools.

(** ** core/session.js *)

Module Session.

Definition LOCK_FILE_NAME : string := "operation_in_progress.lock".

Inductive completion := Returns | Throws.

Definition lockFilePath (targetFolder : list string) : list string :=
  Path.join targetFolder (Path.of_string LOCK_FILE_NAME).

Definition canOpenSession (fs : FS) (targetFolder : list string) : bool :=
  negb (NodeFs.existsSync fs (lockFilePath targetFolder)).

(** [uuid] is the content [uuidv4()] returns. *)
Definition openSession (fs : FS) (targetFolder : list string) (uuid : string)
  : FS * completion :=
  if NodeFs.existsSync fs (lockFilePath targetFolder) then (fs, Throws)
  else match NodeFs.writeFile fs (lockFilePath targetFolder) (Opaque uuid) with
       | Some fs' => (fs', Returns)
       | None => (fs, Throws)
       end.

Definition closeSession (fs : FS) (targetFolder : list string) : FS * completion :=
  if negb (NodeFs.existsSync fs (lockFilePath targetFolder)) then (fs, Returns)
  else match NodeFs.unlink fs (lockFilePath targetFolder) with
       | Some fs' => (fs', Returns)
       | None => (fs, Throws)
       end.

End Session.

(** ** The JavaScript [Map], keyed by strings *)

Module JSMap.

Section JSMap.
Context {V : Type}.

(** Entries in insertion order; every key occurs once. *)
Definition t := list (string * V).

(** [map.set(k, v)]: a known key keeps its place and takes the new value,
    a new key goes to the end. *)
Fixpoint set (m : t) (k : string) (v : V) : t :=
  match m with
  | [] => [(k, v)]
  | (k', v') :: m' =>
      if decide (k' = k) then (k', v) :: m' else (k', v') :: set m' k v
  end.

(** [new Map(entries)] *)
Definition of_entries (entries : list (string * V)) : t :=
  fold_left (λ m kv, set m kv.1 kv.2) entries [].

Fixpoint get (m : t) (k : string) : option V :=
  match m with
  | [] => None
  | (k', v') :: m' => if decide (k' = k) then Some v' else get m' k
  end.

Definition has (m : t) (k : string) : bool :=
  match get m k with Some _ => true | None => false end.

End JSMap.

Arguments t : clear implicits.

End JSMap.

(** ** core/sn_tools.js *)

(** The world outside the program during one run.  The instance name, the
    credentials and the filter that the functions below take in the source
    only reach the catalog and the browser; they are part of this record
    and not repeated as parameters. *)
Record Env := {
  (** what the Table API call yields after the per-article mapping;
      [None] when the request is rejected or the response has no
      [data.result] array *)
  remote : option (list Article);
  (** whether the browser starts and the login goes through *)
  browser_ok : bool;
  (** whether the browser prints the page of an article *)
  render_ok : string → bool;
  (** [new Date().toISOString()] *)
  now : string;
  (** [$m.length]: 0 for the default [function () {}] *)
  monitor_arity : nat
}.

Module SnTools.

Definition getArticlesList (env : Env) (fs : FS) (targetFile : list string)
  : FS * option (list Article) :=
  match remote env with
  | Some articles =>
      (match NodeFs.writeFile fs targetFile
               (JsonArticles (json_article <$> articles)) with
       | Some fs' => fs'
       | None => fs
       end, Some articles)
  | None => (fs, None)
  end.

Definition pdfPath (targetDir : list string) (articleNumber : string) : list string :=
  Path.join targetDir (Path.of_string (articleNumber +:+ ".pdf")).

(** One turn of the download loop.  The state carries the file system and
    the article numbers for which "Failed to download" was reported. *)
Definition download_one (env : Env) (targetDir : list string)
    (st : FS * list string) (articleNumber : string) : FS * list string :=
  if render_ok env articleNumber then
    match NodeFs.writeFile st.1 (pdfPath targetDir articleNumber) (Pdf articleNumber) with
    | Some fs' => (fs', st.2)
    | None => (st.1, st.2 ++ [articleNumber])
    end
  else (st.1, st.2 ++ [articleNumber]).

(** [None]: the browser or the login threw, before anything was touched.
    The call of [removeFolderContents] is not awaited in the source; its
    effect is placed where the call is made, before the first download. *)
Definition fetchArticles (env : Env) (fs : FS) (articleNumbers : list string)
    (targetDir : list string) (resetTarget : bool) : option (FS * list string) :=
  if browser_ok env then
    let fs1 :=
      if resetTarget
      then FsTools.removeFolderContents fs targetDir
             (FsTools.PatFunction (monitor_arity env))
      else fs in
    Some (fold_left (download_one env targetDir) articleNumbers (fs1, []))
  else None.

(** [readFile] and [JSON.parse] of an article list. *)
Definition read_articles (fs : FS) (p : list string) : option (list Article) :=
  match fs !! p with
  | Some (File (JsonArticles l)) => Some l
  | _ => None
  end.

Definition push_added (ch : Changes) (n : string) : Changes :=
  {| added := added ch ++ [n]; updated := updated ch; removed := removed ch |}.
Definition push_updated (ch : Changes) (n : string) : Changes :=
  {| added := added ch; updated := updated ch ++ [n]; removed := removed ch |}.
Definition push_removed (ch : Changes) (n : string) : Changes :=
  {| added := added ch; updated := updated ch; removed := removed ch ++ [n] |}.

(** The callback of [currArticles.forEach]. *)
Definition visit_curr (olderArticles : JSMap.t Article) (ch : Changes)
    (entry : string * Article) : Changes :=
  let '(sid, article) := entry in
  if negb (JSMap.has olderArticles sid) then push_added ch (number article)
  else match JSMap.get olderArticles sid with
       | Some older =>
           if decide (display_value (version article)
                      ≠ display_value (version older))
           then push_updated ch (number article) else ch
       | None => ch
       end.

(** The callback of [olderArticles.forEach]. *)
Definition visit_older (currArticles : JSMap.t Article) (ch : Changes)
    (entry : string * Article) : Changes :=
  let '(sid, article) := entry in
  if negb (JSMap.has currArticles sid) then push_removed ch (number article)
  else ch.

(** The part of [getKBChanges] between the two reads and the write. *)
Definition detect_changes (currList olderList : list Article) : Changes :=
  let currArticles := JSMap.of_entries ((λ article, (sys_id article, article)) <$> currList) in
  let olderArticles := JSMap.of_entries ((λ article, (sys_id article, article)) <$> olderList) in
  let changes := {| added := []; updated := []; removed := [] |} in
  let changes := fold_left (visit_curr olderArticles) currArticles changes in
  fold_left (visit_older currArticles) olderArticles changes.

Definition getKBChanges (env : Env) (fs : FS)
    (currListFile olderListFile targetChangesFile : list string)
  : FS * option ChangesFile :=
  match read_articles fs currListFile with
  | None => (fs, None)
  | Some currList =>
      match read_articles fs olderListFile with
      | None => (fs, None)
      | Some olderList =>
          let changesFileContent :=
            {| last_updated_on := now env;
               changes := detect_changes currList olderList |} in
          match NodeFs.writeFile fs targetChangesFile (JsonChanges changesFileContent) with
          | Some fs' => (fs', Some changesFileContent)
          | None => (fs, None)
          end
      end
  end.

End SnTools.

(** ** business/operation.js *)

Module Operation.

Definition resetWorkspace (fs : FS) (folderPath : list string) : FS :=
  FsTools.removeFolderContents fs folderPath
    (FsTools.PatArray ["PDFs"; "*.json*"; "*.pdf"; "*.zip"]).

Definition doListingOnly (env : Env) (fs : FS) (folderPath : list string)
    (targetFileName : string) : FS * option (list Article) :=
  let fs := resetWorkspace fs folderPath in
  let listFilePath := Path.resolve folderPath (Path.of_string (targetFileName +:+ ".json")) in
  SnTools.getArticlesList env fs listFilePath.

Definition doListingWithChanges (env : Env) (fs : FS) (folderPath : list string)
    (listFileName changesFileName : string) : FS * option ChangesFile :=
  let listFilePath := Path.resolve folderPath (Path.of_string (listFileName +:+ ".json")) in
  if negb (NodeFs.existsSync fs listFilePath) then (fs, None)
  else
    let oldListFilePath := Path.append_to_last listFilePath ".old" in
    match NodeFs.renameSync fs listFilePath oldListFilePath with
    | None => (fs, None)
    | Some fs =>
        let '(fs, _) := SnTools.getArticlesList env fs listFilePath in
        let changesFilePath :=
          Path.resolve folderPath (Path.of_string (changesFileName +:+ ".json")) in
        SnTools.getKBChanges env fs listFilePath oldListFilePath changesFilePath
    end.

(** The operations that download return the file system and the article
    numbers whose download was reported as failed. *)
Definition doListingWithFiles (env : Env) (fs : FS) (folderPath : list string)
    (targetFileName : string) : FS * list string :=
  let '(fs, articlesList) := doListingOnly env fs folderPath targetFileName in
  let pdfHome := Path.join folderPath (Path.of_string "PDFs") in
  match (if NodeFs.existsSync fs pdfHome then Some fs else NodeFs.mkdirSync fs pdfHome) with
  | None => (fs, [])
  | Some fs =>
      match articlesList with
      | None => (fs, []) (* [articlesList.map] on [undefined] *)
      | Some articlesList =>
          let articleNumbers := number <$> articlesList in
          match SnTools.fetchArticles env fs articleNumbers pdfHome false with
          | Some r => r
          | None => (fs, [])
          end
      end
  end.

(** The block that handles removals and updates. *)
Definition remove_stale (fs : FS) (folderPath : list string)
    (changesReport : ChangesFile) (newerOnly : bool) : FS :=
  let pdfHome := Path.join folderPath (Path.of_string "PDFs") in
  if negb newerOnly then
    let articlesToRemove :=
      removed (changes changesReport) ++ updated (changes changesReport) in
    if bool_decide (0 < length articlesToRemove) then
      let removals :=
        (λ articleNumber,
           Path.to_string (Path.join pdfHome (Path.of_string (articleNumber +:+ ".pdf"))))
        <$> articlesToRemove in
      FsTools.removeFolderContents fs folderPath (FsTools.PatArray removals)
    else fs
  else fs.

(** The block that handles additions and updates. *)
Definition download_fresh (env : Env) (fs : FS) (folderPath : list string)
    (changesReport : ChangesFile) (newerOnly : bool) : FS * list string :=
  let pdfHome := Path.join folderPath (Path.of_string "PDFs") in
  let articlesToDownload :=
    updated (changes changesReport) ++ added (changes changesReport) in
  if bool_decide (0 < length articlesToDownload) then
    match SnTools.fetchArticles env fs articlesToDownload pdfHome newerOnly with
    | Some r => r
    | None => (fs, [])
    end
  else (fs, []).

Definition doChangesWithFiles (env : Env) (fs : FS) (folderPath : list string)
    (listFileName changesFileName : string) (newerOnly : bool) : FS * list string :=
  let listFilePath := Path.resolve folderPath (Path.of_string (listFileName +:+ ".json")) in
  if negb (NodeFs.existsSync fs listFilePath) then
    doListingWithFiles env fs folderPath listFileName
  else
    let '(fs, changesReport) :=
      doListingWithChanges env fs folderPath listFileName changesFileName in
    match changesReport with
    | Some changesReport =>
        let fs := remove_stale fs folderPath changesReport newerOnly in
        download_fresh env fs folderPath changesReport newerOnly
    | None => (fs, [])
    end.

End Operation.

(** ** core/config_tools.js *)

(** The JavaScript values that occur in settings and parsed arguments.
    A missing property ([undefined]) is a failed lookup. *)
Inductive jsval :=
  | JNull
  | JBool (b : bool)
  | JNum (z : Z)
  | JStr (s : string)
  | JObject.

#[global] Instance jsval_eq_dec : EqDecision jsval.
Proof. solve_decision. Defined.

(** A plain object used as a dictionary. *)
Abbreviation Obj := (gmap string jsval).

Module ConfigTools.

(** [!!v] *)
Definition truthy (v : option jsval) : bool :=
  match v with
  | None | Some JNull => false
  | Some (JBool b) => b
  | Some (JNum z) => negb (z =? 0)%Z
  | Some (JStr s) => negb (bool_decide (s = ""))
  | Some JObject => true
  end.

(** [a === b]; two objects are never the same object here, since one
    comes from the file and the other from the command line. *)
Definition strict_eq (a b : jsval) : bool :=
  match a, b with
  | JObject, _ | _, JObject => false
  | _, _ => bool_decide (a = b)
  end.

(** The white space and the line terminators [String.prototype.trim]
    strips.  A string is the UTF-8 text of the file; the characters are
    recognised by their bytes.  In one byte: U+0009 to U+000D and
    U+0020. *)
Definition is_space (c : ascii) : bool :=
  let n := nat_of_ascii c in
  bool_decide (n = 32 ∨ (9 ≤ n ∧ n ≤ 13))%nat.

(** In two bytes: U+00A0. *)
Definition is_space2 (c1 c2 : ascii) : bool :=
  bool_decide (nat_of_ascii c1 = 194 ∧ nat_of_ascii c2 = 160)%nat.

(** In three bytes: U+1680, U+2000 to U+200A, U+2028, U+2029, U+202F,
    U+205F, U+3000 and U+FEFF. *)
Definition is_space3 (c1 c2 c3 : ascii) : bool :=
  let n1 := nat_of_ascii c1 in
  let n2 := nat_of_ascii c2 in
  let n3 := nat_of_ascii c3 in
  bool_decide
    ((n1 = 225 ∧ n2 = 154 ∧ n3 = 128) ∨
     (n1 = 226 ∧ n2 = 128 ∧
      ((128 ≤ n3 ∧ n3 ≤ 138) ∨ n3 = 168 ∨ n3 = 169 ∨ n3 = 175)) ∨
     (n1 = 226 ∧ n2 = 129 ∧ n3 = 159) ∨
     (n1 = 227 ∧ n2 = 128 ∧ n3 = 128) ∨
     (n1 = 239 ∧ n2 = 187 ∧ n3 = 191))%nat.

(** [s.trim() === ""]: the string is made of such characters only. *)
Fixpoint is_blank (s : string) : bool :=
  match s with
  | EmptyString => true
  | String c1 s1 =>
      if is_space c1 then is_blank s1
      else match s1 with
           | EmptyString => false
           | String c2 s2 =>
               if is_space2 c1 c2 then is_blank s2
               else match s2 with
                    | EmptyString => false
                    | String c3 s3 =>
                        if is_space3 c1 c2 c3 then is_blank s3 else false
                    end
           end
  end.

Record profile := {
  name : jsval;
  settings : option (list (string * jsval))
}.

(** The configuration file: unreadable or not JSON, JSON without a
    [profiles] array, or the profiles. *)
Inductive config_file :=
  | Unreadable
  | InvalidStructure
  | Profiles (profiles : list profile).

Definition validStorageModes : list jsval :=
  [JStr "files"; JStr "archived_files"; JStr "single_file";
   JStr "single_archived_file"].

Definition validOperationModes : list jsval :=
  [JStr "list"; JStr "list_changes"; JStr "list_files";
   JStr "list_changes_files"; JStr "list_changes_files_delta"].

(** [array.includes(value)] *)
Definition includes (l : list jsval) (v : jsval) : bool :=
  existsb (strict_eq v) l.

(** The value stored under [key] by the loop over the settings. *)
Definition is_blank_string (value : jsval) : bool :=
  match value with
  | JStr s => is_blank s
  | _ => false
  end.

Definition filter_setting (key : string) (value : jsval) : jsval :=
  if is_blank_string value then JNull
  else if bool_decide (key = "storage_mode") && negb (includes validStorageModes value)
  then JNull
  else if bool_decide (key = "operation_mode") && negb (includes validOperationModes value)
  then JNull
  else value.

(** [result[key] = ...] in the loop over the settings.  An assignment to
    [__proto__] goes to the setter of [Object.prototype]: it gives the
    object no property of its own. *)
Definition assign_setting (result : Obj) (kv : string * jsval) : Obj :=
  if bool_decide (kv.1 = "__proto__") then result
  else <[kv.1 := filter_setting kv.1 kv.2]> result.

Definition getConfigData (file : config_file) (profileName : jsval) : option Obj :=
  match file with
  | Unreadable | InvalidStructure => None
  | Profiles profiles =>
      match find (λ p, strict_eq (name p) profileName) profiles with
      | None => None
      | Some profile =>
          let settings := default [] (settings profile) in
          Some (fold_left assign_setting settings ∅)
      end
  end.

(** [{ ...implicit, ...explicit, ...given }]: later spreads win. *)
Definition mergeData (implicit explicit given : Obj) : Obj :=
  given ∪ explicit ∪ implicit.

(** A call [mergeData(a0, a1, ...)]: the three formal parameters take
    the first three actual arguments, a missing one is [undefined] and
    spreads to nothing, further ones are bound to no parameter. *)
Definition call_mergeData (arguments : list Obj) : Obj :=
  mergeData (default ∅ (arguments !! 0)) (default ∅ (arguments !! 1))
            (default ∅ (arguments !! 2)).

End ConfigTools.

(** ** business/main.js *)

Module Main.

(** An entry of [appArgs]: the alternatives of the first group of its
    [payload], and its [mandatory] flag. *)
Record AppArg := { arg_names : list string; mandatory : bool }.

Record Input := { appArgDefaults : Obj; appArgs : list AppArg }.

Inductive OperationMode :=
  | list_mode
  | list_changes
  | list_files
  | list_changes_files.

(** How [mainExec] goes on after reading its configuration: it resolves
    with an exit code, or it runs an operation on the final input data,
    or [openSession], which is called outside the [try], throws: the
    promise is then never settled. *)
Inductive plan :=
  | Exit (code : nat)
  | Run (mode : OperationMode) (finalInputData : Obj)
  | Unsettled.

Definition finalInputData (input : Input) (file : ConfigTools.config_file)
    (args : Obj) : Obj :=
  let defaultProfileData :=
    default ∅ (ConfigTools.getConfigData file (JStr "default")) in
  let profileData :=
    if ConfigTools.truthy (args !! "config_profile")
    then default ∅ (ConfigTools.getConfigData file (default JNull (args !! "config_profile")))
    else ∅ in
  ConfigTools.call_mergeData
    [appArgDefaults input; defaultProfileData; profileData; args].

(** The name of the first mandatory argument that is missing. *)
Definition missing_mandatory (input : Input) (final : Obj) : option string :=
  head (omap (λ a, if mandatory a
                   then let argName := default "" (head (arg_names a)) in
                        if ConfigTools.truthy (final !! argName) then None
                        else Some argName
                   else None)
             (appArgs input)).

Definition operation_of (final : Obj) : option OperationMode :=
  match final !! "operation_mode" with
  | Some (JStr "list") => Some list_mode
  | Some (JStr "list_changes") => Some list_changes
  | Some (JStr "list_files") => Some list_files
  | Some (JStr "list_changes_files") => Some list_changes_files
  | _ => None
  end.

(** [mainExec] up to the [switch] on the operation mode.  [args] is what
    [getArguments] returned; [dir_ok] and [lock_free] are the answers of
    the two checks on the output directory; [session_opens] tells whether
    [openSession] returns (it throws when the lock file cannot be
    written, as when the output directory is a regular file). *)
Definition mainExec (input : Input) (file : ConfigTools.config_file)
    (args : option Obj) (dir_ok lock_free session_opens : bool) : plan :=
  match args with
  | None => Exit 2
  | Some args =>
      if ConfigTools.truthy (args !! "help") then Exit 1
      else if ConfigTools.truthy (args !! "init_config") then Exit 1
      else
        let final := finalInputData input file args in
        match missing_mandatory input final with
        | Some _ => Exit 2
        | None =>
            if negb (ConfigTools.truthy (final !! "output_dir")) then Exit 2
            else if negb dir_ok then Exit 2
            else if negb lock_free then Exit 2
            else if negb session_opens then Unsettled
            else match operation_of final with
                 | Some mode => Run mode final
                 | None => Exit 2
                 end
        end
  end.

End Main.

(** The string the [switch] of [mainExec] compares the operation mode
    with. *)
Definition operation_name (mode : Main.OperationMode) : string :=
  match mode with
  | Main.list_mode => "list"
  | Main.list_changes => "list_changes"
  | Main.list_files => "list_files"
  | Main.list_changes_files => "list_changes_files"
  end.

(** ** business/main.js, from the session on *)

Module Run.

(** [ensureSetup(output_dir, { content: [{ type: "folder", path: "PDFs" }] })];
    a throw of [mkdirSync] is caught there. *)
Definition ensurePdfsFolder (fs : FS) (output_dir : list string) : FS :=
  let itemPath := Path.join output_dir (Path.of_string "PDFs") in
  if negb (NodeFs.existsSync fs itemPath) then
    match NodeFs.mkdirSync fs itemPath with
    | Some fs' => fs'
    | None => fs
    end
  else fs.

(** The [switch] on the operation mode. *)
Definition operation (env : Env) (fs : FS) (output_dir : list string)
    (mode : Main.OperationMode) (newer_only : bool) : FS :=
  match mode with
  | Main.list_mode =>
      (Operation.doListingOnly env fs output_dir "file_list").1
  | Main.list_changes =>
      (Operation.doListingWithChanges env fs output_dir "file_list" "file_changes").1
  | Main.list_files =>
      (Operation.doListingWithFiles env fs output_dir "file_list").1
  | Main.list_changes_files =>
      (Operation.doChangesWithFiles env fs output_dir "file_list" "file_changes"
         newer_only).1
  end.

(** [mainExec] once its checks are passed, for the storage mode [files]:
    the block that handles the storage mode then only reads the list
    file.  [None]: [openSession] threw, outside the [try]. *)
Definition session (env : Env) (fs : FS) (output_dir : list string)
    (mode : Main.OperationMode) (newer_only : bool) (uuid : string) : option FS :=
  match Session.openSession fs output_dir uuid with
  | (fs, Session.Returns) =>
      let fs := ensurePdfsFolder fs output_dir in
      let fs := operation env fs output_dir mode newer_only in
      Some (Session.closeSession fs output_dir).1
  | (_, Session.Throws) => None
  end.

End Run.

(** ** The Diff Engine as the specification words it *)

Module Spec.

Definition ids (l : list Article) : list string := sys_id <$> l.

Definition label (a : Article) : string := display_value (version a).

(** Present in the new snapshot, absent (by identity) from the old. *)
Definition is_added (oldSnapshot : list Article) (a : Article) : Prop :=
  sys_id a ∉ ids oldSnapshot.

(** Present in both, and the version label differs. *)
Definition is_updated (oldSnapshot : list Article) (a : Article) : Prop :=
  Exists (λ o, sys_id o = sys_id a ∧ label o ≠ label a) oldSnapshot.

(** Present in the old snapshot, absent from the new. *)
Definition is_removed (newSnapshot : list Article) (o : Article) : Prop :=
  sys_id o ∉ ids newSnapshot.

#[global] Instance is_added_dec old a : Decision (is_added old a).
Proof. unfold is_added. apply _. Defined.
#[global] Instance is_updated_dec old a : Decision (is_updated old a).
Proof. unfold is_updated. apply _. Defined.
#[global] Instance is_removed_dec new o : Decision (is_removed new o).
Proof. unfold is_removed. apply _. Defined.

(** The articles behind the three buckets, in snapshot order. *)
Definition added_articles (oldSnapshot newSnapshot : list Article) : list Article :=
  filter (is_added oldSnapshot) newSnapshot.
Definition updated_articles (oldSnapshot newSnapshot : list Article) : list Article :=
  filter (is_updated oldSnapshot) newSnapshot.
Definition removed_articles (oldSnapshot newSnapshot : list Article) : list Article :=
  filter (is_removed newSnapshot) oldSnapshot.

(** [diff(oldSnapshot, newSnapshot)]: each bucket lists the [number]s. *)
Definition diff (oldSnapshot newSnapshot : list Article) : Changes :=
  {| added := number <$> added_articles oldSnapshot newSnapshot;
     updated := number <$> updated_articles oldSnapshot newSnapshot;
     removed := number <$> removed_articles oldSnapshot newSnapshot |}.

(** The last record of a list that bears a given identity. *)
Definition last_record (l : list Article) (sid : string) : option Article :=
  last (filter (λ a, sys_id a = sid) l).

End Spec.

(** The records a [Map] built from a list holds, in its iteration order. *)
Definition map_records (l : list Article) : list Article :=
  (JSMap.of_entries ((λ article, (sys_id article, article)) <$> l)).*2.

(** The folder and the files of a standard run. *)
Definition pdfHome (folderPath : list string) : list string :=
  Path.join folderPath (Path.of_string "PDFs").

Definition listFile (folderPath : list string) : list string :=
  Path.resolve folderPath (Path.of_string "file_list.json").

Definition oldListFile (folderPath : list string) : list string :=
  Path.append_to_last (listFile folderPath) ".old".

Definition changesFile (folderPath : list string) : list string :=
  Path.resolve folderPath (Path.of_string "file_changes.json").

Definition is_file (fs : FS) (p : list string) : Prop :=
  ∃ c, fs !! p = Some (File c).

#[global] Instance is_file_dec fs p : Decision (is_file fs p).
Proof.
  unfold is_file. destruct (fs !! p) as [[|c]|].
  - right. by intros [c [=]].
  - left. by exists c.
  - right. by intros [c [=]].
Defined.

(** The names of the entries of the PDFs folder. *)
Definition pdf_names (fs : FS) (folderPath : list string) : list string :=
  default [] (NodeFs.readdir fs (pdfHome folderPath)).

(** The PDFs folder holds one file [<number>.pdf] for every article of
    the snapshot and nothing else. *)
Definition folder_matches (fs : FS) (folderPath : list string)
    (snapshot : list Article) : Prop :=
  ∀ name, name ∈ pdf_names fs folderPath ↔
          name ∈ ((λ a, number a +:+ ".pdf") <$> snapshot).

(** ** Well-formed paths *)

Fixpoint no_slash (s : string) : bool :=
  match s with
  | EmptyString => true
  | String c s' => negb (Ascii.eqb c "/"%char) && no_slash s'
  end.

(** A name as a folder lists it: not empty, not [.] or [..], and without
    a slash. *)
Definition plain (s : string) : Prop :=
  s ≠ "" ∧ s ≠ "." ∧ s ≠ ".." ∧ no_slash s = true.

#[global] Instance plain_dec s : Decision (plain s).
Proof. unfold plain. apply _. Defined.

(** Every path of the file system is made of such names. *)
Definition well_formed (fs : FS) : Prop :=
  ∀ k, is_Some (fs !! k) → Forall plain k.

(** Every entry lies in a folder. *)
Definition tree (fs : FS) : Prop :=
  ∀ k, is_Some (fs !! k) → NodeFs.is_dir fs (NodeFs.parent k) = true.

(** The patterns [resetWorkspace] hands to [removeFolderContents], and
    the names of a folder they match. *)
Definition reset_patterns : list string := ["PDFs"; "*.json*"; "*.pdf"; "*.zip"].

Definition reset_match (name : string) : bool :=
  existsb (λ pattern, Glob.seg_match pattern name) reset_patterns.

(** ** A sample workspace *)

Module Sample.

Definition article (sid num label : string) : Article :=
  {| sys_id := sid; number := num; version := {| display_value := label |};
     short_description := "How to reset a password";
     kb_knowledge_base := "IT"; sys_domain := "global";
     sys_updated_on := "2024-07-09 14:52:03";
     sys_updated_on_msecs := Msecs 1720536723000 |}.

Definition folder : list string := ["home"; "kb"; "out"].

(** The output directory with its PDFs folder, and nothing in them. *)
Definition empty_workspace : FS :=
  <[folder ++ ["PDFs"] := Dir]>
    (<[folder := Dir]> (<[["home"; "kb"] := Dir]> (<[["home"] := Dir]> ∅))).

(** A workspace after a run that listed [snapshot] and rendered [pdfs]. *)
Definition workspace (snapshot : list Article) (pdfs : list string) : FS :=
  foldr (λ n fs, <[folder ++ ["PDFs"; n +:+ ".pdf"] := File (Pdf n)]> fs)
        (<[folder ++ ["file_list.json"] := File (JsonArticles snapshot)]> empty_workspace)
        pdfs.

(** The catalog answers with [snapshot]; the browser works; the callback
    is the one of index.js, with one parameter. *)
Definition online (snapshot : list Article) : Env :=
  {| remote := Some snapshot; browser_ok := true; render_ok := λ _, true;
     now := "2024-07-10T02:00:00.000Z"; monitor_arity := 1 |}.

(** The request to the catalog fails. *)
Definition offline : Env :=
  {| remote := None; browser_ok := true; render_ok := λ _, true;
     now := "2024-07-10T02:00:00.000Z"; monitor_arity := 1 |}.

(** The arguments index.js declares, and its built-in defaults. *)
Definition input : Main.Input :=
  {| Main.appArgDefaults :=
       <["storage_mode" := JStr "files"]> (<["operation_mode" := JStr "list_files"]> ∅);
     Main.appArgs :=
       [ {| Main.arg_names := ["output_dir"; "od"]; Main.mandatory := true |};
         {| Main.arg_names := ["sn_instance_name"; "sni"]; Main.mandatory := true |};
         {| Main.arg_names := ["sn_user_name"; "snu"]; Main.mandatory := true |};
         {| Main.arg_names := ["sn_pass"; "snp"]; Main.mandatory := true |};
         {| Main.arg_names := ["help"; "h"]; Main.mandatory := false |};
         {| Main.arg_names := ["init_config"; "ic"]; Main.mandatory := false |};
         {| Main.arg_names := ["config_profile"; "cp"]; Main.mandatory := false |};
         {| Main.arg_names := ["sn_query"; "snq"]; Main.mandatory := false |};
         {| Main.arg_names := ["storage_mode"; "sm"]; Main.mandatory := false |};
         {| Main.arg_names := ["operation_mode"; "om"]; Main.mandatory := false |} ] |}.

(** A configuration file with a default profile and one more. *)
Definition config : ConfigTools.config_file :=
  ConfigTools.Profiles
    [ {| ConfigTools.name := JStr "default";
         ConfigTools.settings :=
           Some [("sn_instance_name", JStr "acme"); ("sn_user_name", JStr "john.doe");
                 ("sn_pass", JStr "letmein1234"); ("sn_query", JStr "");
                 ("output_dir", JStr "/home/kb/out"); ("storage_mode", JStr "");
                 ("operation_mode", JStr "list_changes_files")] |};
      {| ConfigTools.name := JStr "nightly";
         ConfigTools.settings :=
           Some [("operation_mode", JStr "list_changes"); ("newer_only", JBool true)] |} ].

(** What [getArguments] returns for
    [--output_dir=/srv/export --sn_instance_name=globex --sn_user_name=jane
     --sn_pass=s3cret --operation_mode=list]. *)
Definition args_cli : Obj :=
  <["output_dir" := JStr "/srv/export"]>
    (<["sn_instance_name" := JStr "globex"]>
       (<["sn_user_name" := JStr "jane"]>
          (<["sn_pass" := JStr "s3cret"]>
             (<["operation_mode" := JStr "list"]> ∅)))).

End Sample.

(** * Properties *)

(** ** The JavaScript [Map] *)

Section JSMapFacts.
Context {V : Type}.
Implicit Types (m : JSMap.t V) (k : string) (v : V).

Lemma jsmap_get_set m k v k' :
  JSMap.get (JSMap.set m k v) k' = if decide (k = k') then Some v else JSMap.get m k'.
Proof.
  induction m as [|[k0 v0] m IH]; simpl.
  - repeat case_decide; congruence.
  - destruct (decide (k0 = k)) as [->|Hne]; simpl.
    + destruct (decide (k = k')); reflexivity.
    + rewrite IH. destruct (decide (k0 = k')) as [->|]; [|reflexivity].
      destruct (decide (k = k')); congruence.
Qed.

Lemma jsmap_set_keys m k v :
  (JSMap.set m k v).*1 = if decide (k ∈ m.*1) then m.*1 else m.*1 ++ [k].
Proof.
  induction m as [|[k0 v0] m IH]; [done|].
  cbn [JSMap.set]. rewrite fmap_cons. cbn [fst].
  destruct (decide (k0 = k)) as [->|Hne].
  - rewrite fmap_cons. cbn [fst].
    destruct (decide (k ∈ k :: m.*1)) as [|Hin]; [done|]. exfalso. apply Hin. left.
  - rewrite fmap_cons, IH. cbn [fst].
    destruct (decide (k ∈ m.*1)) as [Hin|Hnin];
      destruct (decide (k ∈ k0 :: m.*1)) as [Hin'|Hnin']; try done.
    + exfalso. apply Hnin'. by right.
    + apply elem_of_cons in Hin' as [->|?]; congruence.
Qed.

Lemma jsmap_set_fresh m k v : k ∉ m.*1 → JSMap.set m k v = m ++ [(k, v)].
Proof.
  induction m as [|[k0 v0] m IH]; simpl; intros Hk; [reflexivity|].
  apply not_elem_of_cons in Hk as [Hne Hk].
  rewrite decide_False by congruence. by rewrite IH.
Qed.

Lemma jsmap_of_entries_snoc (es : list (string * V)) k v :
  JSMap.of_entries (es ++ [(k, v)]) = JSMap.set (JSMap.of_entries es) k v.
Proof. unfold JSMap.of_entries. by rewrite fold_left_app. Qed.

Lemma jsmap_of_entries_keys_NoDup (es : list (string * V)) :
  NoDup (JSMap.of_entries es).*1.
Proof.
  induction es as [|[k v] es IH] using rev_ind; [constructor|].
  rewrite jsmap_of_entries_snoc, jsmap_set_keys.
  case_decide; [done|]. apply NoDup_app. split_and!; [done| |apply NoDup_singleton].
  intros x Hx Hx'. apply list_elem_of_singleton in Hx'. congruence.
Qed.

Lemma jsmap_of_entries_keys (es : list (string * V)) k :
  k ∈ (JSMap.of_entries es).*1 ↔ k ∈ es.*1.
Proof.
  induction es as [|[k0 v0] es IH] using rev_ind; [done|].
  rewrite jsmap_of_entries_snoc, jsmap_set_keys, fmap_app, elem_of_app. simpl.
  case_decide as Hin.
  - rewrite IH. split; [tauto|]. intros [?|Hk]; [done|].
    apply list_elem_of_singleton in Hk as ->. by apply IH.
  - rewrite elem_of_app, IH. done.
Qed.

Lemma jsmap_of_entries_NoDup (es : list (string * V)) :
  NoDup es.*1 → JSMap.of_entries es = es.
Proof.
  induction es as [|[k v] es IH] using rev_ind; [done|].
  rewrite fmap_app. intros [Hes [Hk _]]%NoDup_app.
  rewrite jsmap_of_entries_snoc, IH by done.
  apply jsmap_set_fresh. intros Hin. apply (Hk k Hin). simpl. left.
Qed.

Lemma jsmap_get_of_entries (es : list (string * V)) k :
  JSMap.get (JSMap.of_entries es) k = snd <$> last (filter (λ kv, kv.1 = k) es).
Proof.
  induction es as [|[k0 v0] es IH] using rev_ind; [done|].
  rewrite jsmap_of_entries_snoc, jsmap_get_set, filter_app, IH.
  rewrite filter_cons, filter_nil. simpl.
  destruct (decide (k0 = k)).
  - by rewrite last_snoc.
  - by rewrite app_nil_r.
Qed.

Lemma jsmap_has_keys m k : JSMap.has m k = true ↔ k ∈ m.*1.
Proof.
  unfold JSMap.has. induction m as [|[k0 v0] m IH]; simpl.
  - split; [done | intros []%elem_of_nil].
  - destruct (decide (k0 = k)) as [->|Hne].
    + split; [left | done].
    + rewrite IH, elem_of_cons. split; [by right | by intros [->|?]].
Qed.

Lemma jsmap_elem_of_get m k v :
  NoDup m.*1 → (k, v) ∈ m ↔ JSMap.get m k = Some v.
Proof.
  induction m as [|[k0 v0] m IH]; simpl.
  - intros _. split; [intros []%elem_of_nil | done].
  - intros [Hk0 Hm]%NoDup_cons. rewrite elem_of_cons.
    destruct (decide (k0 = k)) as [->|Hne].
    + split.
      * intros [[= ->]|Hin]; [done|]. exfalso. apply Hk0.
        apply list_elem_of_fmap. by exists (k, v).
      * intros [= ->]. by left.
    + rewrite <- IH by done. split; [by intros [[= -> ->]|?] | by right].
Qed.

End JSMapFacts.

(** ** The Diff Engine *)

Section DiffFacts.

Local Abbreviation entry := (λ article : Article, (sys_id article, article)).

Lemma filter_fmap_swap {A B} (f : A → B) (P : B → Prop) `{!∀ y, Decision (P y)}
    (l : list A) :
  filter P (f <$> l) = f <$> filter (λ x, P (f x)) l.
Proof.
  induction l as [|x l IH]; [done|].
  rewrite fmap_cons, !filter_cons. case_decide; by rewrite ?fmap_cons, IH.
Qed.

Lemma entries_shape (es : list (string * Article)) :
  (∀ kv, kv ∈ es → kv.1 = sys_id kv.2) → es = entry <$> es.*2.
Proof.
  induction es as [|[k a] es IH]; [done|].
  intros H. rewrite !fmap_cons. f_equal.
  - simpl. f_equal. apply (H (k, a)). left.
  - apply IH. intros kv Hkv. apply H. by right.
Qed.

Lemma get_entries_last (l : list Article) (k : string) :
  JSMap.get (JSMap.of_entries (entry <$> l)) k = Spec.last_record l k.
Proof.
  rewrite jsmap_get_of_entries. unfold Spec.last_record.
  rewrite (filter_fmap_swap entry), fmap_last. simpl.
  by destruct (last _).
Qed.

Lemma last_record_Some (l : list Article) k a :
  Spec.last_record l k = Some a → a ∈ l ∧ sys_id a = k.
Proof.
  unfold Spec.last_record. intros H%last_Some_elem_of.
  apply list_elem_of_filter in H. tauto.
Qed.

Lemma of_entries_shape (l : list Article) :
  JSMap.of_entries (entry <$> l) = entry <$> map_records l.
Proof.
  unfold map_records. apply entries_shape. intros [k a] Hin. simpl.
  apply jsmap_elem_of_get in Hin; [|apply jsmap_of_entries_keys_NoDup].
  rewrite get_entries_last in Hin. by apply last_record_Some in Hin as [_ ->].
Qed.

Lemma of_entries_keys_ids (l : list Article) :
  (JSMap.of_entries (entry <$> l)).*1 = Spec.ids (map_records l).
Proof.
  rewrite of_entries_shape. unfold Spec.ids.
  rewrite <- list_fmap_compose. done.
Qed.

Lemma map_records_NoDup (l : list Article) : NoDup (Spec.ids (map_records l)).
Proof. rewrite <- of_entries_keys_ids. apply jsmap_of_entries_keys_NoDup. Qed.

Lemma map_records_ids (l : list Article) k :
  k ∈ Spec.ids (map_records l) ↔ k ∈ Spec.ids l.
Proof.
  rewrite <- of_entries_keys_ids, jsmap_of_entries_keys.
  unfold Spec.ids. by rewrite <- list_fmap_compose.
Qed.

Lemma map_records_elem (l : list Article) a :
  a ∈ map_records l ↔ Spec.last_record l (sys_id a) = Some a.
Proof.
  rewrite <- get_entries_last.
  rewrite <- jsmap_elem_of_get by apply jsmap_of_entries_keys_NoDup.
  rewrite of_entries_shape, list_elem_of_fmap. split.
  - intros Ha. by exists a.
  - intros (b & [= _ ->] & Hb). done.
Qed.

Lemma map_records_unique (l : list Article) :
  NoDup (Spec.ids l) → map_records l = l.
Proof.
  intros Hl. unfold map_records. rewrite jsmap_of_entries_NoDup.
  - rewrite <- list_fmap_compose. apply list_fmap_id.
  - by rewrite <- list_fmap_compose.
Qed.

Lemma has_older (old : list Article) k :
  JSMap.has (JSMap.of_entries (entry <$> old)) k = true ↔ k ∈ Spec.ids old.
Proof. by rewrite jsmap_has_keys, of_entries_keys_ids, map_records_ids. Qed.

Lemma get_Some_records (old : list Article) k o :
  JSMap.get (JSMap.of_entries (entry <$> old)) k = Some o ↔
  o ∈ map_records old ∧ sys_id o = k.
Proof.
  rewrite <- jsmap_elem_of_get by apply jsmap_of_entries_keys_NoDup.
  rewrite of_entries_shape, list_elem_of_fmap. split.
  - by intros (b & [= -> ->] & Hb).
  - intros [Ho <-]. by exists o.
Qed.

Lemma get_None_records (old : list Article) k :
  JSMap.get (JSMap.of_entries (entry <$> old)) k = None →
  k ∉ Spec.ids (map_records old).
Proof.
  intros Hg Hin. rewrite <- of_entries_keys_ids in Hin.
  apply jsmap_has_keys in Hin. unfold JSMap.has in Hin. by rewrite Hg in Hin.
Qed.

Lemma records_same_id (l : list Article) a b :
  a ∈ map_records l → b ∈ map_records l → sys_id a = sys_id b → a = b.
Proof.
  intros Ha Hb Heq. apply map_records_elem in Ha, Hb.
  rewrite Heq in Ha. congruence.
Qed.

(** The [forEach] over the current articles fills [added] and [updated]. *)
Lemma fold_visit_curr (old L : list Article) es (ch : Changes) :
  es = entry <$> L →
  fold_left (SnTools.visit_curr (JSMap.of_entries (entry <$> old))) es ch =
  {| added := added ch ++ (number <$> Spec.added_articles (map_records old) L);
     updated := updated ch ++ (number <$> Spec.updated_articles (map_records old) L);
     removed := removed ch |}.
Proof.
  intros ->. unfold Spec.added_articles, Spec.updated_articles.
  revert ch. induction L as [|a L IH]; intros ch.
  - simpl. rewrite !app_nil_r. by destruct ch.
  - rewrite fmap_cons. cbn [fold_left]. rewrite IH. clear IH.
    rewrite !filter_cons. unfold SnTools.visit_curr, JSMap.has.
    destruct (JSMap.get _ (sys_id a)) as [o|] eqn:Hg; cbn [negb].
    + apply get_Some_records in Hg as [Ho Hid].
      rewrite (decide_False (P := Spec.is_added _ a)); last first.
      { intros Hn. apply Hn. rewrite <- Hid. by apply list_elem_of_fmap_2. }
      destruct (decide (display_value (version a) ≠ display_value (version o)))
        as [Hne|Heq].
      * rewrite (decide_True (P := Spec.is_updated _ a)); last first.
        { apply Exists_exists. exists o. unfold Spec.label. by split_and!. }
        destruct ch; simpl. by rewrite <- !app_assoc.
      * rewrite (decide_False (P := Spec.is_updated _ a)); [done|].
        intros (o' & Ho' & Hid' & Hl)%Exists_exists.
        assert (o' = o) as -> by (apply (records_same_id old); congruence).
        apply Heq. unfold Spec.label in Hl. congruence.
    + apply get_None_records in Hg.
      rewrite (decide_True (P := Spec.is_added _ a)) by done.
      rewrite (decide_False (P := Spec.is_updated _ a)); last first.
      { intros (o' & Ho' & Hid' & _)%Exists_exists. apply Hg.
        rewrite <- Hid'. by apply list_elem_of_fmap_2. }
      destruct ch; simpl. by rewrite <- !app_assoc.
Qed.

(** The [forEach] over the older articles fills [removed]. *)
Lemma fold_visit_older (new L : list Article) es (ch : Changes) :
  es = entry <$> L →
  fold_left (SnTools.visit_older (JSMap.of_entries (entry <$> new))) es ch =
  {| added := added ch;
     updated := updated ch;
     removed := removed ch ++ (number <$> filter (Spec.is_removed (map_records new)) L) |}.
Proof.
  intros ->. revert ch. induction L as [|a L IH]; intros ch.
  - simpl. rewrite !app_nil_r. by destruct ch.
  - rewrite fmap_cons. cbn [fold_left]. rewrite IH. clear IH.
    rewrite !filter_cons. unfold SnTools.visit_older, JSMap.has.
    destruct (JSMap.get _ (sys_id a)) as [o|] eqn:Hg; cbn [negb].
    + apply get_Some_records in Hg as [Ho Hid].
      rewrite (decide_False (P := Spec.is_removed _ a)); [done|].
      intros Hn. apply Hn. rewrite <- Hid. by apply list_elem_of_fmap_2.
    + apply get_None_records in Hg.
      rewrite (decide_True (P := Spec.is_removed _ a)) by done.
      destruct ch; simpl. by rewrite <- !app_assoc.
Qed.

(** What [getKBChanges] computes is the specified diff of the records
    the two [Map]s hold. *)
Lemma detect_changes_records (currList olderList : list Article) :
  SnTools.detect_changes currList olderList =
  Spec.diff (map_records olderList) (map_records currList).
Proof.
  unfold SnTools.detect_changes.
  rewrite (fold_visit_curr olderList (map_records currList))
    by apply of_entries_shape.
  rewrite (fold_visit_older currList (map_records olderList))
    by apply of_entries_shape.
  done.
Qed.

(** The change detection looks at [sys_id], [number] and the version
    label only: it does not see what the JSON round trip alters. *)
Lemma jsmap_set_json (m : JSMap.t Article) k a :
  JSMap.set ((λ kv, (kv.1, json_article kv.2)) <$> m) k (json_article a)
  = (λ kv, (kv.1, json_article kv.2)) <$> JSMap.set m k a.
Proof.
  induction m as [|[k' a'] m IH]; [done|].
  rewrite fmap_cons. cbn [JSMap.set fst snd].
  destruct (decide (k' = k)); [done|]. by rewrite IH.
Qed.

Lemma map_records_json (l : list Article) :
  map_records (json_article <$> l) = json_article <$> map_records l.
Proof.
  unfold map_records.
  assert (JSMap.of_entries (entry <$> (json_article <$> l))
          = (λ kv, (kv.1, json_article kv.2))
              <$> (JSMap.of_entries (entry <$> l) : list (string * Article))) as Heq.
  { induction l as [|a l IH] using rev_ind; [done|].
    rewrite !fmap_app. cbn [fmap list_fmap].
    rewrite !jsmap_of_entries_snoc, IH. apply jsmap_set_json. }
  etrans; [exact (f_equal (fmap (M:=list) snd) Heq)|].
  rewrite <- !list_fmap_compose. by apply list_fmap_ext.
Qed.

Lemma ids_json (l : list Article) : Spec.ids (json_article <$> l) = Spec.ids l.
Proof. unfold Spec.ids. rewrite <- list_fmap_compose. by apply list_fmap_ext. Qed.

Lemma detect_changes_json (currList olderList : list Article) :
  SnTools.detect_changes (json_article <$> currList) olderList
  = SnTools.detect_changes currList olderList.
Proof.
  rewrite !detect_changes_records, map_records_json.
  set (N := map_records currList). set (O := map_records olderList).
  unfold Spec.diff, Spec.added_articles, Spec.updated_articles, Spec.removed_articles.
  assert (∀ (P : Article → Prop) `{!∀ a, Decision (P a)} (l : list Article),
            (∀ a, P (json_article a) ↔ P a) →
            number <$> filter P (json_article <$> l) = number <$> filter P l) as Hbucket.
  { intros P HP l HPj. rewrite filter_fmap_swap, <- list_fmap_compose.
    rewrite (list_filter_iff _ P) by done. by apply list_fmap_ext. }
  f_equal.
  - by apply Hbucket.
  - by apply Hbucket.
  - f_equal. apply list_filter_iff. intros o. unfold Spec.is_removed.
    by rewrite ids_json.
Qed.

End DiffFacts.

(** ** Paths of a standard run *)

Section PathFacts.

Lemma normalize_segs_snoc (l : list string) (s : string) :
  s ≠ "" → s ≠ "." → s ≠ ".." →
  Path.normalize_segs false (l ++ [s]) = Path.normalize_segs false l ++ [s].
Proof.
  intros H1 H2 H3. unfold Path.normalize_segs.
  rewrite fold_left_app. cbn [fold_left]. unfold Path.norm_step at 1.
  rewrite decide_False by (intros [?|?]; congruence).
  rewrite decide_False by done. done.
Qed.

Lemma pdfHome_eq folder :
  pdfHome folder = Path.normalize_segs false folder ++ ["PDFs"].
Proof. by apply normalize_segs_snoc. Qed.

Lemma listFile_eq folder :
  listFile folder = Path.normalize_segs false folder ++ ["file_list.json"].
Proof. by apply normalize_segs_snoc. Qed.

Lemma oldListFile_eq folder :
  oldListFile folder = Path.normalize_segs false folder ++ ["file_list.json.old"].
Proof.
  unfold oldListFile. rewrite listFile_eq. unfold Path.append_to_last.
  rewrite rev_app_distr. simpl. by rewrite rev_involutive.
Qed.

Lemma changesFile_eq folder :
  changesFile folder = Path.normalize_segs false folder ++ ["file_changes.json"].
Proof. by apply normalize_segs_snoc. Qed.

Lemma sibling_not_below (F p : list string) (x y : string) :
  x ≠ y → F ++ [x] `prefix_of` p → ¬ F ++ [y] `prefix_of` p.
Proof.
  intros Hxy [k1 ->] [k2 Hk]. rewrite <- !app_assoc in Hk.
  apply app_inv_head in Hk. simpl in Hk. congruence.
Qed.

Lemma below_not_sibling (F p : list string) (x y : string) :
  x ≠ y → F ++ [x] `prefix_of` p → p ≠ F ++ [y].
Proof.
  intros Hxy Hp ->. by apply (sibling_not_below F (F ++ [y]) x y).
Qed.

End PathFacts.

(** ** The file system operations *)

Section FsFacts.
Implicit Types (fs : FS) (p : list string).

Lemma writeFile_Some fs p c fs' :
  NodeFs.writeFile fs p c = Some fs' → fs' = <[p := File c]> fs.
Proof.
  unfold NodeFs.writeFile. intros H.
  destruct (fs !! p) as [[|?]|]; try done;
    destruct (NodeFs.is_dir fs (NodeFs.parent p)); congruence.
Qed.

Lemma unlink_Some fs p fs' :
  NodeFs.unlink fs p = Some fs' → fs' = delete p fs.
Proof.
  unfold NodeFs.unlink. destruct (fs !! p) as [[|?]|]; congruence.
Qed.

Lemma rm_rf_subseteq fs p : NodeFs.rm_rf fs p ⊆ fs.
Proof. apply map_filter_subseteq. Qed.

Lemma rm_rf_lookup_other fs p q :
  ¬ p `prefix_of` q → NodeFs.rm_rf fs p !! q = fs !! q.
Proof.
  intros Hq. unfold NodeFs.rm_rf. rewrite map_lookup_filter.
  destruct (fs !! q); simpl; [|done]. by rewrite option_guard_True.
Qed.

Lemma delete_entry_subseteq fs folderPath file fs' :
  FsTools.delete_entry fs folderPath file = Some fs' → fs' ⊆ fs.
Proof.
  unfold FsTools.delete_entry.
  destruct (NodeFs.lstat _ _) as [stat|]; [|done].
  destruct (NodeFs.isDirectory stat).
  - intros [= <-]. apply rm_rf_subseteq.
  - intros ->%unlink_Some. apply delete_subseteq.
Qed.

Lemma delete_loop_subseteq files fs folderPath :
  FsTools.delete_loop fs folderPath files ⊆ fs.
Proof.
  revert fs. induction files as [|file rest IH]; intros fs; simpl; [done|].
  destruct (FsTools.delete_entry _ _ _) as [fs'|] eqn:E; [|done].
  etrans; [apply IH|]. by eapply delete_entry_subseteq.
Qed.

(** [removeFolderContents] only ever removes. *)
Lemma removeFolderContents_subseteq fs folderPath patterns :
  FsTools.removeFolderContents fs folderPath patterns ⊆ fs.
Proof.
  unfold FsTools.removeFolderContents.
  destruct (NodeFs.readdir _ _); [|done].
  destruct (FsTools.has_patterns _); [destruct patterns|];
    try done; apply delete_loop_subseteq.
Qed.

(** With a function of one or more parameters in the place of the
    patterns, as in the call that [fetchArticles] makes with the callback
    of index.js, nothing is removed. *)
Lemma removeFolderContents_callback fs folderPath arity :
  FsTools.removeFolderContents fs folderPath (FsTools.PatFunction (S arity)) = fs.
Proof.
  unfold FsTools.removeFolderContents. by destruct (NodeFs.readdir _ _).
Qed.

Lemma subseteq_is_Some fs fs' p : fs' ⊆ fs → is_Some (fs' !! p) → is_Some (fs !! p).
Proof. intros Hsub [x Hx]. exists x. by eapply lookup_weaken. Qed.

Lemma move_tree_lookup_other fs a b p :
  ¬ a `prefix_of` p → ¬ b `prefix_of` p → NodeFs.move_tree fs a b !! p = fs !! p.
Proof.
  intros Ha Hb. unfold NodeFs.move_tree.
  rewrite lookup_union_r.
  - by rewrite !rm_rf_lookup_other.
  - apply not_elem_of_list_to_map_1. intros Hin.
    apply list_elem_of_fmap in Hin as ([k v] & -> & Hin).
    apply list_elem_of_fmap in Hin as ([k' v'] & [= -> ->] & _).
    apply Hb. by apply prefix_app_r.
Qed.

Lemma renameSync_lookup_other fs a b fs' p :
  NodeFs.renameSync fs a b = Some fs' →
  ¬ a `prefix_of` p → ¬ b `prefix_of` p → fs' !! p = fs !! p.
Proof.
  unfold NodeFs.renameSync. intros H Ha Hb.
  assert (p ≠ a) by (intros ->; by apply Ha).
  assert (p ≠ b) by (intros ->; by apply Hb).
  destruct (fs !! a) as [[|c]|]; [| |done].
  - destruct (decide (a = b)); [congruence|].
    destruct (bool_decide _); [done|].
    destruct (fs !! b) as [[|?]|]; [|done|].
    + destruct (NodeFs.has_children fs b); [done|].
      injection H as <-. by apply move_tree_lookup_other.
    + destruct (NodeFs.is_dir fs _); [|done].
      injection H as <-. by apply move_tree_lookup_other.
  - destruct (fs !! b) as [[|?]|]; [done| |];
      (destruct (NodeFs.is_dir fs _); [|done]);
      injection H as <-;
      by rewrite lookup_insert_ne, lookup_delete_ne.
Qed.

Lemma getArticlesList_lookup_other env fs targetFile p :
  p ≠ targetFile → (SnTools.getArticlesList env fs targetFile).1 !! p = fs !! p.
Proof.
  intros Hp. unfold SnTools.getArticlesList.
  destruct (remote env); [|done]. simpl.
  destruct (NodeFs.writeFile _ _ _) as [fs'|] eqn:E; [|done].
  apply writeFile_Some in E as ->. by rewrite lookup_insert_ne.
Qed.

Lemma getKBChanges_lookup_other env fs cur old tgt p :
  p ≠ tgt → (SnTools.getKBChanges env fs cur old tgt).1 !! p = fs !! p.
Proof.
  intros Hp. unfold SnTools.getKBChanges.
  destruct (SnTools.read_articles fs cur); [|done].
  destruct (SnTools.read_articles fs old); [|done].
  destruct (NodeFs.writeFile _ _ _) as [fs'|] eqn:E; [|done].
  apply writeFile_Some in E as ->. simpl. by rewrite lookup_insert_ne.
Qed.

(** Listing with changes leaves what lies in the PDFs folder as it is. *)
Lemma listing_changes_keeps_pdfs env fs folder p :
  pdfHome folder `prefix_of` p →
  (Operation.doListingWithChanges env fs folder "file_list" "file_changes").1 !! p
  = fs !! p.
Proof.
  rewrite pdfHome_eq. intros Hp. unfold Operation.doListingWithChanges.
  change (Path.resolve folder (Path.of_string ("file_list" +:+ ".json")))
    with (listFile folder).
  change (Path.resolve folder (Path.of_string ("file_changes" +:+ ".json")))
    with (changesFile folder).
  change (Path.append_to_last (listFile folder) ".old") with (oldListFile folder).
  destruct (negb _); [done|].
  destruct (NodeFs.renameSync _ _ _) as [fs1|] eqn:Hren; [|done].
  destruct (SnTools.getArticlesList env fs1 (listFile folder)) as [fs2 o] eqn:Hlist.
  rewrite getKBChanges_lookup_other; last first.
  { rewrite changesFile_eq. by apply (below_not_sibling _ _ "PDFs"). }
  change fs2 with (fs2, o).1. rewrite <- Hlist.
  rewrite getArticlesList_lookup_other; last first.
  { rewrite listFile_eq. by apply (below_not_sibling _ _ "PDFs"). }
  eapply renameSync_lookup_other; [done| |].
  - rewrite listFile_eq. by apply (sibling_not_below _ _ "PDFs").
  - rewrite oldListFile_eq. by apply (sibling_not_below _ _ "PDFs").
Qed.

(** The download loop: when no failure is reported at the end, none was
    reported before, every article of the list has its file, and nothing
    else is new. *)
Lemma download_loop (env : Env) (targetDir : list string) (l : list string) (st : FS * list string) fs' :
  fold_left (SnTools.download_one env targetDir) l st = (fs', []) →
  st.2 = [] ∧
  (∀ n, n ∈ l → is_file fs' (SnTools.pdfPath targetDir n)) ∧
  (∀ p, is_file st.1 p → is_file fs' p) ∧
  (∀ p, is_Some (fs' !! p) →
        is_Some (st.1 !! p) ∨ ∃ n, n ∈ l ∧ p = SnTools.pdfPath targetDir n).
Proof.
  revert st. induction l as [|n l IH]; intros [fs failed]; cbn [fold_left].
  - intros [= -> ->]. split_and!; [done| |done|by left].
    intros n []%elem_of_nil.
  - intros H. apply IH in H as (Hfailed & Hall & Hkeep & Hnew). clear IH.
    unfold SnTools.download_one in *. cbn [fst snd] in *.
    destruct (render_ok env n);
      [|by destruct failed].
    destruct (NodeFs.writeFile fs _ _) as [fs1|] eqn:E;
      [|by destruct failed].
    apply writeFile_Some in E as ->. cbn [fst snd] in *.
    split_and!; [done| | |].
    + intros m [->|Hm]%elem_of_cons; [|by apply Hall].
      apply Hkeep. eexists. apply lookup_insert_eq.
    + intros p [c Hc]. apply Hkeep.
      destruct (decide (p = SnTools.pdfPath targetDir n)) as [->|Hne].
      * eexists. apply lookup_insert_eq.
      * exists c. by rewrite lookup_insert_ne.
    + intros p Hp. apply Hnew in Hp as [Hp|(m & Hm & ->)].
      * destruct (decide (p = SnTools.pdfPath targetDir n)) as [->|Hne].
        -- right. exists n. split; [left|done].
        -- left. by rewrite lookup_insert_ne in Hp.
      * right. exists m. split; [by right|done].
Qed.

End FsFacts.

(** ** Claims about the Diff Engine *)

Ltac by_computation :=
  match goal with
  | |- ?P => apply (@bool_decide_unpack P _); vm_compute; exact I
  end.

(** C4 — For snapshots with unique identities, [getKBChanges] classifies
    exactly as specified: an identity of the new snapshot that the old one
    lacks is added, one that both have with differing version labels is
    updated, one of the old snapshot that the new one lacks is removed,
    and nothing else is classified.  Each bucket lists the [number]s, and
    the version label is the only field compared.  The report is what the
    function returns and writes whenever the write goes through. *)
Theorem getKBChanges_classifies (env : Env) (fs : FS)
    (currListFile olderListFile targetChangesFile : list string)
    (currList olderList : list Article) :
  SnTools.read_articles fs currListFile = Some currList →
  SnTools.read_articles fs olderListFile = Some olderList →
  NoDup (Spec.ids currList) →
  NoDup (Spec.ids olderList) →
  SnTools.detect_changes currList olderList = Spec.diff olderList currList ∧
  SnTools.getKBChanges env fs currListFile olderListFile targetChangesFile =
    let report := {| last_updated_on := now env;
                     changes := Spec.diff olderList currList |} in
    match NodeFs.writeFile fs targetChangesFile (JsonChanges report) with
    | Some fs' => (fs', Some report)
    | None => (fs, None)
    end.
Proof.
  intros Hcur Hold Hc Ho.
  assert (SnTools.detect_changes currList olderList = Spec.diff olderList currList)
    as Hdiff.
  { rewrite detect_changes_records. by rewrite !map_records_unique. }
  split; [done|].
  unfold SnTools.getKBChanges. rewrite Hcur, Hold, Hdiff. done.
Qed.

Lemma getKBChanges_classifies_witness :
  let fs := <[Sample.folder ++ ["file_list.json.old"] :=
               File (JsonArticles [Sample.article "k1" "KB0010001" "1.0";
                                   Sample.article "k2" "KB0010002" "1.0"])]>
            (Sample.workspace [Sample.article "k1" "KB0010001" "2.0";
                               Sample.article "k3" "KB0010003" "1.0"] []) in
  (SnTools.getKBChanges (Sample.online []) fs
     (listFile Sample.folder) (oldListFile Sample.folder)
     (changesFile Sample.folder)).2
  = Some {| last_updated_on := "2024-07-10T02:00:00.000Z";
            changes := {| added := ["KB0010003"]; updated := ["KB0010001"];
                          removed := ["KB0010002"] |} |}.
Proof.
  intros fs.
  pose proof (getKBChanges_classifies (Sample.online []) fs
    (listFile Sample.folder) (oldListFile Sample.folder) (changesFile Sample.folder)
    [Sample.article "k1" "KB0010001" "2.0"; Sample.article "k3" "KB0010003" "1.0"]
    [Sample.article "k1" "KB0010001" "1.0"; Sample.article "k2" "KB0010002" "1.0"])
    as H.
  destruct H as [_ ->]; [by vm_compute | by vm_compute | by_computation | by_computation |].
  vm_compute. reflexivity.
Defined.

(** C9 — Whatever the two lists are, also with several records under one
    [sys_id], the diff is the specified diff of the records the two maps
    hold: one record per distinct [sys_id] of a list, namely the last one
    bearing it.  So no bucket has two entries for one [sys_id] of a list. *)
Theorem getKBChanges_last_record_wins (currList olderList : list Article) :
  let N := map_records currList in
  let O := map_records olderList in
  NoDup (Spec.ids N) ∧ NoDup (Spec.ids O) ∧
  (∀ k, k ∈ Spec.ids N ↔ k ∈ Spec.ids currList) ∧
  (∀ k, k ∈ Spec.ids O ↔ k ∈ Spec.ids olderList) ∧
  (∀ a, a ∈ N ↔ Spec.last_record currList (sys_id a) = Some a) ∧
  (∀ a, a ∈ O ↔ Spec.last_record olderList (sys_id a) = Some a) ∧
  SnTools.detect_changes currList olderList = Spec.diff O N ∧
  NoDup (Spec.ids (Spec.added_articles O N)) ∧
  NoDup (Spec.ids (Spec.updated_articles O N)) ∧
  NoDup (Spec.ids (Spec.removed_articles O N)).
Proof.
  intros N O.
  assert (∀ (P : Article → Prop) `{!∀ a, Decision (P a)} l,
            NoDup (Spec.ids l) → NoDup (Spec.ids (filter P l))) as Hfilter.
  { intros P ? l Hl. eapply sublist_NoDup; [exact Hl|].
    apply fmap_sublist, sublist_filter. }
  split_and!.
  - apply map_records_NoDup.
  - apply map_records_NoDup.
  - intros k. apply map_records_ids.
  - intros k. apply map_records_ids.
  - intros a. apply map_records_elem.
  - intros a. apply map_records_elem.
  - apply detect_changes_records.
  - apply Hfilter, map_records_NoDup.
  - apply Hfilter, map_records_NoDup.
  - apply Hfilter, map_records_NoDup.
Qed.

Lemma NoDup_fmap_inj_on {A B} (f : A → B) (l : list A) x y :
  NoDup (f <$> l) → x ∈ l → y ∈ l → f x = f y → x = y.
Proof.
  induction l as [|z l IH]; [by intros _ ?%elem_of_nil|].
  rewrite fmap_cons. intros [Hz Hl]%NoDup_cons.
  intros [->|Hx]%elem_of_cons [->|Hy]%elem_of_cons Hf; [done| | |by apply IH].
  - exfalso. apply Hz. rewrite Hf. by apply list_elem_of_fmap_2.
  - exfalso. apply Hz. rewrite <- Hf. by apply list_elem_of_fmap_2.
Qed.

Lemma is_updated_older (olderList : list Article) a :
  Spec.is_updated olderList a → sys_id a ∈ Spec.ids olderList.
Proof.
  intros (o & Ho & <- & _)%Exists_exists. by apply list_elem_of_fmap_2.
Qed.

(** C5, as stated, fails: the buckets hold numbers, and two records with
    different identities may carry one number.  An article that is retired
    and republished under a new [sys_id] is reported as removed and as
    added under the same number. *)
Lemma diff_buckets_share_number :
  ¬ (∀ currList olderList : list Article,
       NoDup (Spec.ids currList) → NoDup (Spec.ids olderList) →
       let ch := SnTools.detect_changes currList olderList in
       (∀ n, n ∈ added ch → n ∉ updated ch) ∧
       (∀ n, n ∈ added ch → n ∉ removed ch) ∧
       (∀ n, n ∈ updated ch → n ∉ removed ch)).
Proof.
  intros H.
  destruct (H [Sample.article "k9" "KB0010001" "2.0"]
              [Sample.article "k1" "KB0010001" "1.0"]) as (_ & Hc & _);
    [by_computation | by_computation |].
  apply (Hc "KB0010001"); by_computation.
Qed.

(** C5, amended — For snapshots with unique identities, the articles
    classified as added, updated and removed have pairwise distinct
    identities, every identity on which the snapshots differ is classified
    once, and an identity that both snapshots have with the same version
    label is not classified.  The buckets, which list numbers, are
    pairwise disjoint and free of repetitions whenever no two distinct
    identities of the two snapshots carry the same number. *)
Theorem diff_buckets_disjoint (currList olderList : list Article) :
  NoDup (Spec.ids currList) →
  NoDup (Spec.ids olderList) →
  let A := Spec.added_articles olderList currList in
  let U := Spec.updated_articles olderList currList in
  let R := Spec.removed_articles olderList currList in
  let ch := SnTools.detect_changes currList olderList in
  added ch = number <$> A ∧ updated ch = number <$> U ∧ removed ch = number <$> R ∧
  NoDup (Spec.ids (A ++ U ++ R)) ∧
  (∀ a, a ∈ currList → sys_id a ∉ Spec.ids olderList → a ∈ A) ∧
  (∀ a o, a ∈ currList → o ∈ olderList → sys_id o = sys_id a →
          Spec.label o ≠ Spec.label a → a ∈ U) ∧
  (∀ o, o ∈ olderList → sys_id o ∉ Spec.ids currList → o ∈ R) ∧
  (∀ a o, a ∈ currList → o ∈ olderList → sys_id o = sys_id a →
          Spec.label o = Spec.label a → sys_id a ∉ Spec.ids (A ++ U ++ R)) ∧
  ((∀ x y, x ∈ currList ++ olderList → y ∈ currList ++ olderList →
           number x = number y → sys_id x = sys_id y) →
   NoDup (added ch ++ updated ch ++ removed ch)).
Proof.
  intros Hc Ho A U R ch.
  assert (ch = Spec.diff olderList currList) as Hch.
  { unfold ch. rewrite detect_changes_records. by rewrite !map_records_unique. }
  assert (∀ x, x ∈ Spec.ids A → x ∈ Spec.ids currList ∧ x ∉ Spec.ids olderList) as HA.
  { intros x (a & -> & [Ha Hin]%list_elem_of_filter)%list_elem_of_fmap.
    split; [by apply list_elem_of_fmap_2 | done]. }
  assert (∀ x, x ∈ Spec.ids U → x ∈ Spec.ids currList ∧ x ∈ Spec.ids olderList) as HU.
  { intros x (a & -> & [Ha Hin]%list_elem_of_filter)%list_elem_of_fmap.
    split; [by apply list_elem_of_fmap_2 | by apply is_updated_older]. }
  assert (∀ x, x ∈ Spec.ids R → x ∈ Spec.ids olderList ∧ x ∉ Spec.ids currList) as HR.
  { intros x (a & -> & [Ha Hin]%list_elem_of_filter)%list_elem_of_fmap.
    split; [by apply list_elem_of_fmap_2 | done]. }
  assert (NoDup (Spec.ids (A ++ U ++ R))) as Hnd.
  { unfold Spec.ids. rewrite !fmap_app. apply NoDup_app. split_and!.
    - eapply sublist_NoDup; [exact Hc|]. apply fmap_sublist, sublist_filter.
    - intros x Hx [Hx'|Hx']%elem_of_app.
      + apply HA in Hx. apply HU in Hx'. tauto.
      + apply HA in Hx. apply HR in Hx'. tauto.
    - apply NoDup_app. split_and!.
      + eapply sublist_NoDup; [exact Hc|]. apply fmap_sublist, sublist_filter.
      + intros x Hx Hx'. apply HU in Hx. apply HR in Hx'. tauto.
      + eapply sublist_NoDup; [exact Ho|]. apply fmap_sublist, sublist_filter. }
  rewrite Hch. split_and!; try done.
  - intros a Ha Hid. by apply list_elem_of_filter.
  - intros a o Ha Hin Hid Hl. apply list_elem_of_filter. split; [|done].
    apply Exists_exists. by exists o.
  - intros o Hin Hid. by apply list_elem_of_filter.
  - intros a o Ha Hin Hid Hl. unfold Spec.ids. rewrite !fmap_app.
    intros [Hx|[Hx|Hx]%elem_of_app]%elem_of_app.
    + apply HA in Hx as [_ Hx]. apply Hx. rewrite <- Hid.
      by apply list_elem_of_fmap_2.
    + apply list_elem_of_fmap in Hx as (b & Hb & [Hupd Hbin]%list_elem_of_filter).
      assert (b = a) as -> by (by apply (NoDup_fmap_inj_on sys_id currList)).
      apply Exists_exists in Hupd as (o' & Ho' & Hid' & Hl').
      assert (o' = o) as ->
        by (apply (NoDup_fmap_inj_on sys_id olderList); try done; congruence).
      done.
    + apply HR in Hx as [_ Hx]. apply Hx. by apply list_elem_of_fmap_2.
  - intros Hnum. simpl. rewrite <- !fmap_app.
    apply NoDup_fmap_2_strong; [|by eapply NoDup_fmap_1].
    intros x y Hx Hy Hxy.
    apply (NoDup_fmap_inj_on sys_id (A ++ U ++ R)); [done..|].
    assert (∀ z, z ∈ A ++ U ++ R → z ∈ currList ++ olderList) as Hsub.
    { intros z [Hz|[Hz|Hz]%elem_of_app]%elem_of_app;
        apply list_elem_of_filter in Hz as [_ Hz]; apply elem_of_app; auto. }
    apply Hnum; auto.
Qed.

Lemma diff_buckets_disjoint_witness :
  let ch := SnTools.detect_changes
              [Sample.article "k1" "KB0010001" "2.0"; Sample.article "k3" "KB0010003" "1.0"]
              [Sample.article "k1" "KB0010001" "1.0"; Sample.article "k2" "KB0010002" "1.0"] in
  NoDup (added ch ++ updated ch ++ removed ch).
Proof.
  pose proof (diff_buckets_disjoint
    [Sample.article "k1" "KB0010001" "2.0"; Sample.article "k3" "KB0010003" "1.0"]
    [Sample.article "k1" "KB0010001" "1.0"; Sample.article "k2" "KB0010002" "1.0"])
    as H.
  specialize (H ltac:(by_computation) ltac:(by_computation)).
  cbv zeta in H. destruct H as (_ & _ & _ & _ & _ & _ & _ & _ & H).
  apply H. intros x y Hx Hy. simpl in Hx, Hy.
  repeat (apply elem_of_cons in Hx as [->|Hx]); [..|by apply elem_of_nil in Hx];
    (repeat (apply elem_of_cons in Hy as [->|Hy]); [..|by apply elem_of_nil in Hy]);
    by vm_compute.
Defined.

(** ** Claims about the Reconciliation Controller *)

Section RunFacts.
Implicit Types (fs : FS) (env : Env) (folder : list string).

Lemma listing_changes_report_exists env fs folder r :
  (Operation.doListingWithChanges env fs folder "file_list" "file_changes").2 = Some r →
  NodeFs.existsSync fs (listFile folder) = true.
Proof.
  unfold Operation.doListingWithChanges.
  change (Path.resolve folder (Path.of_string ("file_list" +:+ ".json")))
    with (listFile folder).
  by destruct (NodeFs.existsSync fs (listFile folder)).
Qed.

Lemma remove_stale_subseteq fs folder r newerOnly :
  Operation.remove_stale fs folder r newerOnly ⊆ fs.
Proof.
  unfold Operation.remove_stale. destruct (negb newerOnly); [|done].
  case_bool_decide; [|done]. apply removeFolderContents_subseteq.
Qed.

(** A run of [doChangesWithFiles] that found a snapshot and got a report,
    with a working browser and no download failure: every number of
    [updated] and [added] has its file, and what lies in the PDFs folder
    was there before or is one of those files. *)
Lemma changes_run_bounds env fs folder newerOnly r :
  (Operation.doListingWithChanges env fs folder "file_list" "file_changes").2 = Some r →
  browser_ok env = true →
  (Operation.doChangesWithFiles env fs folder "file_list" "file_changes" newerOnly).2 = [] →
  let fs' := (Operation.doChangesWithFiles env fs folder "file_list" "file_changes" newerOnly).1 in
  (∀ n, n ∈ updated (changes r) ++ added (changes r) →
        is_file fs' (SnTools.pdfPath (pdfHome folder) n)) ∧
  (∀ p, pdfHome folder `prefix_of` p → is_Some (fs' !! p) →
        is_Some (fs !! p) ∨
        ∃ n, n ∈ updated (changes r) ++ added (changes r) ∧
             p = SnTools.pdfPath (pdfHome folder) n).
Proof.
  intros Hrep Hb. pose proof (listing_changes_report_exists _ _ _ _ Hrep) as Hex.
  pose proof (listing_changes_keeps_pdfs env fs folder) as Hkeep.
  unfold Operation.doChangesWithFiles.
  change (Path.resolve folder (Path.of_string ("file_list" +:+ ".json")))
    with (listFile folder).
  rewrite Hex. cbn [negb].
  destruct (Operation.doListingWithChanges env fs folder "file_list" "file_changes")
    as [fs1 rep]. cbn [fst snd] in Hrep, Hkeep. subst rep.
  pose proof (remove_stale_subseteq fs1 folder r newerOnly) as Hsub.
  set (fs2 := Operation.remove_stale fs1 folder r newerOnly) in *.
  unfold Operation.download_fresh.
  change (Path.join folder (Path.of_string "PDFs")) with (pdfHome folder).
  case_bool_decide as Hlen.
  - unfold SnTools.fetchArticles. rewrite Hb.
    set (fs3 := if newerOnly then _ else fs2).
    assert (fs3 ⊆ fs2) as Hsub3.
    { unfold fs3. destruct newerOnly; [apply removeFolderContents_subseteq|done]. }
    destruct (fold_left _ _ (fs3, [])) as [fs' failed] eqn:Hloop.
    cbn [fst snd]. intros ->.
    apply download_loop in Hloop as (_ & Hall & _ & Hnew). cbn [fst] in Hnew.
    split; [done|]. intros p Hp Hin.
    apply Hnew in Hin as [Hin|?]; [left|by right].
    rewrite <- Hkeep by done.
    eapply subseteq_is_Some; [exact Hsub|].
    eapply subseteq_is_Some; [exact Hsub3|done].
  - cbn [fst snd]. intros _.
    destruct (updated (changes r) ++ added (changes r)) as [|n l] eqn:El;
      [|exfalso; apply Hlen; simpl; lia].
    split; [by intros n ?%elem_of_nil|].
    intros p Hp Hin. left. rewrite <- Hkeep by done.
    by eapply subseteq_is_Some.
Qed.

End RunFacts.

Section RotationFacts.
Implicit Types (fs : FS) (env : Env) (folder : list string).

Lemma existsSync_false fs p : NodeFs.existsSync fs p = false ↔ fs !! p = None.
Proof.
  unfold NodeFs.existsSync. rewrite bool_decide_eq_false.
  by rewrite <- eq_None_not_Some.
Qed.

Lemma existsSync_true fs p : NodeFs.existsSync fs p = true ↔ is_Some (fs !! p).
Proof. unfold NodeFs.existsSync. by rewrite bool_decide_eq_true. Qed.

Lemma list_old_distinct folder : listFile folder ≠ oldListFile folder.
Proof.
  rewrite listFile_eq, oldListFile_eq. intros H%app_inv_head. congruence.
Qed.

Lemma rename_file_Some fs a b c fs' :
  fs !! a = Some (File c) → NodeFs.renameSync fs a b = Some fs' →
  fs' = <[b := File c]> (delete a fs).
Proof.
  unfold NodeFs.renameSync. intros ->.
  destruct (fs !! b) as [[|?]|]; [done| |];
    destruct (NodeFs.is_dir fs _); congruence.
Qed.

Lemma rename_file_succeeds fs a b c :
  fs !! a = Some (File c) → fs !! b ≠ Some Dir →
  NodeFs.is_dir fs (NodeFs.parent b) = true →
  NodeFs.renameSync fs a b = Some (<[b := File c]> (delete a fs)).
Proof.
  unfold NodeFs.renameSync. intros -> Hb ->.
  by destruct (fs !! b) as [[|?]|].
Qed.

(** The report of a run that found the snapshot [S_old] and fetched
    [S_new] is the diff of the two. *)
Lemma listing_changes_report env fs folder (S_old S_new : list Article) r :
  fs !! listFile folder = Some (File (JsonArticles S_old)) →
  remote env = Some S_new →
  (Operation.doListingWithChanges env fs folder "file_list" "file_changes").2 = Some r →
  r = {| last_updated_on := now env;
         changes := SnTools.detect_changes S_new S_old |}.
Proof.
  intros Hold Hnew. unfold Operation.doListingWithChanges.
  change (Path.resolve folder (Path.of_string ("file_list" +:+ ".json")))
    with (listFile folder).
  change (Path.append_to_last (listFile folder) ".old") with (oldListFile folder).
  pose proof (list_old_distinct folder) as Hne.
  destruct (negb _); [done|].
  destruct (NodeFs.renameSync _ _ _) as [fs1|] eqn:Hren; [|done].
  apply (rename_file_Some _ _ _ _ _ Hold) in Hren as ->.
  unfold SnTools.getArticlesList. rewrite Hnew.
  unfold SnTools.getKBChanges, SnTools.read_articles.
  destruct (NodeFs.writeFile _ (listFile folder) _) as [fs2|] eqn:Hw.
  - apply writeFile_Some in Hw as ->.
    rewrite lookup_insert_eq, lookup_insert_ne, lookup_insert_eq by done.
    destruct (NodeFs.writeFile _ _ _); [|done]. intros [= <-].
    by rewrite detect_changes_json.
  - by rewrite lookup_insert_ne, lookup_delete_eq.
Qed.

End RotationFacts.

(** ** Plain paths, and what the removal block reaches *)

Section Plain.

Lemma append_cons c a b : String c a +:+ b = String c (a +:+ b).
Proof. reflexivity. Qed.

Lemma append_nil_l b : "" +:+ b = b.
Proof. reflexivity. Qed.

Lemma no_slash_append a b : no_slash (a +:+ b) = no_slash a && no_slash b.
Proof.
  induction a as [|c a IH]; [done|].
  rewrite append_cons. simpl. rewrite IH. by rewrite andb_assoc.
Qed.

Lemma split_no_slash s : no_slash s = true → Path.split_slash s = [s].
Proof.
  induction s as [|c s IH]; [done|]. simpl.
  intros [Hc Hs]%andb_true_iff. apply negb_true_iff in Hc. rewrite Hc.
  by rewrite IH.
Qed.

Lemma split_slash_sep a s :
  no_slash a = true → Path.split_slash (a +:+ "/" +:+ s) = a :: Path.split_slash s.
Proof.
  induction a as [|c a IH]; [done|].
  rewrite append_cons. simpl.
  intros [Hc Ha]%andb_true_iff. apply negb_true_iff in Hc. rewrite Hc.
  by rewrite IH.
Qed.

Lemma split_concat (l : list string) :
  l ≠ [] → Forall (λ s, no_slash s = true) l →
  Path.split_slash (String.concat "/" l) = l.
Proof.
  induction l as [|a l IH]; [done|]. intros _ [Ha Hl]%Forall_cons.
  destruct l as [|b l].
  - simpl. by apply split_no_slash.
  - change (String.concat "/" (a :: b :: l))
      with (a +:+ "/" +:+ String.concat "/" (b :: l)).
    rewrite split_slash_sep by done. by rewrite IH.
Qed.

Lemma fold_norm_plain allow (l st : list string) :
  Forall plain l → fold_left (Path.norm_step allow) l st = rev l ++ st.
Proof.
  revert st. induction l as [|s l IH]; intros st; [done|].
  intros [(H1 & H2 & H3 & _) Hl]%Forall_cons. cbn [fold_left].
  unfold Path.norm_step at 2.
  rewrite decide_False by (intros [?|?]; congruence).
  rewrite decide_False by done.
  rewrite IH by done. simpl. by rewrite <- app_assoc.
Qed.

Lemma normalize_plain allow (l : list string) :
  Forall plain l → Path.normalize_segs allow l = l.
Proof.
  intros Hl. unfold Path.normalize_segs. rewrite fold_norm_plain by done.
  rewrite app_nil_r. apply rev_involutive.
Qed.

Lemma of_to_string (p : list string) :
  p ≠ [] → Forall plain p →
  Path.of_string (Path.to_string p) = {| Path.absolute := true; Path.segs := p |}.
Proof.
  intros Hne Hp. unfold Path.of_string, Path.to_string.
  change ("/" +:+ String.concat "/" p) with (String "/" (String.concat "/" p)).
  cbn [Path.starts_with_slash Path.split_slash]. simpl (Ascii.eqb _ _). cbn [negb].
  f_equal. rewrite split_concat; [|done|].
  - unfold Path.normalize_segs. cbn [fold_left]. unfold Path.norm_step at 2.
    rewrite decide_True by (by left).
    rewrite fold_norm_plain by done. rewrite app_nil_r. apply rev_involutive.
  - eapply Forall_impl; [exact Hp|]. by intros s (_ & _ & _ & ?).
Qed.

Lemma string_length_append a b :
  String.length (a +:+ b) = String.length a + String.length b.
Proof. induction a as [|c a IH]; [done|]. rewrite append_cons. simpl. by rewrite IH. Qed.

Lemma pdf_name_plain n : no_slash n = true → plain (n +:+ ".pdf").
Proof.
  intros Hn. unfold plain.
  assert (4 ≤ String.length (n +:+ ".pdf"))%nat as Hlen
    by (rewrite string_length_append; simpl; lia).
  split_and!.
  - intros E. rewrite E in Hlen. simpl in Hlen. lia.
  - intros E. rewrite E in Hlen. simpl in Hlen. lia.
  - intros E. rewrite E in Hlen. simpl in Hlen. lia.
  - rewrite no_slash_append, Hn. done.
Qed.

Lemma of_string_plain s :
  plain s → Path.of_string s = {| Path.absolute := false; Path.segs := [s] |}.
Proof.
  intros Hs. pose proof Hs as (Hne & _ & _ & Hns). unfold Path.of_string.
  assert (Path.starts_with_slash s = false) as ->.
  { destruct s as [|c s]; [done|]. simpl in *.
    apply andb_true_iff in Hns as [Hc _]. by apply negb_true_iff in Hc. }
  cbn [negb]. rewrite split_no_slash by done.
  by rewrite normalize_plain by (by constructor).
Qed.

End Plain.

Section Removal.
Implicit Types (fs : FS).

Lemma segs_match_length pats ss :
  Glob.segs_match pats ss = true → length pats = length ss.
Proof.
  revert ss. induction pats as [|p pats IH]; intros [|s ss]; simpl; try done.
  intros [_ H]%andb_true_iff. f_equal. by apply IH.
Qed.

Lemma sync_absolute_elem fs cwd pattern m :
  Path.absolute (Path.of_string pattern) = true →
  m ∈ Glob.sync fs cwd pattern →
  is_Some (fs !! Path.segs m) ∧
  length (Path.segs m) = length (Path.segs (Path.of_string pattern)).
Proof.
  intros Habs. unfold Glob.sync. rewrite list_elem_of_omap.
  intros ([k v] & Hkv & Hm). apply elem_of_map_to_list in Hkv.
  unfold Glob.match_key in Hm. rewrite Habs in Hm. simpl in Hm.
  destruct (Glob.segs_match _ k) eqn:Hmatch; [|done].
  injection Hm as <-. simpl. split; [by eexists|].
  symmetry. by apply segs_match_length.
Qed.

Lemma set_add_elem (acc : list Path.path) x y :
  x ∈ FsTools.set_add acc y ↔ x ∈ acc ∨ x = y.
Proof.
  unfold FsTools.set_add. case_decide as Hy.
  - split; [by left|]. by intros [?| ->].
  - rewrite elem_of_app, list_elem_of_singleton. done.
Qed.

Lemma fold_set_add_elem (l acc : list Path.path) x :
  x ∈ fold_left FsTools.set_add l acc ↔ x ∈ acc ∨ x ∈ l.
Proof.
  revert acc. induction l as [|y l IH]; intros acc; simpl.
  - split; [by left|]. by intros [?|?%elem_of_nil].
  - rewrite IH, set_add_elem, elem_of_cons. tauto.
Qed.

Lemma glob_all_elem fs folderPath (ps : list string) m :
  m ∈ FsTools.glob_all fs folderPath ps →
  ∃ pattern, pattern ∈ ps ∧ m ∈ Glob.sync fs folderPath pattern.
Proof.
  unfold FsTools.glob_all.
  assert (∀ (l : list string) acc,
            m ∈ fold_left (λ filesToDelete pattern,
                   fold_left FsTools.set_add (Glob.sync fs folderPath pattern)
                             filesToDelete) l acc →
            m ∈ acc ∨ ∃ pattern, pattern ∈ l ∧ m ∈ Glob.sync fs folderPath pattern)
    as Hgen.
  { induction l as [|p l IH]; intros acc; simpl; [by left|].
    intros [Hin|(q & Hq & Hm)]%IH.
    - apply fold_set_add_elem in Hin as [?|?]; [by left|].
      right. exists p. split; [left|done].
    - right. exists q. split; [by right|done]. }
  intros [[]%elem_of_nil|(p & Hp & Hm)]%Hgen.
  exists p. split; [|done]. by apply list_elem_of_filter in Hp as [_ ?].
Qed.

Lemma delete_entry_lookup_other fs folderPath file fs' p :
  FsTools.delete_entry fs folderPath file = Some fs' →
  ¬ Path.join folderPath file `prefix_of` p →
  fs' !! p = fs !! p.
Proof.
  unfold FsTools.delete_entry. intros H Hp.
  destruct (NodeFs.lstat _ _) as [stat|]; [|done].
  destruct (NodeFs.isDirectory stat).
  - injection H as <-. by apply rm_rf_lookup_other.
  - apply unlink_Some in H as ->. apply lookup_delete_ne. by intros <-.
Qed.

Lemma delete_loop_lookup_other (files : list Path.path) fs folderPath p :
  (∀ file, file ∈ files → ¬ Path.join folderPath file `prefix_of` p) →
  FsTools.delete_loop fs folderPath files !! p = fs !! p.
Proof.
  revert fs. induction files as [|file rest IH]; intros fs Hfiles; simpl; [done|].
  destruct (FsTools.delete_entry _ _ _) as [fs'|] eqn:E; [|done].
  rewrite IH by (intros f Hf; apply Hfiles; by right).
  eapply delete_entry_lookup_other; [done|]. apply Hfiles. left.
Qed.

(** The removal block of a full-mode run, on a well-formed file system
    and an output folder other than the root: whatever the report says,
    no entry of the PDFs folder is removed. *)
Lemma removal_block_never_reaches_pdfs (fs : FS) (folder : list string)
    (r : ChangesFile) (name : string) :
  folder ≠ [] →
  Forall plain folder →
  well_formed fs →
  Forall (λ n, no_slash n = true) (removed (changes r) ++ updated (changes r)) →
  Operation.remove_stale fs folder r false !! (pdfHome folder ++ [name])
  = fs !! (pdfHome folder ++ [name]).
Proof.
  intros Hroot Hfolder Hfs Hnums. unfold Operation.remove_stale. cbn [negb].
  case_bool_decide; [|done].
  unfold FsTools.removeFolderContents.
  destruct (NodeFs.readdir _ _); [|done].
  cbn [FsTools.has_patterns].
  rewrite bool_decide_eq_true_2 by (by rewrite length_fmap).
  apply delete_loop_lookup_other. intros m Hm Hpre.
  apply glob_all_elem in Hm as (pattern & Hpat & Hm).
  apply list_elem_of_fmap in Hpat as (n & -> & Hn).
  rewrite Forall_forall in Hnums. specialize (Hnums n Hn).
  change (Path.join folder (Path.of_string "PDFs")) with (pdfHome folder) in Hm.
  assert (pdfHome folder = folder ++ ["PDFs"]) as Hhome.
  { rewrite pdfHome_eq. by rewrite normalize_plain. }
  rewrite Hhome in *.
  assert (Forall plain (folder ++ ["PDFs"; n +:+ ".pdf"])) as Hplain.
  { apply Forall_app. split; [done|].
    apply Forall_cons. split; [by repeat split|].
    apply Forall_cons. split; [by apply pdf_name_plain|constructor]. }
  assert (Path.join (folder ++ ["PDFs"]) (Path.of_string (n +:+ ".pdf"))
          = folder ++ ["PDFs"; n +:+ ".pdf"]) as Hfile.
  { rewrite of_string_plain by (by apply pdf_name_plain).
    unfold Path.join. cbn [Path.segs]. rewrite <- app_assoc.
    by apply normalize_plain. }
  rewrite Hfile in Hm.
  apply sync_absolute_elem in Hm as [Hkey Hlen];
    [|rewrite of_to_string; [done| by destruct folder | done]].
  rewrite of_to_string in Hlen; [| by destruct folder | done].
  cbn [Path.segs] in Hlen. rewrite length_app in Hlen. simpl in Hlen.
  apply prefix_length in Hpre. unfold Path.join in Hpre.
  rewrite normalize_plain in Hpre.
  - rewrite !length_app in Hpre. simpl in Hpre.
    destruct folder; [done|]. simpl in *. lia.
  - apply Forall_app. split; [done|]. by apply Hfs.
Qed.

End Removal.

(** ** Files that stay *)

Section Completeness.
Implicit Types (fs : FS) (env : Env) (folder : list string).

Lemma well_formed_insert fs k v :
  well_formed fs → Forall plain k → well_formed (<[k := v]> fs).
Proof.
  intros Hfs Hk q Hq. destruct (decide (q = k)) as [->|Hne]; [done|].
  rewrite lookup_insert_ne in Hq by done. by apply Hfs.
Qed.

Lemma well_formed_subseteq fs fs' : fs' ⊆ fs → well_formed fs → well_formed fs'.
Proof. intros Hsub Hfs q Hq. apply Hfs. by eapply subseteq_is_Some. Qed.

Lemma well_formed_check fs :
  map_Forall (λ k _, Forall plain k) fs → well_formed fs.
Proof. intros H k [v Hv]. by apply (H k v). Qed.

Lemma plain_snoc folder (s : string) :
  Forall plain folder → plain s → Forall plain (folder ++ [s]).
Proof. intros. apply Forall_app. split; [done|]. by constructor. Qed.

Lemma pdfPath_plain folder n :
  Forall plain folder → no_slash n = true →
  SnTools.pdfPath (pdfHome folder) n = pdfHome folder ++ [n +:+ ".pdf"].
Proof.
  intros Hf Hn. unfold SnTools.pdfPath.
  rewrite of_string_plain by (by apply pdf_name_plain).
  unfold Path.join at 1. cbn [Path.segs].
  apply normalize_plain. rewrite pdfHome_eq, normalize_plain by done.
  apply plain_snoc; [|by apply pdf_name_plain].
  apply plain_snoc; [done|]. by repeat split.
Qed.

Lemma listing_changes_well_formed env fs folder c :
  Forall plain folder → well_formed fs →
  fs !! listFile folder = Some (File c) →
  well_formed (Operation.doListingWithChanges env fs folder "file_list" "file_changes").1.
Proof.
  intros Hf Hfs Hlist. unfold Operation.doListingWithChanges.
  change (Path.resolve folder (Path.of_string ("file_list" +:+ ".json")))
    with (listFile folder).
  change (Path.resolve folder (Path.of_string ("file_changes" +:+ ".json")))
    with (changesFile folder).
  change (Path.append_to_last (listFile folder) ".old") with (oldListFile folder).
  assert (Forall plain (listFile folder)) as Hl.
  { rewrite listFile_eq, normalize_plain by done. apply plain_snoc; [done|]. by repeat split. }
  assert (Forall plain (oldListFile folder)) as Ho.
  { rewrite oldListFile_eq, normalize_plain by done. apply plain_snoc; [done|]. by repeat split. }
  assert (Forall plain (changesFile folder)) as Hc.
  { rewrite changesFile_eq, normalize_plain by done. apply plain_snoc; [done|]. by repeat split. }
  destruct (negb _); [done|].
  destruct (NodeFs.renameSync _ _ _) as [fs1|] eqn:Hren; [|done].
  apply (rename_file_Some _ _ _ _ _ Hlist) in Hren as ->.
  assert (well_formed (<[oldListFile folder := File c]> (delete (listFile folder) fs)))
    as Hfs1.
  { apply well_formed_insert; [|done].
    eapply well_formed_subseteq; [apply delete_subseteq|done]. }
  unfold SnTools.getArticlesList.
  assert (∀ fs2 : FS, well_formed fs2 →
            well_formed (SnTools.getKBChanges env fs2 (listFile folder)
                           (oldListFile folder) (changesFile folder)).1) as Hch.
  { intros fs2 Hfs2. unfold SnTools.getKBChanges.
    destruct (SnTools.read_articles fs2 _); [|done].
    destruct (SnTools.read_articles fs2 _); [|done].
    destruct (NodeFs.writeFile _ _ _) as [fs3|] eqn:Hw; [|done].
    apply writeFile_Some in Hw as ->. by apply well_formed_insert. }
  destruct (remote env); [|by apply Hch].
  destruct (NodeFs.writeFile _ _ _) as [fs2|] eqn:Hw; [|by apply Hch].
  apply writeFile_Some in Hw as ->. apply Hch. by apply well_formed_insert.
Qed.

(** In full mode a file that is there after the removal block is there at
    the end of the run. *)
Lemma full_run_keeps_files env fs folder r p :
  (Operation.doListingWithChanges env fs folder "file_list" "file_changes").2 = Some r →
  (Operation.doChangesWithFiles env fs folder "file_list" "file_changes" false).2 = [] →
  is_file (Operation.remove_stale
             (Operation.doListingWithChanges env fs folder "file_list" "file_changes").1
             folder r false) p →
  is_file (Operation.doChangesWithFiles env fs folder "file_list" "file_changes" false).1 p.
Proof.
  intros Hrep. pose proof (listing_changes_report_exists _ _ _ _ Hrep) as Hex.
  unfold Operation.doChangesWithFiles.
  change (Path.resolve folder (Path.of_string ("file_list" +:+ ".json")))
    with (listFile folder).
  rewrite Hex. cbn [negb].
  destruct (Operation.doListingWithChanges env fs folder "file_list" "file_changes")
    as [fs1 rep]. cbn [fst snd] in *. subst rep.
  unfold Operation.download_fresh.
  case_bool_decide; [|done].
  unfold SnTools.fetchArticles. destruct (browser_ok env); [|done].
  destruct (fold_left _ _ _) as [fs' failed] eqn:Hloop. cbn [fst snd].
  intros -> Hp. apply download_loop in Hloop as (_ & _ & Hkeep & _). by apply Hkeep.
Qed.

End Completeness.

(** C1, as stated, fails: the files are named by number, the diff goes by
    identity and version label.  An article that comes back under another
    number with the same version label is in no bucket, so its old file
    stays and no file under the new number is made. *)
Lemma renumbered_article_breaks_convergence :
  let S_old := [Sample.article "k1" "KB0010001" "1.0"] in
  let S_new := [Sample.article "k1" "KB0010099" "1.0"] in
  let fs := Sample.workspace S_old ["KB0010001"] in
  let run := Operation.doChangesWithFiles (Sample.online S_new) fs Sample.folder
               "file_list" "file_changes" false in
  folder_matches fs Sample.folder S_old ∧
  run.2 = [] ∧
  ¬ folder_matches run.1 Sample.folder S_new.
Proof.
  intros S_old S_new fs run. split_and!.
  - intros name.
    replace (pdf_names fs Sample.folder) with ["KB0010001.pdf"] by (by vm_compute).
    done.
  - by vm_compute.
  - intros H. specialize (H "KB0010099.pdf") as [_ H].
    assert ("KB0010099.pdf" ∈ pdf_names run.1 Sample.folder) as Hin
      by (apply H; by_computation).
    revert Hin. change (¬ "KB0010099.pdf" ∈ pdf_names run.1 Sample.folder).
    by_computation.
Qed.

(** C1, amended — A full-mode run that finds the snapshot [S_old], fetches
    [S_new] and gets its change report, with a working browser and no
    failed download: the report is the diff of the two snapshots; every
    number in its updated and added buckets has its file in the PDFs
    folder; whatever lies in the PDFs folder after the run was there
    before or is one of those files; and if the folder had a file for
    every number of [S_old], identities are unique in each snapshot and
    correspond one to one to numbers across the two, then after the run
    the folder has a file for every number of [S_new].  That the files of
    removed articles are gone, and so that the folder holds exactly the
    numbers of [S_new], is not promised. *)
Theorem full_run_bounds (env : Env) (fs : FS) (folder : list string)
    (S_old S_new : list Article) (r : ChangesFile) :
  fs !! listFile folder = Some (File (JsonArticles S_old)) →
  remote env = Some S_new →
  browser_ok env = true →
  (Operation.doListingWithChanges env fs folder "file_list" "file_changes").2 = Some r →
  (Operation.doChangesWithFiles env fs folder "file_list" "file_changes" false).2 = [] →
  let fs' := (Operation.doChangesWithFiles env fs folder "file_list" "file_changes" false).1 in
  changes r = SnTools.detect_changes S_new S_old ∧
  (∀ n, n ∈ updated (changes r) ++ added (changes r) →
        is_file fs' (SnTools.pdfPath (pdfHome folder) n)) ∧
  (∀ p, pdfHome folder `prefix_of` p → is_Some (fs' !! p) →
        is_Some (fs !! p) ∨
        ∃ n, n ∈ updated (changes r) ++ added (changes r) ∧
             p = SnTools.pdfPath (pdfHome folder) n) ∧
  (NoDup (Spec.ids S_old) → NoDup (Spec.ids S_new) →
   (∀ x y, x ∈ S_old ++ S_new → y ∈ S_old ++ S_new →
           sys_id x = sys_id y ↔ number x = number y) →
   folder ≠ [] → Forall plain folder → well_formed fs →
   Forall (λ a, no_slash (number a) = true) (S_old ++ S_new) →
   (∀ o, o ∈ S_old → is_file fs (SnTools.pdfPath (pdfHome folder) (number o))) →
   ∀ a, a ∈ S_new → is_file fs' (SnTools.pdfPath (pdfHome folder) (number a))).
Proof.
  intros Hold Hnew Hb Hrep Hfail fs'.
  pose proof (listing_changes_report _ _ _ _ _ _ Hold Hnew Hrep) as Hr.
  assert (changes r = SnTools.detect_changes S_new S_old) as Hch by (by rewrite Hr).
  pose proof (changes_run_bounds env fs folder false r Hrep Hb Hfail) as [Hall Hnone].
  split_and!; [done..|].
  intros Ho Hn Hkey Hroot Hfolder Hfs Hnums Hprior a Ha.
  rewrite detect_changes_records, !map_records_unique in Hch by done.
  apply Forall_app in Hnums as [Hnums_old Hnums_new].
  destruct (decide (Spec.is_added S_old a)) as [Hadd|Hnadd].
  { apply Hall. rewrite Hch. apply elem_of_app. right.
    apply list_elem_of_fmap_2. by apply list_elem_of_filter. }
  destruct (decide (Spec.is_updated S_old a)) as [Hupd|Hnupd].
  { apply Hall. rewrite Hch. apply elem_of_app. left.
    apply list_elem_of_fmap_2. by apply list_elem_of_filter. }
  apply dec_stable in Hnadd.
  apply list_elem_of_fmap in Hnadd as (o & Hid & Hoin).
  assert (number o = number a) as Hnum.
  { apply Hkey; [apply elem_of_app; by left | apply elem_of_app; by right | done]. }
  apply full_run_keeps_files with (r := r); [done..|].
  assert (no_slash (number a) = true) as Hplain
    by (rewrite Forall_forall in Hnums_new; by apply Hnums_new).
  specialize (Hprior o Hoin). rewrite Hnum in Hprior.
  rewrite pdfPath_plain in * by done.
  destruct Hprior as [c Hc]. exists c.
  rewrite removal_block_never_reaches_pdfs; [| done | done | |].
  - rewrite listing_changes_keeps_pdfs; [done|]. by apply prefix_app_r.
  - by eapply listing_changes_well_formed.
  - rewrite Hch. cbn [Spec.diff removed updated]. apply Forall_app. split.
    + apply Forall_fmap. eapply Forall_impl; [|done].
      apply Forall_forall. intros x Hx%list_elem_of_filter.
      rewrite Forall_forall in Hnums_old. apply Hnums_old. tauto.
    + apply Forall_fmap.
      apply Forall_forall. intros x Hx%list_elem_of_filter.
      rewrite Forall_forall in Hnums_new. apply Hnums_new. tauto.
Qed.

Lemma full_run_bounds_witness :
  let S_old := [Sample.article "k1" "KB0010001" "1.0";
                Sample.article "k2" "KB0010002" "1.0";
                Sample.article "k4" "KB0010004" "3.1"] in
  let S_new := [Sample.article "k1" "KB0010001" "2.0";
                Sample.article "k3" "KB0010003" "1.0";
                Sample.article "k4" "KB0010004" "3.1"] in
  let fs := Sample.workspace S_old ["KB0010001"; "KB0010002"; "KB0010004"] in
  let fs' := (Operation.doChangesWithFiles (Sample.online S_new) fs Sample.folder
                "file_list" "file_changes" false).1 in
  Forall (λ a, is_file fs' (SnTools.pdfPath (pdfHome Sample.folder) (number a))) S_new.
Proof.
  intros S_old S_new fs fs'. apply Forall_forall.
  pose proof (full_run_bounds (Sample.online S_new) fs Sample.folder S_old S_new
    {| last_updated_on := "2024-07-10T02:00:00.000Z";
       changes := {| added := ["KB0010003"]; updated := ["KB0010001"];
                     removed := ["KB0010002"] |} |}) as H.
  destruct H as (_ & _ & _ & H);
    [by vm_compute | reflexivity | reflexivity | by vm_compute | by vm_compute |].
  apply H.
  - by_computation.
  - by_computation.
  - assert (Forall (λ x, Forall (λ y, sys_id x = sys_id y ↔ number x = number y)
                                 (S_old ++ S_new)) (S_old ++ S_new)) as HF
      by by_computation.
    intros x y Hx Hy. rewrite Forall_forall in HF. specialize (HF x Hx).
    rewrite Forall_forall in HF. by apply HF.
  - done.
  - by_computation.
  - apply well_formed_check. by_computation.
  - by_computation.
  - assert (Forall (λ o, is_file fs (SnTools.pdfPath (pdfHome Sample.folder) (number o)))
                   S_old) as HF by by_computation.
    intros o Ho. rewrite Forall_forall in HF. by apply HF.
Defined.

(** C2 — The removal block of a full-mode run does not delete the files
    of the updated and removed articles.  Its patterns are the absolute
    paths of those files; [glob.sync] returns an absolute match as it is;
    [removeFolderContents] joins the match to the folder once more, and
    [lstat] of the doubled path throws.  Evaluated on a run in which
    KB0010002 is removed and KB0010001 is updated: after the removal
    block both files are still there, and the file of the removed article
    is still there at the end of the run. *)
Theorem removal_block_keeps_stale_files :
  let S_old := [Sample.article "k1" "KB0010001" "1.0";
                Sample.article "k2" "KB0010002" "1.0"] in
  let S_new := [Sample.article "k1" "KB0010001" "2.0"] in
  let fs := Sample.workspace S_old ["KB0010001"; "KB0010002"] in
  let env := Sample.online S_new in
  let listing := Operation.doListingWithChanges env fs Sample.folder
                   "file_list" "file_changes" in
  let r := {| last_updated_on := "2024-07-10T02:00:00.000Z";
              changes := {| added := []; updated := ["KB0010001"];
                            removed := ["KB0010002"] |} |} in
  let stale := Sample.folder ++ ["PDFs"; "KB0010002.pdf"] in
  listing.2 = Some r ∧
  Glob.sync listing.1 Sample.folder (Path.to_string stale)
    = [{| Path.absolute := true; Path.segs := stale |}] ∧
  Path.join Sample.folder {| Path.absolute := true; Path.segs := stale |}
    = Sample.folder ++ stale ∧
  Operation.remove_stale listing.1 Sample.folder r false = listing.1 ∧
  listing.1 !! stale = Some (File (Pdf "KB0010002")) ∧
  (Operation.doChangesWithFiles env fs Sample.folder
     "file_list" "file_changes" false).1 !! stale
    = Some (File (Pdf "KB0010002")).
Proof.
  intros S_old S_new fs env listing r stale.
  repeat split; by vm_compute.
Qed.

(** C3 — The reset of a newer-only run misfires.  The run is meant to
    leave only the files of the added and updated articles in the PDFs
    folder, and [fetchArticles] is called with [resetTarget] set for
    that; but its call of [removeFolderContents] hands over the
    monitoring callback where the patterns belong.  A function of one or
    more parameters passes for a non-empty pattern list, [patterns.filter]
    throws, and nothing is removed: the reset does nothing, and the
    download goes as without it.  Evaluated on a run with the callback of
    index.js in which KB0010001 is updated, KB0010002 is removed,
    KB0010003 is added and KB0010004 is unchanged, all four with a file
    from earlier runs: no download fails, and afterwards the files of the
    removed and of the unchanged article are still in the folder, which
    so is not within the added and updated numbers.  Only without a
    callback (the default function has no parameter, which passes for no
    patterns) does the same run empty the folder first and leave the two
    files of the report. *)
Theorem newer_only_reset_misfires :
  let S_old := [Sample.article "k1" "KB0010001" "1.0";
                Sample.article "k2" "KB0010002" "1.0";
                Sample.article "k4" "KB0010004" "3.1"] in
  let S_new := [Sample.article "k1" "KB0010001" "2.0";
                Sample.article "k3" "KB0010003" "1.0";
                Sample.article "k4" "KB0010004" "3.1"] in
  let fs := Sample.workspace S_old ["KB0010001"; "KB0010002"; "KB0010004"] in
  let env := Sample.online S_new in
  let silent := {| remote := Some S_new; browser_ok := true; render_ok := λ _, true;
                   now := "2024-07-10T02:00:00.000Z"; monitor_arity := 0 |} in
  let r := {| last_updated_on := "2024-07-10T02:00:00.000Z";
              changes := {| added := ["KB0010003"]; updated := ["KB0010001"];
                            removed := ["KB0010002"] |} |} in
  let run := Operation.doChangesWithFiles env fs Sample.folder
               "file_list" "file_changes" true in
  let fresh := (λ n, n +:+ ".pdf") <$> (added (changes r) ++ updated (changes r)) in
  (Operation.doListingWithChanges env fs Sample.folder
     "file_list" "file_changes").2 = Some r ∧
  run.2 = [] ∧
  (∀ fs' targetDir arity,
     FsTools.removeFolderContents fs' targetDir (FsTools.PatFunction (S arity)) = fs') ∧
  (∀ fs' numbers targetDir,
     SnTools.fetchArticles env fs' numbers targetDir true
     = SnTools.fetchArticles env fs' numbers targetDir false) ∧
  "KB0010002.pdf" ∈ pdf_names run.1 Sample.folder ∧
  "KB0010004.pdf" ∈ pdf_names run.1 Sample.folder ∧
  ¬ Forall (λ name, name ∈ fresh) (pdf_names run.1 Sample.folder) ∧
  (Operation.doChangesWithFiles silent fs Sample.folder
     "file_list" "file_changes" true).2 = [] ∧
  Forall (λ name, name ∈ fresh)
    (pdf_names (Operation.doChangesWithFiles silent fs Sample.folder
                  "file_list" "file_changes" true).1 Sample.folder).
Proof.
  intros S_old S_new fs env silent r run fresh. split_and!.
  - by vm_compute.
  - by vm_compute.
  - intros fs' targetDir arity. apply removeFolderContents_callback.
  - intros fs' numbers targetDir. unfold SnTools.fetchArticles.
    change (monitor_arity env) with 1%nat.
    by rewrite removeFolderContents_callback.
  - by_computation.
  - by_computation.
  - by_computation.
  - by vm_compute.
  - by_computation.
Qed.

(** C7, as stated, fails: the snapshot is rotated before the catalog is
    asked, and nothing puts it back when the request fails, so after such
    a run no snapshot can be loaded from the original path. *)
Lemma failed_fetch_loses_primary_snapshot :
  ¬ (∀ (env : Env) (fs : FS) (folder : list string) (S : list Article),
       remote env = None →
       SnTools.read_articles fs (listFile folder) = Some S →
       SnTools.read_articles
         (Operation.doListingWithChanges env fs folder "file_list" "file_changes").1
         (listFile folder) = Some S).
Proof.
  intros H.
  specialize (H Sample.offline
                (Sample.workspace [Sample.article "k1" "KB0010001" "1.0"] ["KB0010001"])
                Sample.folder [Sample.article "k1" "KB0010001" "1.0"]
                eq_refl ltac:(by vm_compute)).
  by vm_compute in H.
Qed.

(** C7, amended — When the request to the catalog fails in a
    change-tracking run that found a snapshot file, the run returns the
    null sentinel, writes no snapshot and no report, and downloads and
    deletes nothing; the content of the previous snapshot is kept, under
    the rotated name: the original path is left empty.  (The rotation
    needs the output folder to exist and no folder to sit at the rotated
    name.) *)
Theorem failed_fetch_rotates_only (env : Env) (fs : FS) (folder : list string)
    (c : content) (newerOnly : bool) :
  remote env = None →
  fs !! listFile folder = Some (File c) →
  fs !! oldListFile folder ≠ Some Dir →
  NodeFs.is_dir fs (NodeFs.parent (oldListFile folder)) = true →
  let fs' := <[oldListFile folder := File c]> (delete (listFile folder) fs) in
  Operation.doListingWithChanges env fs folder "file_list" "file_changes" = (fs', None) ∧
  Operation.doChangesWithFiles env fs folder "file_list" "file_changes" newerOnly = (fs', []) ∧
  fs' !! listFile folder = None ∧
  fs' !! oldListFile folder = Some (File c) ∧
  (∀ p, p ≠ listFile folder → p ≠ oldListFile folder → fs' !! p = fs !! p).
Proof.
  intros Hremote Hlist Hold Hparent fs'.
  pose proof (list_old_distinct folder) as Hne.
  assert (Operation.doListingWithChanges env fs folder "file_list" "file_changes"
          = (fs', None)) as Hlisting.
  { unfold Operation.doListingWithChanges.
    change (Path.resolve folder (Path.of_string ("file_list" +:+ ".json")))
      with (listFile folder).
    change (Path.append_to_last (listFile folder) ".old") with (oldListFile folder).
    rewrite (proj2 (existsSync_true fs (listFile folder))) by (by rewrite Hlist).
    cbn [negb]. rewrite (rename_file_succeeds fs _ _ c) by done.
    unfold SnTools.getArticlesList. rewrite Hremote.
    unfold SnTools.getKBChanges, SnTools.read_articles. fold fs'.
    replace (fs' !! listFile folder) with (@None node); [done|].
    unfold fs'. by rewrite lookup_insert_ne, lookup_delete_eq. }
  split_and!.
  - done.
  - unfold Operation.doChangesWithFiles.
    change (Path.resolve folder (Path.of_string ("file_list" +:+ ".json")))
      with (listFile folder).
    rewrite (proj2 (existsSync_true fs (listFile folder))) by (by rewrite Hlist).
    cbn [negb]. by rewrite Hlisting.
  - unfold fs'. by rewrite lookup_insert_ne, lookup_delete_eq.
  - unfold fs'. by rewrite lookup_insert_eq.
  - intros p Hp1 Hp2. unfold fs'. by rewrite lookup_insert_ne, lookup_delete_ne.
Qed.

Lemma failed_fetch_rotates_only_witness :
  let S := [Sample.article "k1" "KB0010001" "1.0"] in
  let fs := Sample.workspace S ["KB0010001"] in
  Operation.doListingWithChanges Sample.offline fs Sample.folder
    "file_list" "file_changes"
  = (<[oldListFile Sample.folder := File (JsonArticles S)]>
       (delete (listFile Sample.folder) fs), None).
Proof.
  intros S fs.
  apply (failed_fetch_rotates_only Sample.offline fs Sample.folder
           (JsonArticles S) false).
  - reflexivity.
  - by vm_compute.
  - by vm_compute.
  - by vm_compute.
Defined.

(** ** Claims about the session lock *)

(** C10, as stated, fails: [existsSync] is true of a folder too, and
    [unlinkSync] does not remove one.  With a folder at the lock path
    [closeSession] throws and leaves it there, so that no session can be
    opened afterwards. *)
Lemma closeSession_leaves_folder :
  let fs := <[Session.lockFilePath Sample.folder := Dir]> Sample.empty_workspace in
  Session.closeSession fs Sample.folder = (fs, Session.Throws) ∧
  NodeFs.existsSync (Session.closeSession fs Sample.folder).1
    (Session.lockFilePath Sample.folder) = true ∧
  Session.canOpenSession (Session.closeSession fs Sample.folder).1 Sample.folder = false ∧
  ¬ (∀ (fs : FS) (targetFolder : list string),
       (Session.closeSession fs targetFolder).2 = Session.Returns ∧
       NodeFs.existsSync (Session.closeSession fs targetFolder).1
         (Session.lockFilePath targetFolder) = false).
Proof.
  intros fs.
  assert (Session.closeSession fs Sample.folder = (fs, Session.Throws)) as Hrun.
  { unfold Session.closeSession.
    replace (NodeFs.existsSync fs (Session.lockFilePath Sample.folder)) with true
      by (by vm_compute).
    replace (NodeFs.unlink fs (Session.lockFilePath Sample.folder)) with (@None FS)
      by (by vm_compute).
    done. }
  split_and!.
  - exact Hrun.
  - rewrite Hrun. by vm_compute.
  - rewrite Hrun. by vm_compute.
  - intros H. destruct (H fs Sample.folder) as [Hret _].
    rewrite Hrun in Hret. done.
Qed.

(** C10, amended — [closeSession] goes by what lies at the lock path.
    Nothing there: it returns and leaves the file system as it is.  A
    file there: it returns, and the file system is the one without that
    file.  A folder there: it throws and leaves the file system as it
    is.  In each case a second call ends as the first did and leaves the
    state the first left; and a call returns exactly when no folder lies
    at the lock path, which is also exactly when nothing lies at the lock
    path afterwards. *)
Theorem closeSession_idempotent (fs : FS) (targetFolder : list string) :
  let lock := Session.lockFilePath targetFolder in
  let run := Session.closeSession fs targetFolder in
  (fs !! lock = None → run = (fs, Session.Returns)) ∧
  (∀ c, fs !! lock = Some (File c) → run = (delete lock fs, Session.Returns)) ∧
  (fs !! lock = Some Dir → run = (fs, Session.Throws)) ∧
  Session.closeSession run.1 targetFolder = run ∧
  (run.2 = Session.Returns ↔ fs !! lock ≠ Some Dir) ∧
  (run.1 !! lock = None ↔ fs !! lock ≠ Some Dir).
Proof.
  intros lock run. subst run. unfold Session.closeSession. fold lock.
  destruct (fs !! lock) as [[|c]|] eqn:Hl.
  - rewrite (proj2 (existsSync_true fs lock)) by (by rewrite Hl). cbn [negb].
    unfold NodeFs.unlink. rewrite Hl. cbn [fst snd].
    rewrite (proj2 (existsSync_true fs lock)) by (by rewrite Hl). cbn [negb].
    rewrite Hl. split_and!; try done; split; intros; congruence.
  - rewrite (proj2 (existsSync_true fs lock)) by (by rewrite Hl). cbn [negb].
    unfold NodeFs.unlink. rewrite Hl. cbn [fst snd].
    rewrite (proj2 (existsSync_false (delete lock fs) lock))
      by apply lookup_delete_eq.
    cbn [negb]. rewrite lookup_delete_eq. split_and!; try done.
  - rewrite (proj2 (existsSync_false fs lock)) by done. cbn [negb fst snd].
    rewrite (proj2 (existsSync_false fs lock)) by done. cbn [negb].
    rewrite Hl. split_and!; done.
Qed.

Lemma closeSession_idempotent_witness :
  let fs := <[Session.lockFilePath Sample.folder := File (Opaque "5c0f")]>
              Sample.empty_workspace in
  Session.closeSession Sample.empty_workspace Sample.folder
  = (Sample.empty_workspace, Session.Returns) ∧
  Session.closeSession fs Sample.folder
  = (delete (Session.lockFilePath Sample.folder) fs, Session.Returns) ∧
  (Session.closeSession fs Sample.folder).1 !! Session.lockFilePath Sample.folder = None.
Proof.
  intros fs.
  pose proof (closeSession_idempotent Sample.empty_workspace Sample.folder) as Hnone.
  pose proof (closeSession_idempotent fs Sample.folder) as Hfile.
  cbv zeta in Hnone, Hfile.
  destruct Hnone as (Hnone & _). destruct Hfile as (_ & Hfile & _ & _ & _ & Hgone).
  split_and!.
  - apply Hnone. by vm_compute.
  - apply (Hfile (Opaque "5c0f")). by vm_compute.
  - apply Hgone. by vm_compute.
Defined.

(** ** Claims about the configuration *)

(** C8 — Past the help and init_config branches, the final input data
    are the built-in defaults overridden by the default profile
    overridden by the selected profile; the mandatory-argument check and
    the choice of the operation read only them.  The parsed arguments,
    fourth in the call of the three-parameter [mergeData], add nothing:
    two command lines that select the same profile lead to the same final
    input data and the same plan. *)
Theorem command_line_values_dropped (input : Main.Input)
    (file : ConfigTools.config_file) (args : Obj) :
  ConfigTools.truthy (args !! "help") = false →
  ConfigTools.truthy (args !! "init_config") = false →
  let defaultProfileData :=
    default ∅ (ConfigTools.getConfigData file (JStr "default")) in
  let profileData :=
    if ConfigTools.truthy (args !! "config_profile")
    then default ∅ (ConfigTools.getConfigData file (default JNull (args !! "config_profile")))
    else ∅ in
  let final := Main.finalInputData input file args in
  final = profileData ∪ defaultProfileData ∪ Main.appArgDefaults input ∧
  (∀ k, final !! k =
        match profileData !! k with
        | Some v => Some v
        | None => match defaultProfileData !! k with
                  | Some v => Some v
                  | None => Main.appArgDefaults input !! k
                  end
        end) ∧
  (∀ dir_ok lock_free session_opens,
     Main.mainExec input file (Some args) dir_ok lock_free session_opens =
     match Main.missing_mandatory input final with
     | Some _ => Main.Exit 2
     | None =>
         if negb (ConfigTools.truthy (final !! "output_dir")) then Main.Exit 2
         else if negb dir_ok then Main.Exit 2
         else if negb lock_free then Main.Exit 2
         else if negb session_opens then Main.Unsettled
         else match Main.operation_of final with
              | Some mode => Main.Run mode final
              | None => Main.Exit 2
              end
     end) ∧
  (∀ args' dir_ok lock_free session_opens,
     ConfigTools.truthy (args' !! "help") = false →
     ConfigTools.truthy (args' !! "init_config") = false →
     args' !! "config_profile" = args !! "config_profile" →
     Main.finalInputData input file args' = final ∧
     Main.mainExec input file (Some args') dir_ok lock_free session_opens
     = Main.mainExec input file (Some args) dir_ok lock_free session_opens).
Proof.
  intros Hhelp Hinit defaultProfileData profileData final.
  assert (final = profileData ∪ defaultProfileData ∪ Main.appArgDefaults input) as Hfinal
    by done.
  split_and!.
  - done.
  - intros k. rewrite Hfinal, !lookup_union.
    destruct (profileData !! k), (defaultProfileData !! k),
      (Main.appArgDefaults input !! k); done.
  - intros dir_ok lock_free session_opens. unfold Main.mainExec.
    by rewrite Hhelp, Hinit.
  - intros args' dir_ok lock_free session_opens Hhelp' Hinit' Hcp.
    assert (Main.finalInputData input file args' = final) as Hsame.
    { unfold final, Main.finalInputData. by rewrite Hcp. }
    split; [done|].
    unfold Main.mainExec. rewrite Hhelp, Hinit, Hhelp', Hinit'.
    fold final. by rewrite Hsame.
Qed.

(** A command line that gives every mandatory argument and asks for
    [list] runs what the default profile says, on the profile's
    directory; without a configuration file it is turned down for a
    missing mandatory argument. *)
Lemma command_line_values_dropped_witness :
  Main.mainExec Sample.input Sample.config (Some Sample.args_cli) true true true
  = Main.mainExec Sample.input Sample.config (Some ∅) true true true ∧
  Main.finalInputData Sample.input Sample.config Sample.args_cli !! "output_dir"
  = Some (JStr "/home/kb/out") ∧
  Main.mainExec Sample.input ConfigTools.Unreadable (Some Sample.args_cli) true true true
  = Main.Exit 2.
Proof.
  pose proof (command_line_values_dropped Sample.input Sample.config ∅
                eq_refl eq_refl) as (_ & _ & _ & H).
  split_and!.
  - apply (H Sample.args_cli true true true); by vm_compute.
  - by vm_compute.
  - by vm_compute.
Defined.

(** * Further properties of the code *)

(** ** Sessions *)

Section SessionFacts.
Implicit Types (fs : FS) (folder : list string).

(** X1 — A session that [openSession] has opened excludes every other:
    the call returns only where [canOpenSession] answered yes, it leaves
    the lock file with the fresh identifier and nothing else changed,
    [canOpenSession] then answers no, and a second [openSession] throws
    and leaves the file system as it is. *)
Theorem openSession_excludes fs folder (uuid : string) fs1 :
  Session.openSession fs folder uuid = (fs1, Session.Returns) →
  Session.canOpenSession fs folder = true ∧
  fs1 = <[Session.lockFilePath folder := File (Opaque uuid)]> fs ∧
  Session.canOpenSession fs1 folder = false ∧
  ∀ uuid', Session.openSession fs1 folder uuid' = (fs1, Session.Throws).
Proof.
  unfold Session.openSession, Session.canOpenSession.
  destruct (NodeFs.existsSync fs _) eqn:He; [done|].
  destruct (NodeFs.writeFile fs _ _) as [fs'|] eqn:Hw; [|done].
  intros [= <-]. apply writeFile_Some in Hw as ->.
  assert (NodeFs.existsSync
            (<[Session.lockFilePath folder := File (Opaque uuid)]> fs)
            (Session.lockFilePath folder) = true) as He'.
  { apply existsSync_true. rewrite lookup_insert_eq. by eexists. }
  split_and!; [done|done|by rewrite He'|].
  intros uuid'. by rewrite He'.
Qed.

Lemma openSession_excludes_witness :
  let fs1 := (Session.openSession Sample.empty_workspace Sample.folder
                "1b9d6bcd-bbfd-4b2d-9b5d-ab8dfbbd4bed").1 in
  Session.canOpenSession fs1 Sample.folder = false ∧
  Session.openSession fs1 Sample.folder "6ec0bd7f-11c0-43da-975e-2a8ad9ebae0b"
  = (fs1, Session.Throws).
Proof.
  intros fs1.
  destruct (openSession_excludes Sample.empty_workspace Sample.folder
              "1b9d6bcd-bbfd-4b2d-9b5d-ab8dfbbd4bed" fs1) as (_ & _ & H1 & H2).
  - assert ((Session.openSession Sample.empty_workspace Sample.folder
               "1b9d6bcd-bbfd-4b2d-9b5d-ab8dfbbd4bed").2 = Session.Returns) as E
      by (vm_compute; exact eq_refl).
    rewrite (surjective_pairing (Session.openSession _ _ _)), E. exact eq_refl.
  - split; [exact H1|apply H2].
Defined.

(** X2 — Opening and closing is a round trip: when [openSession] returns,
    [closeSession] on the result returns as well and gives back the file
    system [openSession] started from. *)
Theorem open_close_round_trip fs folder (uuid : string) fs1 :
  Session.openSession fs folder uuid = (fs1, Session.Returns) →
  Session.closeSession fs1 folder = (fs, Session.Returns).
Proof.
  unfold Session.openSession, Session.closeSession.
  destruct (NodeFs.existsSync fs _) eqn:He; [done|].
  destruct (NodeFs.writeFile fs _ _) as [fs'|] eqn:Hw; [|done].
  intros [= <-]. apply writeFile_Some in Hw as ->.
  apply existsSync_false in He.
  assert (NodeFs.existsSync
            (<[Session.lockFilePath folder := File (Opaque uuid)]> fs)
            (Session.lockFilePath folder) = true) as ->.
  { apply existsSync_true. rewrite lookup_insert_eq. by eexists. }
  cbn [negb]. unfold NodeFs.unlink. rewrite lookup_insert_eq.
  by rewrite delete_insert_id.
Qed.

Lemma open_close_round_trip_witness :
  Session.closeSession
    (Session.openSession Sample.empty_workspace Sample.folder
       "1b9d6bcd-bbfd-4b2d-9b5d-ab8dfbbd4bed").1 Sample.folder
  = (Sample.empty_workspace, Session.Returns).
Proof.
  apply (open_close_round_trip _ _ "1b9d6bcd-bbfd-4b2d-9b5d-ab8dfbbd4bed").
  assert ((Session.openSession Sample.empty_workspace Sample.folder
             "1b9d6bcd-bbfd-4b2d-9b5d-ab8dfbbd4bed").2 = Session.Returns) as E
    by (vm_compute; exact eq_refl).
  rewrite (surjective_pairing (Session.openSession _ _ _)), E. exact eq_refl.
Defined.

End SessionFacts.

(** ** Clearing a folder *)

Section Clearing.
Implicit Types (fs : FS) (folder : list string).

Lemma join_plain folder (m : Path.path) :
  Forall plain folder → Forall plain (Path.segs m) →
  Path.join folder m = folder ++ Path.segs m.
Proof. intros. unfold Path.join. apply normalize_plain. by apply Forall_app. Qed.

Lemma prefix_snoc_eq (F : list string) (x y : string) (rest : list string) :
  F ++ [x] `prefix_of` F ++ y :: rest → x = y.
Proof.
  intros [k Hk]. rewrite <- app_assoc in Hk. apply app_inv_head in Hk.
  by injection Hk.
Qed.

Lemma fold_set_add_NoDup (l acc : list Path.path) :
  NoDup acc → NoDup (fold_left FsTools.set_add l acc).
Proof.
  revert acc. induction l as [|x l IH]; intros acc Hacc; [done|].
  cbn [fold_left]. apply IH. unfold FsTools.set_add.
  destruct (decide (x ∈ acc)); [done|].
  apply NoDup_app. split_and!; [done| |apply NoDup_singleton].
  intros y Hy ->%list_elem_of_singleton. done.
Qed.

Lemma glob_fold_elem fs folder (ps : list string) (acc : list Path.path) m :
  m ∈ fold_left (λ filesToDelete pattern,
                   fold_left FsTools.set_add (Glob.sync fs folder pattern) filesToDelete)
                ps acc
  ↔ m ∈ acc ∨ ∃ pattern, pattern ∈ ps ∧ m ∈ Glob.sync fs folder pattern.
Proof.
  revert acc. induction ps as [|p ps IH]; intros acc; cbn [fold_left].
  - split; [by left|]. intros [?|(p & Hp & _)]; [done|]. by apply elem_of_nil in Hp.
  - rewrite IH, fold_set_add_elem. split.
    + intros [[?|?]|(q & Hq & ?)]; [by left| |].
      * right. exists p. split; [left|done].
      * right. exists q. split; [by right|done].
    + intros [?|(q & Hq & ?)]; [by left; left|].
      apply elem_of_cons in Hq as [->|Hq]; [by left; right|].
      right. by exists q.
Qed.

Lemma glob_fold_NoDup fs folder (ps : list string) (acc : list Path.path) :
  NoDup acc →
  NoDup (fold_left (λ filesToDelete pattern,
                      fold_left FsTools.set_add (Glob.sync fs folder pattern) filesToDelete)
                   ps acc).
Proof.
  revert acc. induction ps as [|p ps IH]; intros acc Hacc; [done|].
  cbn [fold_left]. by apply IH, fold_set_add_NoDup.
Qed.

Lemma glob_all_elem_iff fs folder (ps : list string) m :
  m ∈ FsTools.glob_all fs folder ps
  ↔ ∃ pattern, pattern ∈ ps ∧ pattern ≠ "" ∧ m ∈ Glob.sync fs folder pattern.
Proof.
  unfold FsTools.glob_all. rewrite glob_fold_elem. split.
  - intros [H|(p & Hp & Hm)]; [by apply elem_of_nil in H|].
    apply list_elem_of_filter in Hp as [? ?]. by exists p.
  - intros (p & Hp & Hne & Hm). right. exists p. split; [|done].
    by apply list_elem_of_filter.
Qed.

(** What [glob.sync] returns: for an absolute pattern the key itself,
    for a relative one what follows the folder. *)
Lemma sync_elem fs folder pattern m :
  Forall plain folder →
  m ∈ Glob.sync fs folder pattern →
  ∃ k, is_Some (fs !! k) ∧
       (Path.segs m = k ∨ k = folder ++ Path.segs m) ∧
       (Path.absolute (Path.of_string pattern) = false →
        m = {| Path.absolute := false; Path.segs := Path.segs m |} ∧
        k = folder ++ Path.segs m ∧
        Glob.segs_match (Path.segs (Path.of_string pattern)) (Path.segs m) = true).
Proof.
  intros Hf Hm. unfold Glob.sync in Hm.
  apply list_elem_of_omap in Hm as ([k v] & Hkv & Hmatch).
  apply elem_of_map_to_list in Hkv. cbn in Hmatch.
  rewrite (normalize_plain _ _ Hf) in Hmatch.
  exists k. split; [by eexists|].
  unfold Glob.match_key in Hmatch.
  destruct (Path.absolute (Path.of_string pattern)).
  - destruct (Glob.segs_match _ k); [|done]. injection Hmatch as <-.
    split; [by left|done].
  - destruct (bool_decide (folder `prefix_of` k)) eqn:Hp; [|done].
    apply bool_decide_eq_true in Hp as [r ->].
    rewrite drop_app_length in Hmatch.
    destruct (Glob.segs_match _ r) eqn:Hs; [|done]. injection Hmatch as <-.
    cbn. split; [by right|]. done.
Qed.

Lemma sync_relative_intro fs folder pattern (r : list string) :
  Forall plain folder →
  Path.absolute (Path.of_string pattern) = false →
  is_Some (fs !! (folder ++ r)) →
  Glob.segs_match (Path.segs (Path.of_string pattern)) r = true →
  {| Path.absolute := false; Path.segs := r |} ∈ Glob.sync fs folder pattern.
Proof.
  intros Hf Habs [v Hv] Hs. unfold Glob.sync.
  apply list_elem_of_omap. exists (folder ++ r, v). split.
  { by apply elem_of_map_to_list. }
  cbn. rewrite (normalize_plain _ _ Hf). unfold Glob.match_key. rewrite Habs.
  rewrite bool_decide_eq_true_2 by by apply prefix_app_r.
  by rewrite drop_app_length, Hs.
Qed.

Lemma readdir_elem fs folder names name :
  NodeFs.readdir fs folder = Some names →
  name ∈ names ↔ is_Some (fs !! (folder ++ [name])).
Proof.
  unfold NodeFs.readdir.
  destruct (NodeFs.is_dir fs folder); [|done]. intros [= <-].
  rewrite list_elem_of_omap. split.
  - intros ([k v] & Hkv & Hc). apply elem_of_map_to_list in Hkv.
    cbn in Hc. unfold NodeFs.child_name in Hc.
    destruct (last k) as [n|]; [|done].
    destruct (decide (k = folder ++ [n])) as [->|]; [|done].
    injection Hc as <-. by eexists.
  - intros [v Hv]. exists (folder ++ [name], v). split.
    { by apply elem_of_map_to_list. }
    cbn. unfold NodeFs.child_name. rewrite last_snoc.
    by rewrite decide_True.
Qed.

(** The deletion loop over entries that lie directly in the folder. *)
Lemma delete_loop_children (files : list Path.path) fs folder :
  Forall plain folder →
  NoDup (Path.segs <$> files) →
  (∀ m, m ∈ files →
        ∃ name, Path.segs m = [name] ∧ plain name ∧
                is_Some (fs !! (folder ++ [name]))) →
  (∀ m, m ∈ files →
        FsTools.delete_loop fs folder files !! (folder ++ Path.segs m) = None) ∧
  (∀ m rest, m ∈ files → fs !! (folder ++ Path.segs m) = Some Dir →
        FsTools.delete_loop fs folder files !! (folder ++ Path.segs m ++ rest) = None).
Proof.
  intros Hf. revert fs. induction files as [|m files IH]; intros fs Hnd Hall.
  { split; intros ? **; exfalso; by eapply elem_of_nil. }
  rewrite fmap_cons in Hnd. apply NoDup_cons in Hnd as [Hm Hnd].
  destruct (Hall m) as (name & Hsegs & Hplain & [v Hv]); [left|].
  assert (Path.join folder m = folder ++ [name]) as Hjoin.
  { rewrite join_plain, Hsegs; [done..|]. rewrite Hsegs. by apply Forall_singleton. }
  cbn [FsTools.delete_loop]. unfold FsTools.delete_entry, NodeFs.lstat.
  rewrite Hjoin, Hv.
  assert (∀ m', m' ∈ files → ¬ folder ++ [name] `prefix_of` folder ++ Path.segs m')
    as Hother.
  { intros m' Hm' Hpre. destruct (Hall m') as (n' & Hs' & _); [by right|].
    rewrite Hs' in Hpre. apply prefix_snoc_eq in Hpre as ->.
    apply Hm. rewrite Hsegs, <- Hs'. by apply list_elem_of_fmap_2. }
  set (fs1 := match v with
              | Dir => NodeFs.rm_rf fs (folder ++ [name])
              | File _ => delete (folder ++ [name]) fs
              end).
  assert (∀ p, ¬ folder ++ [name] `prefix_of` p → fs1 !! p = fs !! p) as Hkeep.
  { intros p Hp. subst fs1. destruct v.
    - by apply rm_rf_lookup_other.
    - apply lookup_delete_ne. by intros <-. }
  assert (fs1 !! (folder ++ [name]) = None) as Hgone.
  { subst fs1. destruct v.
    - apply map_lookup_filter_None. right. intros ? _ Hn. by apply Hn.
    - apply lookup_delete_eq. }
  assert ((if NodeFs.isDirectory v then Some (NodeFs.rm_rf fs (folder ++ [name]))
           else NodeFs.unlink fs (folder ++ [name])) = Some fs1) as ->.
  { subst fs1. destruct v as [|c]; [done|]. cbn. unfold NodeFs.unlink. by rewrite Hv. }
  destruct (IH fs1 Hnd) as [IH1 IH2].
  { intros m' Hm'. destruct (Hall m') as (n' & Hs' & Hp' & Hk'); [by right|].
    exists n'. split_and!; [done..|]. rewrite Hkeep; [done|].
    rewrite <- Hs'. by apply Hother. }
  pose proof (delete_loop_subseteq files fs1 folder) as Hsub.
  split.
  - intros m' [->|Hm']%elem_of_cons; [|by apply IH1].
    rewrite Hsegs. by eapply lookup_weaken_None.
  - intros m' rest [->|Hm']%elem_of_cons Hdir.
    + rewrite Hsegs. eapply lookup_weaken_None; [|done].
      rewrite Hsegs, Hv in Hdir. injection Hdir as ->. subst fs1.
      apply map_lookup_filter_None. right. intros ? _ Hn. apply Hn.
      exists rest. by rewrite <- app_assoc.
    + apply IH2; [done|]. rewrite Hkeep; [done|]. by apply Hother.
Qed.


Lemma child_plain fs folder name :
  well_formed fs → is_Some (fs !! (folder ++ [name])) → plain name.
Proof.
  intros Hwf Hk. apply Hwf in Hk. apply Forall_app in Hk as [_ Hk].
  by apply (Forall_singleton plain name) in Hk.
Qed.

(** The entries [removeFolderContents] deletes when it is given no
    pattern: the names the folder lists. *)
Lemma listed_files fs folder names m :
  well_formed fs →
  Forall plain folder →
  NodeFs.readdir fs folder = Some names →
  m ∈ fold_left FsTools.set_add (Path.of_string <$> names) [] ↔
  ∃ name, m = {| Path.absolute := false; Path.segs := [name] |} ∧ plain name ∧
          is_Some (fs !! (folder ++ [name])).
Proof.
  intros Hwf Hf Hr. rewrite fold_set_add_elem, list_elem_of_fmap. split.
  - intros [H|(name & -> & Hn)]; [by apply elem_of_nil in H|].
    apply (readdir_elem _ _ _ _ Hr) in Hn. exists name.
    assert (plain name) as Hp by by eapply child_plain.
    split; [by apply of_string_plain|by split].
  - intros (name & -> & Hp & Hk). right. exists name.
    split; [by rewrite of_string_plain|]. by apply (readdir_elem _ _ _ _ Hr).
Qed.

Lemma relative_segs_NoDup (files : list Path.path) :
  NoDup files →
  (∀ m, m ∈ files → Path.absolute m = false) →
  NoDup (Path.segs <$> files).
Proof.
  intros Hnd Hrel. apply NoDup_fmap_2_strong; [|done].
  intros [a1 s1] [a2 s2] H1 H2. cbn. intros ->.
  apply Hrel in H1, H2. cbn in H1, H2. by subst.
Qed.

(** The matches of the patterns of [resetWorkspace]. *)
Lemma reset_files fs folder m :
  Forall plain folder →
  m ∈ FsTools.glob_all fs folder reset_patterns ↔
  ∃ name, m = {| Path.absolute := false; Path.segs := [name] |} ∧
          reset_match name = true ∧ is_Some (fs !! (folder ++ [name])).
Proof.
  intros Hf. rewrite glob_all_elem_iff.
  assert (∀ pattern, pattern ∈ reset_patterns →
            Path.of_string pattern
            = {| Path.absolute := false; Path.segs := [pattern] |}) as Hpat.
  { intros pattern Hp. unfold reset_patterns in Hp.
    repeat (apply elem_of_cons in Hp as [->|Hp]); [done..|].
    by apply elem_of_nil in Hp. }
  split.
  - intros (pattern & Hp & _ & Hm).
    destruct (sync_elem _ _ _ _ Hf Hm) as (k & Hk & _ & Hrel).
    rewrite (Hpat _ Hp) in Hrel. destruct Hrel as (Hm' & -> & Hs); [done|].
    cbn in Hs. destruct (Path.segs m) as [|name [|? ?]] eqn:Hsegs;
      [done| |by rewrite andb_false_r in Hs].
    rewrite andb_true_r in Hs. exists name. split_and!; [done| |done].
    unfold reset_match. apply existsb_exists. exists pattern. split; [|done].
    by apply list_elem_of_In.
  - intros (name & -> & Hmatch & Hk). unfold reset_match in Hmatch.
    apply existsb_exists in Hmatch as (pattern & Hp & Hs).
    apply list_elem_of_In in Hp. exists pattern. split_and!; [done| |].
    { intros ->. unfold reset_patterns in Hp.
      repeat (apply elem_of_cons in Hp as [?|Hp]); [done..|].
      by apply elem_of_nil in Hp. }
    apply sync_relative_intro; [done|by rewrite (Hpat _ Hp)|done|].
    rewrite (Hpat _ Hp). cbn. by rewrite Hs.
Qed.


Lemma emptying_confined fs folder (patterns : FsTools.js_patterns) p :
  FsTools.has_patterns patterns = false →
  Forall plain folder →
  well_formed fs →
  ¬ folder `prefix_of` p →
  FsTools.removeFolderContents fs folder patterns !! p = fs !! p.
Proof.
  intros Hpat Hf Hwf Hp. unfold FsTools.removeFolderContents.
  rewrite (normalize_plain _ _ Hf), Hpat.
  destruct (NodeFs.readdir fs folder) as [names|] eqn:Hr; [|done].
  apply delete_loop_lookup_other. intros m Hm Hpre. apply Hp.
  apply (listed_files _ _ _ _ Hwf Hf Hr) in Hm as (name & -> & Hn & _).
  rewrite join_plain in Hpre; [|done|by apply Forall_singleton].
  etrans; [|exact Hpre]. by apply prefix_app_r.
Qed.

Lemma reset_confined fs folder p :
  Forall plain folder →
  well_formed fs →
  ¬ folder `prefix_of` p →
  Operation.resetWorkspace fs folder !! p = fs !! p.
Proof.
  intros Hf Hwf Hp. unfold Operation.resetWorkspace, FsTools.removeFolderContents.
  destruct (NodeFs.readdir fs _); [|done].
  cbn [FsTools.has_patterns length]. rewrite bool_decide_eq_true_2 by lia.
  apply delete_loop_lookup_other. intros m Hm Hpre. apply Hp.
  apply (reset_files _ _ _ Hf) in Hm as (name & -> & _ & Hk).
  rewrite join_plain in Hpre; [|done|].
  - etrans; [|exact Hpre]. by apply prefix_app_r.
  - apply Forall_singleton. by eapply child_plain.
Qed.

Lemma lockFilePath_plain folder :
  Forall plain folder →
  Session.lockFilePath folder = folder ++ [Session.LOCK_FILE_NAME].
Proof.
  intros Hf. unfold Session.lockFilePath.
  rewrite of_string_plain by by_computation.
  rewrite join_plain; [done..|]. apply Forall_singleton. by_computation.
Qed.

Lemma reset_effect fs folder :
  Forall plain folder →
  well_formed fs →
  let fs' := Operation.resetWorkspace fs folder in
  (NodeFs.is_dir fs folder = true →
   ∀ name, reset_match name = true →
     fs' !! (folder ++ [name]) = None ∧
     (fs !! (folder ++ [name]) = Some Dir →
      ∀ rest, fs' !! (folder ++ name :: rest) = None)) ∧
  (∀ name rest, reset_match name = false →
                fs' !! (folder ++ name :: rest) = fs !! (folder ++ name :: rest)) ∧
  fs' !! Session.lockFilePath folder = fs !! Session.lockFilePath folder ∧
  fs' !! folder = fs !! folder.
Proof.
  intros Hf Hwf fs'.
  assert (∀ name rest, reset_match name = false →
            fs' !! (folder ++ name :: rest) = fs !! (folder ++ name :: rest)) as Hkeep.
  { intros name rest Hno. subst fs'.
    unfold Operation.resetWorkspace, FsTools.removeFolderContents.
    destruct (NodeFs.readdir _ _); [|done]. cbn [FsTools.has_patterns length].
    rewrite bool_decide_eq_true_2 by lia.
    apply delete_loop_lookup_other. intros m Hm Hpre.
    apply (reset_files _ _ _ Hf) in Hm as (n & -> & Hyes & Hk).
    rewrite join_plain in Hpre; [| done |].
    - cbn in Hpre. apply prefix_snoc_eq in Hpre as ->. congruence.
    - cbn. apply Forall_singleton. by eapply child_plain. }
  split_and!; [|done| |].
  - intros Hdir name Hyes. subst fs'.
    unfold Operation.resetWorkspace, FsTools.removeFolderContents.
    rewrite (normalize_plain _ _ Hf).
    destruct (NodeFs.readdir fs folder) as [names|] eqn:Hr;
      [|unfold NodeFs.readdir in Hr; by rewrite Hdir in Hr].
    cbn [FsTools.has_patterns length]. rewrite bool_decide_eq_true_2 by lia.
    pose proof (reset_files fs folder) as Hfiles.
    destruct (delete_loop_children (FsTools.glob_all fs folder reset_patterns)
                fs folder Hf) as [H1 H2].
    { apply relative_segs_NoDup; [by apply glob_fold_NoDup, NoDup_nil|].
      intros m Hm. by apply Hfiles in Hm as (? & -> & _). }
    { intros m Hm. apply Hfiles in Hm as (n & -> & ? & ?); [|done]. exists n.
      split; [done|]. split; [by eapply child_plain|done]. }
    split.
    + destruct (fs !! (folder ++ [name])) as [v|] eqn:Hv.
      * apply (H1 {| Path.absolute := false; Path.segs := [name] |}).
        apply Hfiles; [done|]. exists name. split; [done|]. split; [done|by eexists].
      * eapply lookup_weaken_None; [exact Hv|]. apply delete_loop_subseteq.
    + intros Hv rest.
      apply (H2 {| Path.absolute := false; Path.segs := [name] |} rest); [|done].
      apply Hfiles; [done|]. exists name. split; [done|]. split; [done|by eexists].
  - rewrite (lockFilePath_plain _ Hf). by apply Hkeep.
  - subst fs'. unfold Operation.resetWorkspace, FsTools.removeFolderContents.
    destruct (NodeFs.readdir _ _); [|done]. cbn [FsTools.has_patterns length].
    rewrite bool_decide_eq_true_2 by lia.
    apply delete_loop_lookup_other. intros m Hm Hpre.
    apply (reset_files _ _ _ Hf) in Hm as (n & -> & Hyes & Hk).
    rewrite join_plain in Hpre; [| done |].
    + by apply prefix_snoc_not in Hpre.
    + cbn. apply Forall_singleton. by eapply child_plain.
Qed.


Lemma tree_check fs :
  map_Forall (λ k _, NodeFs.is_dir fs (NodeFs.parent k) = true) fs → tree fs.
Proof. intros H k [v Hv]. by apply (H k v). Qed.

(** X3 — [removeFolderContents] only removes: whatever the folder and
    the patterns are, every entry that is left is an entry that was
    there, with what it held; and when the folder cannot be listed
    nothing is removed at all. *)
Theorem removeFolderContents_only_removes fs folder (patterns : FsTools.js_patterns) :
  FsTools.removeFolderContents fs folder patterns ⊆ fs ∧
  (NodeFs.readdir fs (Path.normalize_segs false folder) = None →
   FsTools.removeFolderContents fs folder patterns = fs).
Proof.
  split; [apply removeFolderContents_subseteq|].
  intros Hr. unfold FsTools.removeFolderContents. by rewrite Hr.
Qed.

(** X4 — Without patterns ([null], an empty array, a function that
    declares no parameter) [removeFolderContents] empties a folder and
    keeps the folder: afterwards nothing lies
    directly in it, nothing is left of the folders that were in it, and
    the folder itself is as before. *)
Theorem removeFolderContents_empties fs folder patterns :
  FsTools.has_patterns patterns = false →
  Forall plain folder →
  well_formed fs →
  NodeFs.is_dir fs folder = true →
  let fs' := FsTools.removeFolderContents fs folder patterns in
  (∀ name, fs' !! (folder ++ [name]) = None) ∧
  (∀ name rest, fs !! (folder ++ [name]) = Some Dir →
                fs' !! (folder ++ name :: rest) = None) ∧
  fs' !! folder = fs !! folder ∧
  (∀ p, ¬ folder `prefix_of` p → fs' !! p = fs !! p).
Proof.
  intros Hpat Hf Hwf Hdir fs'.
  cut ((∀ name, fs' !! (folder ++ [name]) = None) ∧
       (∀ name rest, fs !! (folder ++ [name]) = Some Dir →
                     fs' !! (folder ++ name :: rest) = None) ∧
       fs' !! folder = fs !! folder).
  { intros (H1 & H2 & H3). split_and!; [done..|].
    intros p Hp. by apply emptying_confined. }
  subst fs'. unfold FsTools.removeFolderContents.
  rewrite (normalize_plain _ _ Hf), Hpat.
  destruct (NodeFs.readdir fs folder) as [names|] eqn:Hr;
    [|unfold NodeFs.readdir in Hr; by rewrite Hdir in Hr].
  set (files := fold_left FsTools.set_add (Path.of_string <$> names) []).
  pose proof (listed_files fs folder names) as Hfiles.
  destruct (delete_loop_children files fs folder Hf) as [H1 H2].
  { apply relative_segs_NoDup; [by apply fold_set_add_NoDup, NoDup_nil|].
    intros m Hm. by apply Hfiles in Hm as (? & -> & _). }
  { intros m Hm. apply Hfiles in Hm as (name & -> & ? & ?); [|done..]. by exists name. }
  split_and!.
  - intros name. destruct (fs !! (folder ++ [name])) as [v|] eqn:Hv.
    + apply (H1 {| Path.absolute := false; Path.segs := [name] |}).
      apply Hfiles; [done..|]. exists name.
      split; [done|]. split; [|by eexists]. eapply child_plain; [done|by eexists].
    + eapply lookup_weaken_None; [exact Hv|]. apply delete_loop_subseteq.
  - intros name rest Hv.
    apply (H2 {| Path.absolute := false; Path.segs := [name] |} rest); [|done].
    apply Hfiles; [done..|]. exists name.
    split; [done|]. split; [|by eexists]. eapply child_plain; [done|by eexists].
  - apply delete_loop_lookup_other. intros m Hm Hpre.
    apply Hfiles in Hm as (name & -> & Hn & _); [|done..].
    rewrite join_plain in Hpre; [|done|by apply Forall_singleton].
    by apply prefix_snoc_not in Hpre.
Qed.


Lemma removeFolderContents_empties_witness :
  let fs := Sample.workspace [Sample.article "k1" "KB0010001" "1.0"]
              ["KB0010001"; "KB0010002"] in
  let fs' := FsTools.removeFolderContents fs (Sample.folder ++ ["PDFs"])
               FsTools.PatNull in
  fs' !! (Sample.folder ++ ["PDFs"; "KB0010002.pdf"]) = None ∧
  fs' !! (Sample.folder ++ ["PDFs"]) = Some Dir.
Proof.
  intros fs fs'.
  destruct (removeFolderContents_empties fs (Sample.folder ++ ["PDFs"]) FsTools.PatNull)
    as (H1 & _ & H2 & _);
    [done|by_computation|apply well_formed_check; by_computation|by vm_compute|].
  split; [apply (H1 "KB0010002.pdf")|].
  etrans; [exact H2|by vm_compute].
Defined.

(** X5 — [resetWorkspace] clears what a run leaves and keeps the session
    file: in an existing folder no entry named [PDFs], [*.json*], [*.pdf]
    or [*.zip] is left, nor anything of such a folder; every other entry
    of the folder, with all that lies below it, is as before, the lock
    file among them; so are the folder itself and all that lies outside
    of it. *)
Theorem resetWorkspace_effect fs folder :
  Forall plain folder →
  well_formed fs →
  let fs' := Operation.resetWorkspace fs folder in
  (NodeFs.is_dir fs folder = true →
   ∀ name, reset_match name = true →
     fs' !! (folder ++ [name]) = None ∧
     (fs !! (folder ++ [name]) = Some Dir →
      ∀ rest, fs' !! (folder ++ name :: rest) = None)) ∧
  (∀ name rest, reset_match name = false →
                fs' !! (folder ++ name :: rest) = fs !! (folder ++ name :: rest)) ∧
  fs' !! Session.lockFilePath folder = fs !! Session.lockFilePath folder ∧
  fs' !! folder = fs !! folder ∧
  (∀ p, ¬ folder `prefix_of` p → fs' !! p = fs !! p).
Proof.
  intros Hf Hwf fs'.
  destruct (reset_effect fs folder Hf Hwf) as (H1 & H2 & H3 & H4).
  split_and!; [done..|].
  intros p Hp. by apply reset_confined.
Qed.

Lemma resetWorkspace_effect_witness :
  let fs := <[Sample.folder ++ ["operation_in_progress.lock"] := File (Opaque "1b9d6bcd")]>
              (Sample.workspace [Sample.article "k1" "KB0010001" "1.0"] ["KB0010001"]) in
  let fs' := Operation.resetWorkspace fs Sample.folder in
  fs' !! (Sample.folder ++ ["file_list.json"]) = None ∧
  fs' !! (Sample.folder ++ ["PDFs"; "KB0010001.pdf"]) = None ∧
  fs' !! (Sample.folder ++ ["operation_in_progress.lock"]) = Some (File (Opaque "1b9d6bcd")).
Proof.
  intros fs fs'.
  destruct (resetWorkspace_effect fs Sample.folder)
    as (H1 & H2 & _); [by_computation|apply well_formed_check; by_computation|].
  split_and!.
  - by destruct (H1 ltac:(by vm_compute) "file_list.json" ltac:(by vm_compute)).
  - destruct (H1 ltac:(by vm_compute) "PDFs" ltac:(by vm_compute)) as [_ H].
    apply (H ltac:(by vm_compute) ["KB0010001.pdf"]).
  - etrans; [apply (H2 "operation_in_progress.lock" []); by vm_compute|by vm_compute].
Defined.

(** X6 — [resetWorkspace] is idempotent: a second reset of the same
    folder changes nothing. *)
Theorem resetWorkspace_idempotent fs folder :
  Forall plain folder →
  well_formed fs →
  Operation.resetWorkspace (Operation.resetWorkspace fs folder) folder
  = Operation.resetWorkspace fs folder.
Proof.
  intros Hf Hwf.
  destruct (reset_effect fs folder Hf Hwf) as (Hgone & _ & _ & Hsame).
  set (fs1 := Operation.resetWorkspace fs folder) in *.
  destruct (NodeFs.is_dir fs folder) eqn:Hdir; last first.
  { assert (Operation.resetWorkspace fs folder = fs) as Hid.
    { unfold Operation.resetWorkspace, FsTools.removeFolderContents, NodeFs.readdir.
      by rewrite (normalize_plain _ _ Hf), Hdir. }
    subst fs1. by rewrite !Hid. }
  unfold Operation.resetWorkspace, FsTools.removeFolderContents.
  destruct (NodeFs.readdir fs1 _); [|done].
  cbn [FsTools.has_patterns length]. rewrite bool_decide_eq_true_2 by lia.
  destruct (FsTools.glob_all fs1 folder ["PDFs"; "*.json*"; "*.pdf"; "*.zip"])
    as [|m files] eqn:Hfiles; [done|].
  exfalso.
  assert (m ∈ FsTools.glob_all fs1 folder reset_patterns) as Hm
    by (unfold reset_patterns; rewrite Hfiles; left).
  apply (reset_files _ _ _ Hf) in Hm as (name & _ & Hmatch & [v Hv]).
  destruct (Hgone eq_refl name Hmatch) as [Hnone _]. congruence.
Qed.

Lemma resetWorkspace_idempotent_witness :
  let fs := Sample.workspace [Sample.article "k1" "KB0010001" "1.0"] ["KB0010001"] in
  Operation.resetWorkspace (Operation.resetWorkspace fs Sample.folder) Sample.folder
  = Operation.resetWorkspace fs Sample.folder.
Proof.
  intros fs. apply (resetWorkspace_idempotent fs Sample.folder).
  - by_computation.
  - apply well_formed_check. by_computation.
Defined.

End Clearing.

(** ** The change detection *)

Section DiffAlgebra.

Lemma filter_none {A} (P : A → Prop) `{!∀ x, Decision (P x)} (l : list A) :
  (∀ x, x ∈ l → ¬ P x) → filter P l = [].
Proof.
  induction l as [|x l IH]; intros Hno; [done|].
  rewrite filter_cons_False by (apply Hno; left).
  apply IH. intros y Hy. apply Hno. by right.
Qed.

Lemma is_updated_records (O : list Article) a :
  Spec.is_updated O a ↔ ∃ o, o ∈ O ∧ sys_id o = sys_id a ∧ Spec.label o ≠ Spec.label a.
Proof. unfold Spec.is_updated. rewrite Exists_exists. naive_solver. Qed.

Lemma detect_same (l : list Article) :
  SnTools.detect_changes l l = {| added := []; updated := []; removed := [] |}.
Proof.
  rewrite detect_changes_records. unfold Spec.diff, Spec.added_articles,
    Spec.updated_articles, Spec.removed_articles.
  rewrite !filter_none; [done|..].
  - intros a Ha Hr. apply Hr. by apply list_elem_of_fmap_2.
  - intros a Ha (o & Ho & Hid & Hl)%is_updated_records.
    apply Hl. by rewrite (records_same_id l o a).
  - intros a Ha Hr. apply Hr. by apply list_elem_of_fmap_2.
Qed.

(** X7 — A list compared with itself has no changes: whatever the list
    is, also with repeated identities, the three buckets are empty. *)
Theorem detect_changes_same (l : list Article) :
  SnTools.detect_changes l l = {| added := []; updated := []; removed := [] |}.
Proof. apply detect_same. Qed.

(** X8 — Swapping the two lists swaps the roles: what one direction
    reports as added the other reports as removed, number by number and
    in the same order, and both directions report the same number of
    updates. *)
Theorem detect_changes_swap (currList olderList : list Article) :
  let forth := SnTools.detect_changes currList olderList in
  let back := SnTools.detect_changes olderList currList in
  added forth = removed back ∧
  removed forth = added back ∧
  length (updated forth) = length (updated back).
Proof.
  intros forth back. subst forth back. rewrite !detect_changes_records.
  split; [done|]. split; [done|].
  cbn. rewrite !length_fmap.
  set (N := map_records currList). set (O := map_records olderList).
  rewrite <- (length_fmap sys_id (Spec.updated_articles O N)).
  rewrite <- (length_fmap sys_id (Spec.updated_articles N O)).
  apply Permutation_length.
  assert (∀ X Y : list Article, NoDup (Spec.ids X) →
            NoDup (sys_id <$> Spec.updated_articles Y X)) as Hnd.
  { intros X Y HX. unfold Spec.updated_articles.
    eapply sublist_NoDup; [exact HX|]. apply fmap_sublist, sublist_filter. }
  assert (∀ X Y : list Article, ∀ k,
            k ∈ sys_id <$> Spec.updated_articles Y X →
            k ∈ sys_id <$> Spec.updated_articles X Y) as Hsub.
  { intros X Y k (a & -> & Ha)%list_elem_of_fmap.
    apply list_elem_of_filter in Ha as [(o & Ho & Hid & Hl)%is_updated_records Ha].
    apply list_elem_of_fmap. exists o. split; [done|].
    apply list_elem_of_filter. split; [|done].
    apply is_updated_records. by exists a. }
  apply NoDup_Permutation; [apply Hnd, map_records_NoDup..|].
  intros k. split; apply Hsub.
Qed.


(** X9 — [getKBChanges] returns a report only together with its file:
    when it returns [null] the file system is as it was; when it returns
    a report, both lists were readable, the report is the change
    detection on them with the time stamp of the call, and the only
    change is that the target file holds this report. *)
Theorem getKBChanges_outcome (env : Env) (fs : FS)
    (currListFile olderListFile targetChangesFile : list string) :
  let run := SnTools.getKBChanges env fs currListFile olderListFile
               targetChangesFile in
  match run.2 with
  | None => run.1 = fs
  | Some report =>
      run.1 = <[targetChangesFile := File (JsonChanges report)]> fs ∧
      ∃ currList olderList,
        SnTools.read_articles fs currListFile = Some currList ∧
        SnTools.read_articles fs olderListFile = Some olderList ∧
        report = {| last_updated_on := now env;
                    changes := SnTools.detect_changes currList olderList |}
  end.
Proof.
  cbv zeta. unfold SnTools.getKBChanges.
  destruct (SnTools.read_articles fs currListFile) as [currList|]; [|done].
  destruct (SnTools.read_articles fs olderListFile) as [olderList|]; [|done].
  destruct (NodeFs.writeFile _ _ _) as [fs'|] eqn:E; [|done].
  apply writeFile_Some in E as ->. cbn [fst snd]. split; [done|].
  by exists currList, olderList.
Qed.

End DiffAlgebra.

(** ** The download loop *)

Section Downloads.
Implicit Types (fs : FS) (env : Env) (targetDir : list string).

Lemma append_inj_r (a b s : string) : a +:+ s = b +:+ s → a = b.
Proof.
  revert b. induction a as [|c a IH]; intros [|d b] H.
  - done.
  - apply (f_equal String.length) in H. rewrite !string_length_append in H.
    cbn in H. lia.
  - apply (f_equal String.length) in H. rewrite !string_length_append in H.
    cbn in H. lia.
  - rewrite !append_cons in H. injection H as -> H. f_equal. by apply IH.
Qed.

Lemma pdfPath_in targetDir n :
  Forall plain targetDir → no_slash n = true →
  SnTools.pdfPath targetDir n = targetDir ++ [n +:+ ".pdf"].
Proof.
  intros Hf Hn. unfold SnTools.pdfPath.
  rewrite of_string_plain by by apply pdf_name_plain.
  unfold Path.join. cbn. apply normalize_plain, Forall_app. split; [done|].
  apply Forall_singleton. by apply pdf_name_plain.
Qed.

Lemma pdfPath_inj targetDir n n' :
  Forall plain targetDir → no_slash n = true → no_slash n' = true →
  SnTools.pdfPath targetDir n = SnTools.pdfPath targetDir n' → n = n'.
Proof.
  intros Hf Hn Hn'. rewrite !pdfPath_in by done.
  intros H%app_inv_head. injection H as H. by apply append_inj_r in H.
Qed.

Lemma download_loop_outcome env targetDir (numbers : list string) fs (failed : list string) :
  Forall plain targetDir →
  NodeFs.is_dir fs targetDir = true →
  Forall (λ n, no_slash n = true) numbers →
  (∀ n, n ∈ numbers → fs !! SnTools.pdfPath targetDir n ≠ Some Dir) →
  ∃ fs',
    fold_left (SnTools.download_one env targetDir) numbers (fs, failed)
    = (fs', failed ++ filter (λ n, render_ok env n = false) numbers) ∧
    (∀ n, n ∈ numbers → render_ok env n = true →
          fs' !! SnTools.pdfPath targetDir n = Some (File (Pdf n))) ∧
    (∀ p, (∀ n, n ∈ numbers → render_ok env n = true →
                p ≠ SnTools.pdfPath targetDir n) →
          fs' !! p = fs !! p).
Proof.
  intros Hf Hdir. induction numbers as [|x l IH] using rev_ind; intros Hns Hfree.
  { exists fs. cbn. rewrite app_nil_r. split; [done|]. split; [|done].
    intros n Hn. by apply elem_of_nil in Hn. }
  apply Forall_app in Hns as [Hl Hx]. rewrite Forall_singleton in Hx.
  destruct IH as (fs1 & Hrun & Hgot & Hkeep); [done| |].
  { intros n Hn. apply Hfree, elem_of_app. by left. }
  rewrite fold_left_app, Hrun. cbn [fold_left]. unfold SnTools.download_one. cbn [fst snd].
  rewrite filter_app, app_assoc.
  destruct (render_ok env x) eqn:Hrx.
  - assert (NodeFs.writeFile fs1 (SnTools.pdfPath targetDir x) (Pdf x)
            = Some (<[SnTools.pdfPath targetDir x := File (Pdf x)]> fs1)) as ->.
    { unfold NodeFs.writeFile.
      assert (fs1 !! SnTools.pdfPath targetDir x ≠ Some Dir) as Hnd.
      { destruct (decide (x ∈ l)) as [Hin|Hno].
        - by rewrite Hgot.
        - rewrite Hkeep.
          + apply Hfree, elem_of_app. right. by left.
          + intros n Hn Hr Heq. apply Hno.
            apply pdfPath_inj in Heq as ->; [done..|].
            by eapply Forall_forall in Hl. }
      assert (NodeFs.is_dir fs1 (NodeFs.parent (SnTools.pdfPath targetDir x)) = true) as ->.
      { rewrite (pdfPath_in _ _ Hf Hx). unfold NodeFs.parent. rewrite removelast_last.
        unfold NodeFs.is_dir in *. apply bool_decide_eq_true in Hdir.
        apply bool_decide_eq_true. destruct Hdir as [->|Hdir]; [by left|right].
        rewrite Hkeep; [done|]. intros n Hn _. rewrite pdfPath_in; [|done|].
        - intros Heq. apply (f_equal length) in Heq. rewrite length_app in Heq.
          cbn in Heq. lia.
        - by eapply Forall_forall in Hl. }
      by destruct (fs1 !! SnTools.pdfPath targetDir x) as [[|?]|]. }
    eexists. split.
    { rewrite filter_cons_False by by rewrite Hrx. by rewrite filter_nil, app_nil_r. }
    split.
    + intros n [Hn| ->%list_elem_of_singleton]%elem_of_app Hr.
      * destruct (decide (SnTools.pdfPath targetDir n = SnTools.pdfPath targetDir x))
          as [Heq|Hne].
        -- apply pdfPath_inj in Heq as ->; [|done| |done].
           ++ by rewrite lookup_insert_eq.
           ++ by eapply Forall_forall in Hl.
        -- rewrite lookup_insert_ne by done. by apply Hgot.
      * by rewrite lookup_insert_eq.
    + intros p Hp. rewrite lookup_insert_ne.
      * apply Hkeep. intros n Hn Hr. apply Hp; [|done]. apply elem_of_app. by left.
      * intros Heq. eapply Hp; [| |by symmetry]; [|done]. apply elem_of_app. right. by left.
  - exists fs1. split.
    { rewrite filter_cons_True by done. by rewrite filter_nil. }
    split.
    + intros n [Hn| ->%list_elem_of_singleton]%elem_of_app Hr; [by apply Hgot|congruence].
    + intros p Hp. apply Hkeep. intros n Hn Hr. apply Hp; [|done].
      apply elem_of_app. by left.
Qed.

Lemma fetch_outcome env fs targetDir (numbers : list string) :
  browser_ok env = true →
  Forall plain targetDir →
  NodeFs.is_dir fs targetDir = true →
  Forall (λ n, no_slash n = true) numbers →
  (∀ n, n ∈ numbers → fs !! SnTools.pdfPath targetDir n ≠ Some Dir) →
  ∃ fs',
    SnTools.fetchArticles env fs numbers targetDir false
    = Some (fs', filter (λ n, render_ok env n = false) numbers) ∧
    (∀ n, n ∈ numbers → render_ok env n = true →
          fs' !! SnTools.pdfPath targetDir n = Some (File (Pdf n))) ∧
    (∀ p, (∀ n, n ∈ numbers → render_ok env n = true →
                p ≠ SnTools.pdfPath targetDir n) →
          fs' !! p = fs !! p).
Proof.
  intros Hb Hf Hdir Hns Hfree. unfold SnTools.fetchArticles. rewrite Hb.
  destruct (download_loop_outcome env targetDir numbers fs [] Hf Hdir Hns Hfree)
    as (fs' & Hrun & H1 & H2).
  exists fs'. by rewrite Hrun.
Qed.


(** X10 — A failed download is isolated: with a working browser, an
    existing target folder and article numbers that are plain names,
    [fetchArticles] goes through the whole list; it reports exactly the
    numbers whose page did not print, in list order; every other number
    of the list has its file afterwards; and no other path is touched. *)
Theorem fetchArticles_isolates_failures env fs targetDir (numbers : list string) :
  browser_ok env = true →
  Forall plain targetDir →
  NodeFs.is_dir fs targetDir = true →
  Forall (λ n, no_slash n = true) numbers →
  (∀ n, n ∈ numbers → fs !! SnTools.pdfPath targetDir n ≠ Some Dir) →
  ∃ fs',
    SnTools.fetchArticles env fs numbers targetDir false
    = Some (fs', filter (λ n, render_ok env n = false) numbers) ∧
    (∀ n, n ∈ numbers → render_ok env n = true →
          fs' !! SnTools.pdfPath targetDir n = Some (File (Pdf n))) ∧
    (∀ p, (∀ n, n ∈ numbers → render_ok env n = true →
                p ≠ SnTools.pdfPath targetDir n) →
          fs' !! p = fs !! p).
Proof. apply fetch_outcome. Qed.

Lemma fetchArticles_isolates_failures_witness :
  let env := {| remote := None; browser_ok := true;
                render_ok := λ n, bool_decide (n ≠ "KB0010002");
                now := "2024-07-10T02:00:00.000Z"; monitor_arity := 1 |} in
  let numbers := ["KB0010001"; "KB0010002"; "KB0010003"] in
  snd <$> SnTools.fetchArticles env Sample.empty_workspace numbers
            (Sample.folder ++ ["PDFs"]) false
  = Some ["KB0010002"].
Proof.
  intros env numbers.
  destruct (fetchArticles_isolates_failures env Sample.empty_workspace
              (Sample.folder ++ ["PDFs"]) numbers) as (fs' & -> & _).
  - done.
  - by_computation.
  - by vm_compute.
  - by_computation.
  - assert (Forall (λ n, Sample.empty_workspace
                           !! SnTools.pdfPath (Sample.folder ++ ["PDFs"]) n
                         ≠ Some Dir) numbers) as HF by by_computation.
    intros n Hn. rewrite Forall_forall in HF. by apply HF.
  - by vm_compute.
Defined.

End Downloads.

(** ** Listing with changes *)

Section ListingChanges.
Implicit Types (fs : FS) (env : Env) (folder : list string).

Lemma lockFilePath_eq folder :
  Session.lockFilePath folder
  = Path.normalize_segs false folder ++ [Session.LOCK_FILE_NAME].
Proof. unfold Session.lockFilePath. by apply normalize_segs_snoc. Qed.

(** X11 — [doListingWithChanges] touches its three files and nothing
    else: whatever the catalog answers, a path that is neither the list
    file, nor the rotated list file, nor below one of them, nor the
    changes file holds afterwards what it held before. *)
Theorem doListingWithChanges_frame env fs folder (listFileName changesFileName : string)
    (p : list string) :
  let listFilePath :=
    Path.resolve folder (Path.of_string (listFileName +:+ ".json")) in
  let changesFilePath :=
    Path.resolve folder (Path.of_string (changesFileName +:+ ".json")) in
  ¬ listFilePath `prefix_of` p →
  ¬ Path.append_to_last listFilePath ".old" `prefix_of` p →
  p ≠ changesFilePath →
  (Operation.doListingWithChanges env fs folder listFileName changesFileName).1 !! p
  = fs !! p.
Proof.
  intros L C HL HO HC. unfold Operation.doListingWithChanges. fold L. fold C.
  destruct (negb _); [done|].
  destruct (NodeFs.renameSync _ _ _) as [fs1|] eqn:Hren; [|done].
  destruct (SnTools.getArticlesList env fs1 L) as [fs2 o] eqn:Hlist.
  rewrite getKBChanges_lookup_other by done.
  change fs2 with (fs2, o).1. rewrite <- Hlist.
  rewrite getArticlesList_lookup_other by (intros ->; by apply HL).
  by eapply renameSync_lookup_other.
Qed.

Lemma doListingWithChanges_frame_witness :
  let S_old := [Sample.article "k1" "KB0010001" "1.0"] in
  let S_new := [Sample.article "k1" "KB0010001" "2.0"] in
  let fs := <[Sample.folder ++ ["operation_in_progress.lock"] := File (Opaque "1b9d6bcd")]>
              (Sample.workspace S_old ["KB0010001"]) in
  let fs' := (Operation.doListingWithChanges (Sample.online S_new) fs Sample.folder
                "file_list" "file_changes").1 in
  fs' !! (Sample.folder ++ ["operation_in_progress.lock"])
  = Some (File (Opaque "1b9d6bcd")) ∧
  fs' !! (Sample.folder ++ ["PDFs"; "KB0010001.pdf"]) = Some (File (Pdf "KB0010001")).
Proof.
  intros S_old S_new fs fs'. split.
  - etrans; [apply (doListingWithChanges_frame (Sample.online S_new) fs Sample.folder
                      "file_list" "file_changes"); by_computation|].
    by vm_compute.
  - etrans; [apply (doListingWithChanges_frame (Sample.online S_new) fs Sample.folder
                      "file_list" "file_changes"); by_computation|].
    by vm_compute.
Defined.

Lemma parent_snoc (F : list string) (x : string) : NodeFs.parent (F ++ [x]) = F.
Proof. apply removelast_last. Qed.

Lemma is_dir_other fs fs' F :
  NodeFs.is_dir fs F = true → (F ≠ [] → fs' !! F = fs !! F) →
  NodeFs.is_dir fs' F = true.
Proof.
  unfold NodeFs.is_dir. intros H Heq. apply bool_decide_eq_true in H.
  apply bool_decide_eq_true. destruct (decide (F = [])) as [->|Hne]; [by left|].
  destruct H as [?|H]; [done|]. right. by rewrite Heq.
Qed.

Lemma snoc_ne (F : list string) (x y : string) : x ≠ y → F ++ [x] ≠ F ++ [y].
Proof. intros Hne H. apply app_inv_head in H. congruence. Qed.

Lemma snoc_ne_self (F : list string) (x : string) : F ++ [x] ≠ F.
Proof.
  intros H. apply (f_equal length) in H. rewrite length_app in H. cbn in H. lia.
Qed.

Lemma self_ne_snoc (F : list string) (x : string) : F ≠ F ++ [x].
Proof. intros H. symmetry in H. by apply snoc_ne_self in H. Qed.

Lemma listing_changes_run env fs folder (S_old S_new : list Article) :
  fs !! listFile folder = Some (File (JsonArticles S_old)) →
  NodeFs.is_dir fs (Path.normalize_segs false folder) = true →
  fs !! oldListFile folder ≠ Some Dir →
  fs !! changesFile folder ≠ Some Dir →
  remote env = Some S_new →
  let r := {| last_updated_on := now env;
              changes := SnTools.detect_changes S_new S_old |} in
  Operation.doListingWithChanges env fs folder "file_list" "file_changes"
  = (<[changesFile folder := File (JsonChanges r)]>
       (<[listFile folder := File (JsonArticles (json_article <$> S_new))]>
          (<[oldListFile folder := File (JsonArticles S_old)]>
             (delete (listFile folder) fs))),
     Some r).
Proof.
  intros Hlist Hdir Hold Hch Hremote r.
  unfold Operation.doListingWithChanges.
  change (Path.resolve folder (Path.of_string ("file_list" +:+ ".json")))
    with (listFile folder).
  change (Path.resolve folder (Path.of_string ("file_changes" +:+ ".json")))
    with (changesFile folder).
  change (Path.append_to_last (listFile folder) ".old") with (oldListFile folder).
  assert (NodeFs.existsSync fs (listFile folder) = true) as ->.
  { apply existsSync_true. by eexists. }
  cbn [negb].
  set (N := Path.normalize_segs false folder) in *.
  assert (listFile folder = N ++ ["file_list.json"]) as HL by apply listFile_eq.
  assert (oldListFile folder = N ++ ["file_list.json.old"]) as HO by apply oldListFile_eq.
  assert (changesFile folder = N ++ ["file_changes.json"]) as HC by apply changesFile_eq.
  rewrite (rename_file_succeeds fs _ _ _ Hlist Hold)
    by (by rewrite HO, parent_snoc).
  set (fs1 := <[oldListFile folder := File (JsonArticles S_old)]>
                (delete (listFile folder) fs)).
  assert (∀ p, p ≠ oldListFile folder → p ≠ listFile folder → fs1 !! p = fs !! p)
    as Hfs1.
  { intros p ? ?. subst fs1. by rewrite lookup_insert_ne, lookup_delete_ne. }
  assert (NodeFs.is_dir fs1 N = true) as Hdir1.
  { apply (is_dir_other fs); [done|]. intros _. apply Hfs1.
    - rewrite HO. apply self_ne_snoc.
    - rewrite HL. apply self_ne_snoc. }
  unfold SnTools.getArticlesList. rewrite Hremote.
  assert (NodeFs.writeFile fs1 (listFile folder) (JsonArticles (json_article <$> S_new))
          = Some (<[listFile folder := File (JsonArticles (json_article <$> S_new))]> fs1))
    as ->.
  { unfold NodeFs.writeFile.
    assert (fs1 !! listFile folder = None) as ->.
    { subst fs1. rewrite lookup_insert_ne, lookup_delete_eq; [done|].
      rewrite HO, HL. by apply snoc_ne. }
    by rewrite HL, parent_snoc, Hdir1. }
  set (fs2 := <[listFile folder := File (JsonArticles (json_article <$> S_new))]> fs1).
  unfold SnTools.getKBChanges, SnTools.read_articles.
  assert (fs2 !! listFile folder = Some (File (JsonArticles (json_article <$> S_new))))
    as ->.
  { subst fs2. by rewrite lookup_insert_eq. }
  assert (fs2 !! oldListFile folder = Some (File (JsonArticles S_old))) as ->.
  { subst fs2 fs1. rewrite lookup_insert_ne, lookup_insert_eq; [done|].
    rewrite HO, HL. by apply snoc_ne. }
  rewrite detect_changes_json. fold r.
  assert (NodeFs.writeFile fs2 (changesFile folder) (JsonChanges r)
          = Some (<[changesFile folder := File (JsonChanges r)]> fs2)) as ->; [|done].
  unfold NodeFs.writeFile.
  assert (fs2 !! changesFile folder = fs !! changesFile folder) as ->.
  { subst fs2. rewrite lookup_insert_ne by (rewrite HC, HL; by apply snoc_ne).
    apply Hfs1; rewrite HC, ?HO, ?HL; by apply snoc_ne. }
  assert (NodeFs.is_dir fs2 (NodeFs.parent (changesFile folder)) = true) as ->.
  { rewrite HC, parent_snoc. apply (is_dir_other fs1); [done|]. intros _.
    subst fs2. rewrite lookup_insert_ne; [done|].
    rewrite HL. apply snoc_ne_self. }
  by destruct (fs !! changesFile folder) as [[|?]|].
Qed.

(** X12 — A run of [doListingWithChanges] that goes through: when the
    list file holds a snapshot, the output folder exists, no folder sits
    at the rotated name or at the name of the changes file and the
    catalog answers, the operation returns the report of the new list
    against the old one, and afterwards the rotated file holds the old
    snapshot, the list file the new one as JSON gives it back, and the
    changes file the report; nothing else is changed. *)
Theorem doListingWithChanges_success env fs folder (S_old S_new : list Article) :
  fs !! listFile folder = Some (File (JsonArticles S_old)) →
  NodeFs.is_dir fs (Path.normalize_segs false folder) = true →
  fs !! oldListFile folder ≠ Some Dir →
  fs !! changesFile folder ≠ Some Dir →
  remote env = Some S_new →
  let r := {| last_updated_on := now env;
              changes := SnTools.detect_changes S_new S_old |} in
  Operation.doListingWithChanges env fs folder "file_list" "file_changes"
  = (<[changesFile folder := File (JsonChanges r)]>
       (<[listFile folder := File (JsonArticles (json_article <$> S_new))]>
          (<[oldListFile folder := File (JsonArticles S_old)]>
             (delete (listFile folder) fs))),
     Some r).
Proof. apply listing_changes_run. Qed.

Lemma doListingWithChanges_success_witness :
  let S_old := [Sample.article "k1" "KB0010001" "1.0";
                Sample.article "k2" "KB0010002" "1.0"] in
  let S_new := [Sample.article "k1" "KB0010001" "2.0";
                Sample.article "k3" "KB0010003" "1.0"] in
  (Operation.doListingWithChanges (Sample.online S_new) (Sample.workspace S_old [])
     Sample.folder "file_list" "file_changes").2
  = Some {| last_updated_on := "2024-07-10T02:00:00.000Z";
            changes := {| added := ["KB0010003"]; updated := ["KB0010001"];
                          removed := ["KB0010002"] |} |}.
Proof.
  intros S_old S_new.
  rewrite (doListingWithChanges_success (Sample.online S_new) (Sample.workspace S_old [])
             Sample.folder S_old S_new); by vm_compute.
Defined.

(** X13 — Running [doListingWithChanges] again while the catalog has not
    changed reports no change: after a run that went through, a second
    run returns a report with three empty buckets, and both the list
    file and the rotated file hold the catalog's snapshot. *)
Theorem doListingWithChanges_rerun env fs folder (S_old S_new : list Article) :
  fs !! listFile folder = Some (File (JsonArticles S_old)) →
  NodeFs.is_dir fs (Path.normalize_segs false folder) = true →
  fs !! oldListFile folder ≠ Some Dir →
  fs !! changesFile folder ≠ Some Dir →
  remote env = Some S_new →
  let first := Operation.doListingWithChanges env fs folder "file_list" "file_changes" in
  let second :=
    Operation.doListingWithChanges env first.1 folder "file_list" "file_changes" in
  second.2 = Some {| last_updated_on := now env;
                     changes := {| added := []; updated := []; removed := [] |} |} ∧
  second.1 !! listFile folder = Some (File (JsonArticles (json_article <$> S_new))) ∧
  second.1 !! oldListFile folder = Some (File (JsonArticles (json_article <$> S_new))).
Proof.
  intros Hlist Hdir Hold Hch Hremote first second. subst second first.
  rewrite (listing_changes_run env fs folder S_old S_new) by done.
  cbn [fst].
  set (N := Path.normalize_segs false folder) in *.
  assert (listFile folder = N ++ ["file_list.json"]) as HL by apply listFile_eq.
  assert (oldListFile folder = N ++ ["file_list.json.old"]) as HO by apply oldListFile_eq.
  assert (changesFile folder = N ++ ["file_changes.json"]) as HC by apply changesFile_eq.
  match goal with |- context [Operation.doListingWithChanges env ?m _ _ _] =>
    set (fs1 := m) end.
  assert (fs1 !! listFile folder = Some (File (JsonArticles (json_article <$> S_new))))
    as H1.
  { subst fs1. rewrite lookup_insert_ne, lookup_insert_eq; [done|].
    rewrite HC, HL. by apply snoc_ne. }
  rewrite (listing_changes_run env fs1 folder (json_article <$> S_new) S_new);
    [| done | | | | done].
  - cbn [fst snd]. rewrite <- (detect_changes_json S_new), detect_same.
    split; [done|]. split.
    + rewrite lookup_insert_ne, lookup_insert_eq; [done|].
      rewrite HC, HL. by apply snoc_ne.
    + rewrite lookup_insert_ne, lookup_insert_ne, lookup_insert_eq; [done| |].
      * rewrite HL, HO. by apply snoc_ne.
      * rewrite HC, HO. by apply snoc_ne.
  - apply (is_dir_other fs); [done|]. intros _. subst fs1.
    rewrite !lookup_insert_ne, lookup_delete_ne; [done|..];
      rewrite ?HC, ?HO, ?HL; apply snoc_ne_self.
  - subst fs1. rewrite lookup_insert_ne, lookup_insert_ne, lookup_insert_eq; [done| |].
    + rewrite HL, HO. by apply snoc_ne.
    + rewrite HC, HO. by apply snoc_ne.
  - subst fs1. by rewrite lookup_insert_eq.
Qed.


Lemma doListingWithChanges_rerun_witness :
  let S_old := [Sample.article "k1" "KB0010001" "1.0";
                Sample.article "k2" "KB0010002" "1.0"] in
  let S_new := [Sample.article "k1" "KB0010001" "2.0";
                Sample.article "k3" "KB0010003" "1.0"] in
  let first := Operation.doListingWithChanges (Sample.online S_new)
                 (Sample.workspace S_old []) Sample.folder "file_list" "file_changes" in
  (Operation.doListingWithChanges (Sample.online S_new) first.1 Sample.folder
     "file_list" "file_changes").2
  = Some {| last_updated_on := "2024-07-10T02:00:00.000Z";
            changes := {| added := []; updated := []; removed := [] |} |}.
Proof.
  intros S_old S_new first.
  destruct (doListingWithChanges_rerun (Sample.online S_new) (Sample.workspace S_old [])
              Sample.folder S_old S_new) as (H & _); [by vm_compute..|].
  exact H.
Defined.

End ListingChanges.

(** ** Listing, with and without files *)

Section Listing.
Implicit Types (fs : FS) (env : Env) (folder : list string).

Lemma tree_ancestors fs (q r : list string) :
  tree fs → q ≠ [] → r ≠ [] → is_Some (fs !! (q ++ r)) → fs !! q = Some Dir.
Proof.
  intros Ht Hq. induction r as [|x r IH] using rev_ind; [done|]. intros _ Hk.
  apply Ht in Hk. rewrite app_assoc, parent_snoc in Hk.
  unfold NodeFs.is_dir in Hk. apply bool_decide_eq_true in Hk as [Hk|Hk].
  { apply app_eq_nil in Hk as [? _]. done. }
  destruct r as [|y r]; [by rewrite app_nil_r in Hk|].
  apply IH; [done|]. by rewrite Hk.
Qed.

Lemma ancestors_from_snoc (pre l : list string) (x : string) :
  NodeFs.ancestors_from pre (l ++ [x])
  = NodeFs.ancestors_from pre l ++ [pre ++ l ++ [x]].
Proof.
  revert pre. induction l as [|s l IH]; intros pre; [done|].
  cbn. rewrite IH. by rewrite <- !app_assoc.
Qed.

Lemma ancestors_from_elem (pre l q : list string) :
  q ∈ NodeFs.ancestors_from pre l →
  ∃ l1 l2, l = l1 ++ l2 ∧ l1 ≠ [] ∧ q = pre ++ l1.
Proof.
  revert pre. induction l as [|s l IH]; intros pre Hq; [by apply elem_of_nil in Hq|].
  cbn in Hq. apply elem_of_cons in Hq as [->|Hq].
  - by exists [s], l.
  - apply IH in Hq as (l1 & l2 & -> & _ & ->).
    exists (s :: l1), l2. by rewrite <- app_assoc.
Qed.

Lemma mkdir_fold_dirs fs (qs : list (list string)) :
  (∀ q, q ∈ qs → fs !! q = Some Dir) →
  fold_left (λ acc q, fs' ← acc;
                      match fs' !! q with
                      | Some (File _) => None
                      | Some Dir => Some fs'
                      | None => Some (<[q := Dir]> fs')
                      end) qs (Some fs) = Some fs.
Proof.
  induction qs as [|q qs IH]; intros Hall; [done|].
  cbn. rewrite (Hall q) by left. apply IH. intros ? ?. apply Hall. by right.
Qed.

Lemma mkdirSync_child fs (F : list string) (x : string) :
  (∀ l1 l2, F = l1 ++ l2 → l1 ≠ [] → fs !! l1 = Some Dir) →
  fs !! (F ++ [x]) = None →
  NodeFs.mkdirSync fs (F ++ [x]) = Some (<[F ++ [x] := Dir]> fs).
Proof.
  intros Hanc Hnew. unfold NodeFs.mkdirSync.
  rewrite ancestors_from_snoc, fold_left_app, mkdir_fold_dirs.
  - cbn. by rewrite Hnew.
  - intros q (l1 & l2 & -> & Hne & ->)%ancestors_from_elem. by eapply Hanc.
Qed.

Lemma listFile_plain folder :
  Forall plain folder → listFile folder = folder ++ ["file_list.json"].
Proof. intros Hf. by rewrite listFile_eq, normalize_plain. Qed.

Lemma pdfHome_plain folder :
  Forall plain folder → pdfHome folder = folder ++ ["PDFs"].
Proof. intros Hf. by rewrite pdfHome_eq, normalize_plain. Qed.

Lemma listing_only_run env fs folder (l : list Article) :
  Forall plain folder →
  well_formed fs →
  NodeFs.is_dir fs folder = true →
  remote env = Some l →
  let run := Operation.doListingOnly env fs folder "file_list" in
  run.2 = Some l ∧
  SnTools.read_articles run.1 (listFile folder) = Some (json_article <$> l) ∧
  run.1 = <[listFile folder := File (JsonArticles (json_article <$> l))]>
            (Operation.resetWorkspace fs folder).
Proof.
  intros Hf Hwf Hdir Hremote run. subst run. unfold Operation.doListingOnly.
  change (Path.resolve folder (Path.of_string ("file_list" +:+ ".json")))
    with (listFile folder).
  destruct (reset_effect fs folder Hf Hwf) as (Hgone & _ & _ & Hsame).
  unfold SnTools.getArticlesList. rewrite Hremote.
  assert (NodeFs.writeFile (Operation.resetWorkspace fs folder) (listFile folder)
            (JsonArticles (json_article <$> l))
          = Some (<[listFile folder := File (JsonArticles (json_article <$> l))]>
                    (Operation.resetWorkspace fs folder))) as ->.
  { unfold NodeFs.writeFile. rewrite (listFile_plain _ Hf).
    destruct (Hgone Hdir "file_list.json") as [-> _]; [done|].
    rewrite parent_snoc.
    by rewrite (is_dir_other fs _ folder Hdir). }
  cbn [fst snd]. split; [done|]. split; [|done].
  unfold SnTools.read_articles. by rewrite lookup_insert_eq.
Qed.

Lemma json_article_id (a : Article) :
  json_article a = a ↔ sys_updated_on_msecs a ≠ NaN.
Proof.
  destruct a as [? ? ? ? ? ? ? m]. unfold json_article. cbn. split.
  - intros [= Hm]. by destruct m.
  - intros Hm. by destruct m.
Qed.

Lemma json_list_id (l : list Article) :
  json_article <$> l = l ↔ Forall (λ a, sys_updated_on_msecs a ≠ NaN) l.
Proof.
  induction l as [|a l IH]; [done|].
  rewrite fmap_cons, Forall_cons, <- IH, <- json_article_id. split.
  - by intros [= -> ->].
  - by intros [-> ->].
Qed.

(** X14 — [doListingOnly] in an existing folder, when the catalog
    answers: it returns the catalog's list; the list file read back
    gives that list as JSON gives it back, that is with [null] where a
    date did not parse and the time stamp is [NaN], so the list read
    back is the list returned exactly when every date parsed; nothing is
    left of the PDFs folder and of the changes file, and the lock file
    is as before. *)
Theorem doListingOnly_round_trip env fs folder (l : list Article) :
  Forall plain folder →
  well_formed fs →
  NodeFs.is_dir fs folder = true →
  remote env = Some l →
  let run := Operation.doListingOnly env fs folder "file_list" in
  run.2 = Some l ∧
  SnTools.read_articles run.1 (listFile folder) = Some (json_article <$> l) ∧
  (SnTools.read_articles run.1 (listFile folder) = run.2 ↔
   Forall (λ a, sys_updated_on_msecs a ≠ NaN) l) ∧
  run.1 !! pdfHome folder = None ∧
  run.1 !! changesFile folder = None ∧
  run.1 !! Session.lockFilePath folder = fs !! Session.lockFilePath folder.
Proof.
  intros Hf Hwf Hdir Hremote run.
  destruct (listing_only_run env fs folder l Hf Hwf Hdir Hremote) as (H1 & H2 & H3).
  destruct (reset_effect fs folder Hf Hwf) as (Hgone & _ & Hlock & _).
  fold run in H1, H2, H3. split; [done|]. split; [done|].
  split.
  { rewrite H1, H2, <- json_list_id. split; [by intros [= ->]|by intros ->]. }
  rewrite H3, (listFile_plain _ Hf). split_and!.
  - rewrite (pdfHome_plain _ Hf), lookup_insert_ne by by apply snoc_ne.
    by destruct (Hgone Hdir "PDFs").
  - rewrite changesFile_eq, (normalize_plain _ _ Hf), lookup_insert_ne
      by by apply snoc_ne.
    by destruct (Hgone Hdir "file_changes.json").
  - rewrite <- Hlock. rewrite (lockFilePath_plain _ Hf).
    rewrite lookup_insert_ne by by apply snoc_ne. done.
Qed.

Lemma doListingOnly_round_trip_witness :
  let undated :=
    {| sys_id := "k3"; number := "KB0010003";
       version := {| display_value := "1.0" |};
       short_description := "How to order a badge";
       kb_knowledge_base := "IT"; sys_domain := "global";
       sys_updated_on := ""; sys_updated_on_msecs := NaN |} in
  let S_old := [Sample.article "k1" "KB0010001" "1.0"] in
  let S_new := [Sample.article "k1" "KB0010001" "2.0"; undated] in
  let run := Operation.doListingOnly (Sample.online S_new)
               (Sample.workspace S_old ["KB0010001"]) Sample.folder "file_list" in
  run.2 = Some S_new ∧
  SnTools.read_articles run.1 (listFile Sample.folder)
  = Some [Sample.article "k1" "KB0010001" "2.0";
          {| sys_id := "k3"; number := "KB0010003";
             version := {| display_value := "1.0" |};
             short_description := "How to order a badge";
             kb_knowledge_base := "IT"; sys_domain := "global";
             sys_updated_on := ""; sys_updated_on_msecs := Null |}] ∧
  run.1 !! pdfHome Sample.folder = None.
Proof.
  intros undated S_old S_new run.
  destruct (doListingOnly_round_trip (Sample.online S_new)
              (Sample.workspace S_old ["KB0010001"]) Sample.folder S_new)
    as (H0 & H1 & _ & H2 & _).
  - by_computation.
  - apply well_formed_check. by_computation.
  - by vm_compute.
  - done.
  - split; [exact H0|]. split; [exact H1|exact H2].
Defined.

Lemma reset_clears_pdfs fs folder (rest : list string) :
  Forall plain folder → well_formed fs → tree fs →
  NodeFs.is_dir fs folder = true →
  Operation.resetWorkspace fs folder !! (pdfHome folder ++ rest) = None.
Proof.
  intros Hf Hwf Ht Hdir. rewrite (pdfHome_plain _ Hf).
  destruct (reset_effect fs folder Hf Hwf) as (Hgone & _).
  destruct (Hgone Hdir "PDFs") as [H0 Hsub]; [done|].
  destruct rest as [|x rest]; [by rewrite app_nil_r|].
  destruct (fs !! ((folder ++ ["PDFs"]) ++ x :: rest)) as [v|] eqn:Hv.
  - rewrite <- app_assoc. apply Hsub.
    apply (tree_ancestors fs _ (x :: rest)); [done| |done|by eexists].
    intros H. by apply app_eq_nil in H as [_ ?].
  - eapply lookup_weaken_None; [exact Hv|]. apply removeFolderContents_subseteq.
Qed.

Lemma listing_with_files_run env fs folder (l : list Article) :
  Forall plain folder →
  well_formed fs →
  tree fs →
  NodeFs.is_dir fs folder = true →
  remote env = Some l →
  browser_ok env = true →
  Forall (λ a, no_slash (number a) = true) l →
  let run := Operation.doListingWithFiles env fs folder "file_list" in
  run.2 = filter (λ n, render_ok env n = false) (number <$> l) ∧
  SnTools.read_articles run.1 (listFile folder) = Some (json_article <$> l) ∧
  run.1 !! pdfHome folder = Some Dir ∧
  (∀ a, a ∈ l → render_ok env (number a) = true →
        run.1 !! (pdfHome folder ++ [number a +:+ ".pdf"])
        = Some (File (Pdf (number a)))) ∧
  (∀ rest, rest ≠ [] → is_Some (run.1 !! (pdfHome folder ++ rest)) →
           ∃ a, a ∈ l ∧ render_ok env (number a) = true ∧
                rest = [number a +:+ ".pdf"]) ∧
  run.1 !! changesFile folder = None.
Proof.
  intros Hf Hwf Ht Hdir Hremote Hb Hns run. subst run.
  unfold Operation.doListingWithFiles.
  destruct (listing_only_run env fs folder l Hf Hwf Hdir Hremote)
    as (H2 & _ & H1).
  destruct (Operation.doListingOnly env fs folder "file_list") as [fs1 o].
  cbn [fst snd] in H1, H2. subst o.
  change (Path.join folder (Path.of_string "PDFs")) with (pdfHome folder).
  set (fs0 := Operation.resetWorkspace fs folder) in *.
  assert (∀ rest, fs1 !! (pdfHome folder ++ rest) = None) as Hclear.
  { intros rest. subst fs1. rewrite lookup_insert_ne.
    - by apply reset_clears_pdfs.
    - rewrite (listFile_plain _ Hf), (pdfHome_plain _ Hf), <- app_assoc.
      intros H. apply app_inv_head in H. destruct rest; by injection H. }
  assert (NodeFs.existsSync fs1 (pdfHome folder) = false) as ->.
  { apply existsSync_false. specialize (Hclear []). by rewrite app_nil_r in Hclear. }
  destruct (reset_effect fs folder Hf Hwf) as (Hgone & _ & _ & Hsame).
  assert (NodeFs.mkdirSync fs1 (pdfHome folder) = Some (<[pdfHome folder := Dir]> fs1))
    as ->.
  { rewrite (pdfHome_plain _ Hf). apply mkdirSync_child.
    - intros l1 l2 Hl Hne.
      assert (fs !! l1 = Some Dir) as Hd.
      { destruct l2 as [|y l2].
        - rewrite app_nil_r in Hl. subst l1.
          unfold NodeFs.is_dir in Hdir. by apply bool_decide_eq_true in Hdir as [?|?].
        - apply (tree_ancestors fs l1 (y :: l2)); [done..|]. rewrite <- Hl.
          unfold NodeFs.is_dir in Hdir. apply bool_decide_eq_true in Hdir as [?|Hd].
          + subst folder. by destruct l1.
          + by eexists. }
      rewrite <- Hd. subst fs1. rewrite lookup_insert_ne.
      + destruct l2 as [|y l2].
        * rewrite app_nil_r in Hl. by subst l1.
        * apply reset_confined; [done..|].
          intros [k Hk]. subst folder. rewrite <- app_assoc in Hk.
          apply (f_equal length) in Hk. rewrite !length_app in Hk. cbn in Hk. lia.
      + rewrite (listFile_plain _ Hf), Hl. intros H.
        apply (f_equal length) in H. rewrite !length_app in H. cbn in H. lia.
    - rewrite <- (pdfHome_plain _ Hf). specialize (Hclear []).
      by rewrite app_nil_r in Hclear. }
  set (fs2 := <[pdfHome folder := Dir]> fs1).
  assert (Forall plain (pdfHome folder)) as Hplain.
  { rewrite (pdfHome_plain _ Hf). apply plain_snoc; [done|by_computation]. }
  assert (Forall (λ n, no_slash n = true) (number <$> l)) as Hnum.
  { apply Forall_fmap. eapply Forall_impl; [exact Hns|done]. }
  destruct (fetch_outcome env fs2 (pdfHome folder) (number <$> l))
    as (fs' & -> & Hgot & Hkeep); [done|done| |done| |].
  { unfold NodeFs.is_dir. apply bool_decide_eq_true. right. subst fs2.
    by rewrite lookup_insert_eq. }
  { intros n Hn. rewrite pdfPath_in; [|done|by eapply Forall_forall in Hnum].
    subst fs2. rewrite lookup_insert_ne by apply self_ne_snoc.
    by rewrite Hclear. }
  cbn [fst snd]. split; [done|].
  assert (∀ n, n ∈ number <$> l →
            SnTools.pdfPath (pdfHome folder) n = pdfHome folder ++ [n +:+ ".pdf"])
    as Hpath.
  { intros n Hn. apply pdfPath_in; [done|]. by eapply Forall_forall in Hnum. }
  split; [|split; [|split; [|split]]].
  - unfold SnTools.read_articles. rewrite Hkeep.
    + subst fs2 fs1. rewrite lookup_insert_ne, lookup_insert_eq; [done|].
      rewrite (listFile_plain _ Hf), (pdfHome_plain _ Hf). by apply snoc_ne.
    + intros n Hn _. rewrite (Hpath _ Hn), (listFile_plain _ Hf), (pdfHome_plain _ Hf).
      intros H. apply (f_equal length) in H. rewrite !length_app in H. cbn in H. lia.
  - rewrite Hkeep; [subst fs2; by rewrite lookup_insert_eq|].
    intros n Hn _. rewrite (Hpath _ Hn). apply self_ne_snoc.
  - intros a Ha Hr. rewrite <- Hpath by by apply list_elem_of_fmap_2.
    apply Hgot; [by apply list_elem_of_fmap_2|done].
  - intros rest Hne Hsome.
    destruct (decide (Exists (λ a, render_ok env (number a) = true ∧
                                   rest = [number a +:+ ".pdf"]) l)) as [Hyes|Hno].
    { apply Exists_exists in Hyes as (a & ? & ? & ?). by exists a. }
    exfalso. rewrite Hkeep in Hsome.
    + subst fs2. rewrite lookup_insert_ne, Hclear in Hsome; [by destruct Hsome|].
      intros H. rewrite <- (app_nil_r (pdfHome folder)) in H at 1.
      by apply app_inv_head in H.
    + intros n Hn Hr Heq. apply list_elem_of_fmap in Hn as (a & -> & Ha).
      rewrite Hpath in Heq by by apply list_elem_of_fmap_2.
      apply app_inv_head in Heq. apply Hno, Exists_exists. by exists a.
  - assert (changesFile folder = folder ++ ["file_changes.json"]) as HC
      by (by rewrite changesFile_eq, normalize_plain).
    rewrite Hkeep.
    + subst fs2 fs1. rewrite !lookup_insert_ne.
      * rewrite HC. by destruct (Hgone Hdir "file_changes.json").
      * rewrite (listFile_plain _ Hf), HC. by apply snoc_ne.
      * rewrite (pdfHome_plain _ Hf), HC. by apply snoc_ne.
    + intros n Hn _. rewrite (Hpath _ Hn), HC, (pdfHome_plain _ Hf).
      intros Heq. apply (f_equal length) in Heq. rewrite !length_app in Heq.
      cbn in Heq. lia.
Qed.

(** X15 — [doListingWithFiles] starts afresh: in an existing folder of a
    file system whose entries all lie in folders, with a catalog that
    answers, a working browser and article numbers that are plain names,
    the operation reports exactly the numbers whose page did not print,
    the list file holds the catalog's list (as JSON gives it back), and
    the PDFs folder holds the file of every other listed article and
    nothing else. *)
Theorem doListingWithFiles_populates env fs folder (l : list Article) :
  Forall plain folder →
  well_formed fs →
  tree fs →
  NodeFs.is_dir fs folder = true →
  remote env = Some l →
  browser_ok env = true →
  Forall (λ a, no_slash (number a) = true) l →
  let run := Operation.doListingWithFiles env fs folder "file_list" in
  run.2 = filter (λ n, render_ok env n = false) (number <$> l) ∧
  SnTools.read_articles run.1 (listFile folder) = Some (json_article <$> l) ∧
  run.1 !! pdfHome folder = Some Dir ∧
  (∀ a, a ∈ l → render_ok env (number a) = true →
        run.1 !! (pdfHome folder ++ [number a +:+ ".pdf"])
        = Some (File (Pdf (number a)))) ∧
  (∀ rest, rest ≠ [] → is_Some (run.1 !! (pdfHome folder ++ rest)) →
           ∃ a, a ∈ l ∧ render_ok env (number a) = true ∧
                rest = [number a +:+ ".pdf"]).
Proof.
  intros Hf Hwf Ht Hdir Hremote Hb Hns run.
  destruct (listing_with_files_run env fs folder l Hf Hwf Ht Hdir Hremote Hb Hns)
    as (H1 & H2 & H3 & H4 & H5 & _).
  done.
Qed.


Lemma doListingWithFiles_populates_witness :
  let env := {| remote := Some [Sample.article "k1" "KB0010001" "2.0";
                                Sample.article "k2" "KB0010002" "1.0"];
                browser_ok := true;
                render_ok := λ n, bool_decide (n ≠ "KB0010002");
                now := "2024-07-10T02:00:00.000Z"; monitor_arity := 1 |} in
  let fs := Sample.workspace [Sample.article "k9" "KB0010009" "1.0"] ["KB0010009"] in
  let run := Operation.doListingWithFiles env fs Sample.folder "file_list" in
  run.2 = ["KB0010002"] ∧
  run.1 !! (pdfHome Sample.folder ++ ["KB0010001.pdf"])
  = Some (File (Pdf "KB0010001")) ∧
  ¬ is_Some (run.1 !! (pdfHome Sample.folder ++ ["KB0010009.pdf"])).
Proof.
  intros env fs run.
  destruct (doListingWithFiles_populates env fs Sample.folder
              [Sample.article "k1" "KB0010001" "2.0";
               Sample.article "k2" "KB0010002" "1.0"])
    as (H1 & _ & _ & H2 & H3).
  - by_computation.
  - apply well_formed_check. by_computation.
  - apply tree_check. by_computation.
  - by vm_compute.
  - done.
  - done.
  - by_computation.
  - split_and!.
    + etrans; [exact H1|by vm_compute].
    + apply (H2 (Sample.article "k1" "KB0010001" "2.0")); [left|by vm_compute].
    + intros Hsome. apply H3 in Hsome as (a & Ha & _ & Heq); [|done].
      repeat (apply elem_of_cons in Ha as [->|Ha]); [done..|].
      by apply elem_of_nil in Ha.
Defined.

End Listing.

(** ** The first run *)

(** C6 — When no primary snapshot file exists, [doListingWithChanges]
    returns the null sentinel and leaves the file system as it is, and
    [doChangesWithFiles], in either mode, does what [doListingWithFiles]
    does on the same input and nothing more.  That is the full
    population: under the names [mainExec] uses, in an existing folder
    of a file system whose entries all lie in folders, with a catalog
    that answers, a working browser and article numbers that are plain
    names, the run lists and then renders every article: it reports
    exactly the numbers whose page did not print, the list file holds the
    catalog's list (as JSON gives it back), the PDFs folder holds the
    file of every other listed article and nothing else, and no changes
    file is written. *)
Theorem first_run_fallback (env : Env) (fs : FS) (folder : list string)
    (listFileName changesFileName : string) (newerOnly : bool) :
  NodeFs.existsSync fs
    (Path.resolve folder (Path.of_string (listFileName +:+ ".json"))) = false →
  Operation.doListingWithChanges env fs folder listFileName changesFileName = (fs, None) ∧
  Operation.doChangesWithFiles env fs folder listFileName changesFileName newerOnly
  = Operation.doListingWithFiles env fs folder listFileName ∧
  ∀ l : list Article,
    listFileName = "file_list" →
    Forall plain folder →
    well_formed fs →
    tree fs →
    NodeFs.is_dir fs folder = true →
    remote env = Some l →
    browser_ok env = true →
    Forall (λ a, no_slash (number a) = true) l →
    let run := Operation.doChangesWithFiles env fs folder
                 listFileName changesFileName newerOnly in
    run.2 = filter (λ n, render_ok env n = false) (number <$> l) ∧
    SnTools.read_articles run.1 (listFile folder) = Some (json_article <$> l) ∧
    run.1 !! pdfHome folder = Some Dir ∧
    (∀ a, a ∈ l → render_ok env (number a) = true →
          run.1 !! (pdfHome folder ++ [number a +:+ ".pdf"])
          = Some (File (Pdf (number a)))) ∧
    (∀ rest, rest ≠ [] → is_Some (run.1 !! (pdfHome folder ++ rest)) →
             ∃ a, a ∈ l ∧ render_ok env (number a) = true ∧
                  rest = [number a +:+ ".pdf"]) ∧
    run.1 !! changesFile folder = None.
Proof.
  intros Hex.
  assert (Operation.doChangesWithFiles env fs folder listFileName changesFileName newerOnly
          = Operation.doListingWithFiles env fs folder listFileName) as Hsame.
  { unfold Operation.doChangesWithFiles. by rewrite Hex. }
  split_and!.
  - unfold Operation.doListingWithChanges. by rewrite Hex.
  - exact Hsame.
  - intros l -> Hf Hwf Ht Hdir Hremote Hb Hns run. subst run. rewrite Hsame.
    exact (listing_with_files_run env fs folder l Hf Hwf Ht Hdir Hremote Hb Hns).
Qed.

Lemma first_run_fallback_witness :
  let S := [Sample.article "k1" "KB0010001" "1.0";
            Sample.article "k2" "KB0010002" "3.1"] in
  let env := Sample.online S in
  let fs := Sample.empty_workspace in
  let run := Operation.doChangesWithFiles env fs Sample.folder
               "file_list" "file_changes" false in
  Operation.doListingWithChanges env fs Sample.folder "file_list" "file_changes"
  = (fs, None) ∧
  run = Operation.doListingWithFiles env fs Sample.folder "file_list" ∧
  run.2 = [] ∧
  SnTools.read_articles run.1 (listFile Sample.folder) = Some S ∧
  run.1 !! (pdfHome Sample.folder ++ ["KB0010001.pdf"]) = Some (File (Pdf "KB0010001")) ∧
  run.1 !! (pdfHome Sample.folder ++ ["KB0010002.pdf"]) = Some (File (Pdf "KB0010002")) ∧
  run.1 !! changesFile Sample.folder = None.
Proof.
  intros S env fs run.
  destruct (first_run_fallback env fs Sample.folder "file_list" "file_changes" false)
    as (Hnull & Hsame & Hfull); [by vm_compute|].
  destruct (Hfull S) as (Hfail & Hlist & _ & Hfiles & _ & Hchanges).
  - done.
  - by_computation.
  - apply well_formed_check. by_computation.
  - apply tree_check. by_computation.
  - by vm_compute.
  - done.
  - done.
  - by_computation.
  - split_and!.
    + exact Hnull.
    + exact Hsame.
    + etrans; [exact Hfail|by vm_compute].
    + etrans; [exact Hlist|by vm_compute].
    + apply (Hfiles (Sample.article "k1" "KB0010001" "1.0")); [left|done].
    + apply (Hfiles (Sample.article "k2" "KB0010002" "3.1")); [right; left|done].
    + exact Hchanges.
Defined.

(** ** The configuration *)

Section Configuration.
Import ConfigTools.

Lemma config_fold_lookup (l : list (string * jsval)) (init : Obj) (k : string) :
  fold_left assign_setting l init !! k
  = if decide (k = "__proto__") then init !! k
    else match last (filter (λ kv, kv.1 = k) l) with
         | Some kv => Some (filter_setting k kv.2)
         | None => init !! k
         end.
Proof.
  induction l as [|[k' v'] l IH] using rev_ind.
  { cbn. by destruct (decide _). }
  rewrite fold_left_app, filter_app. cbn [fold_left]. unfold assign_setting at 1.
  cbn [fst snd]. destruct (decide (k = "__proto__")) as [->|Hk].
  - case_bool_decide as Hp; [done|]. by rewrite lookup_insert_ne.
  - destruct (decide (k' = k)) as [->|Hne].
    + rewrite bool_decide_eq_false_2 by done.
      rewrite lookup_insert_eq, filter_cons_True by done.
      by rewrite filter_nil, last_snoc.
    + rewrite filter_cons_False, filter_nil, app_nil_r by done.
      case_bool_decide; [done|]. by rewrite lookup_insert_ne.
Qed.

Lemma includes_elem (l : list jsval) (v : jsval) : includes l v = true → v ∈ l.
Proof.
  unfold includes. intros (x & Hx & Heq)%existsb_exists.
  apply list_elem_of_In in Hx. unfold strict_eq in Heq.
  assert (v = x) as ->; [|done].
  destruct v, x; try done; by apply bool_decide_eq_true in Heq.
Qed.

Lemma filter_setting_cases (k : string) (v : jsval) :
  filter_setting k v = JNull ∨
  (filter_setting k v = v ∧ is_blank_string v = false ∧
   (k = "storage_mode" → v ∈ validStorageModes) ∧
   (k = "operation_mode" → v ∈ validOperationModes)).
Proof.
  unfold filter_setting. destruct (is_blank_string v); [by left|].
  destruct (bool_decide (k = "storage_mode")) eqn:Hs.
  - apply bool_decide_eq_true in Hs as ->.
    destruct (includes validStorageModes v) eqn:Hi; [|by left].
    right. cbn. split; [done|]. split; [done|]. split; [|done].
    intros _. by apply includes_elem.
  - apply bool_decide_eq_false in Hs. cbn [andb].
    destruct (bool_decide (k = "operation_mode")) eqn:Ho.
    + apply bool_decide_eq_true in Ho as ->.
      destruct (includes validOperationModes v) eqn:Hi; [|by left].
      right. cbn. split; [done|]. split; [done|]. split; [done|].
      intros _. by apply includes_elem.
    + apply bool_decide_eq_false in Ho. right. cbn. done.
Qed.

(** X16 — What [getConfigData] hands over is sanitised: for a profile
    found under the name, it returns an object whose keys are the keys
    of the profile's settings other than [__proto__]; under each key
    lies what the loop makes of the value the settings give: [null] for
    a string that [trim] empties and for a [storage_mode] or
    [operation_mode] outside the valid modes, the value itself
    otherwise.  So each value is [null] or a non-blank value of the
    settings, and a mode that is not [null] is a valid one. *)
Theorem getConfigData_sanitises (profiles : list profile) (profileName : jsval)
    (p : profile) :
  find (λ q, strict_eq (name q) profileName) profiles = Some p →
  ∃ data,
    getConfigData (Profiles profiles) profileName = Some data ∧
    (∀ k, is_Some (data !! k) ↔
          k ∈ (default [] (settings p)).*1 ∧ k ≠ "__proto__") ∧
    (∀ k v, k ≠ "__proto__" →
            last (filter (λ kv, kv.1 = k) (default [] (settings p))) = Some (k, v) →
            data !! k = Some (filter_setting k v)) ∧
    (∀ k v, data !! k = Some v →
            v = JNull ∨
            (is_blank_string v = false ∧
             (k, v) ∈ default [] (settings p) ∧
             (k = "storage_mode" → v ∈ validStorageModes) ∧
             (k = "operation_mode" → v ∈ validOperationModes))).
Proof.
  intros Hfind. unfold getConfigData. rewrite Hfind. eexists. split; [done|].
  set (l := default [] (settings p)).
  assert (∀ k kv, last (filter (λ kv : string * jsval, kv.1 = k) l) = Some kv →
            kv ∈ l ∧ kv.1 = k) as Hlast.
  { intros k kv Hl. apply last_Some in Hl as [l' Hl].
    assert (kv ∈ filter (λ kv : string * jsval, kv.1 = k) l) as Hin.
    { rewrite Hl. apply elem_of_app. right. left. }
    by apply list_elem_of_filter in Hin as [? ?]. }
  split; [|split].
  - intros k. rewrite config_fold_lookup, lookup_empty.
    destruct (decide (k = "__proto__")) as [->|Hk].
    { split; [by intros [? ?]|by intros [_ ?]]. }
    split.
    + destruct (last _) as [kv|] eqn:Hl; [|by intros [? ?]]. intros _.
      apply Hlast in Hl as [Hin <-]. split; [|done]. by apply list_elem_of_fmap_2.
    + intros [(kv & -> & Hin)%list_elem_of_fmap _].
      destruct (last _) as [kv'|] eqn:Hl; [by eexists|].
      apply last_None in Hl.
      assert (kv ∈ filter (λ kv' : string * jsval, kv'.1 = kv.1) l) as Hf
        by by apply list_elem_of_filter.
      rewrite Hl in Hf. by apply elem_of_nil in Hf.
  - intros k v Hk Hl. rewrite config_fold_lookup, lookup_empty.
    rewrite decide_False by done. fold l. by rewrite Hl.
  - intros k v. rewrite config_fold_lookup, lookup_empty.
    destruct (decide (k = "__proto__")); [done|].
    destruct (last _) as [[k' v']|] eqn:Hl; [|done]. intros [= <-].
    apply Hlast in Hl as [Hin Hk]. cbn in Hk. subst k'. cbn [snd].
    destruct (filter_setting_cases k v') as [?|(-> & ? & ? & ?)]; [by left|by right].
Qed.

Lemma getConfigData_sanitises_witness :
  let nbsp := String (ascii_of_nat 194) (String (ascii_of_nat 160) "") in
  let p := {| name := JStr "default";
              settings :=
                Some [("sn_instance_name", JStr "acme");
                      ("sn_query", JStr nbsp);
                      ("__proto__", JObject);
                      ("storage_mode", JStr "tape");
                      ("operation_mode", JStr "list_changes_files")] |} in
  ∃ data,
    getConfigData (Profiles [p]) (JStr "default") = Some data ∧
    data !! "sn_query" = Some JNull ∧
    data !! "storage_mode" = Some JNull ∧
    data !! "operation_mode" = Some (JStr "list_changes_files") ∧
    ¬ is_Some (data !! "__proto__").
Proof.
  intros nbsp p.
  destruct (getConfigData_sanitises [p] (JStr "default") p)
    as (data & Hdata & Hkeys & Hvalue & _); [done|].
  exists data. split; [exact Hdata|]. split_and!.
  - apply (Hvalue "sn_query" (JStr nbsp)); by vm_compute.
  - apply (Hvalue "storage_mode" (JStr "tape")); by vm_compute.
  - apply (Hvalue "operation_mode" (JStr "list_changes_files")); by vm_compute.
  - intros Hsome. by apply Hkeys in Hsome as [_ ?].
Defined.

End Configuration.

(** ** The checks of [mainExec] *)

Section MainFacts.
Import ConfigTools.

Lemma missing_mandatory_None (input : Main.Input) (final : Obj) :
  Main.missing_mandatory input final = None ↔
  ∀ a, a ∈ Main.appArgs input → Main.mandatory a = true →
       truthy (final !! default "" (head (Main.arg_names a))) = true.
Proof.
  unfold Main.missing_mandatory. rewrite head_None. split.
  - intros Hnil a Ha Hm.
    destruct (truthy (final !! default "" (head (Main.arg_names a)))) eqn:Ht; [done|].
    exfalso. eapply (elem_of_nil (default "" (head (Main.arg_names a)))).
    rewrite <- Hnil. apply list_elem_of_omap. exists a. split; [done|].
    cbn. by rewrite Hm, Ht.
  - intros Hall. destruct (omap _ _) as [|x l] eqn:Ho; [done|].
    assert (x ∈ x :: l) as Hin by left. rewrite <- Ho in Hin.
    apply list_elem_of_omap in Hin as (a & Ha & Hx). cbn in Hx.
    destruct (Main.mandatory a) eqn:Hm; [|done].
    by rewrite (Hall a Ha Hm) in Hx.
Qed.

(** One character of a string against the literals of a [match]. *)
Ltac split_char s :=
  destruct s as [|[b0 b1 b2 b3 b4 b5 b6 b7] s]; [first [done|by intros [= <-]]|];
  destruct b0; try done; destruct b1; try done; destruct b2; try done;
  destruct b3; try done; destruct b4; try done; destruct b5; try done;
  destruct b6; try done; destruct b7; try done.

Lemma operation_of_Some (final : Obj) (mode : Main.OperationMode) :
  Main.operation_of final = Some mode ↔
  final !! "operation_mode" = Some (JStr (operation_name mode)).
Proof.
  unfold Main.operation_of. split.
  - destruct (final !! "operation_mode") as [[| | |s|]|]; try done.
    repeat (split_char s).
  - intros ->. by destruct mode.
Qed.

Lemma run_conditions (input : Main.Input) (file : config_file)
    (args : option Obj) (dir_ok lock_free session_opens : bool)
    (mode : Main.OperationMode) (final : Obj) :
  Main.mainExec input file args dir_ok lock_free session_opens
  = Main.Run mode final ↔
  ∃ a, args = Some a ∧
       final = Main.finalInputData input file a ∧
       truthy (a !! "help") = false ∧
       truthy (a !! "init_config") = false ∧
       (∀ arg, arg ∈ Main.appArgs input → Main.mandatory arg = true →
               truthy (final !! default "" (head (Main.arg_names arg))) = true) ∧
       truthy (final !! "output_dir") = true ∧
       dir_ok = true ∧ lock_free = true ∧ session_opens = true ∧
       final !! "operation_mode" = Some (JStr (operation_name mode)).
Proof.
  unfold Main.mainExec. split.
  - destruct args as [a|]; [|done].
    destruct (truthy (a !! "help")) eqn:Hh; [done|].
    destruct (truthy (a !! "init_config")) eqn:Hi; [done|].
    destruct (Main.missing_mandatory _ _) eqn:Hm; [done|].
    destruct (truthy (Main.finalInputData input file a !! "output_dir")) eqn:Ho; [|done].
    destruct dir_ok; [|done]. destruct lock_free; [|done].
    destruct session_opens; [|done]. cbn [negb].
    destruct (Main.operation_of _) as [m|] eqn:Hop; [|done].
    intros [= -> <-]. exists a.
    pose proof (proj1 (missing_mandatory_None _ _) Hm) as Hm'.
    apply operation_of_Some in Hop. done.
  - intros (a & -> & -> & -> & -> & Hm & -> & -> & -> & -> & Hop).
    apply (proj2 (missing_mandatory_None _ _)) in Hm.
    apply operation_of_Some in Hop. by rewrite Hm, Hop.
Qed.

Lemma unsettled_conditions (input : Main.Input) (file : config_file)
    (args : option Obj) (dir_ok lock_free session_opens : bool) :
  Main.mainExec input file args dir_ok lock_free session_opens = Main.Unsettled ↔
  ∃ a, args = Some a ∧
       truthy (a !! "help") = false ∧
       truthy (a !! "init_config") = false ∧
       (∀ arg, arg ∈ Main.appArgs input → Main.mandatory arg = true →
               truthy (Main.finalInputData input file a
                         !! default "" (head (Main.arg_names arg))) = true) ∧
       truthy (Main.finalInputData input file a !! "output_dir") = true ∧
       dir_ok = true ∧ lock_free = true ∧ session_opens = false.
Proof.
  unfold Main.mainExec. split.
  - destruct args as [a|]; [|done].
    destruct (truthy (a !! "help")) eqn:Hh; [done|].
    destruct (truthy (a !! "init_config")) eqn:Hi; [done|].
    destruct (Main.missing_mandatory _ _) eqn:Hm; [done|].
    destruct (truthy (Main.finalInputData input file a !! "output_dir")) eqn:Ho; [|done].
    destruct dir_ok; [|done]. destruct lock_free; [|done].
    destruct session_opens; cbn [negb].
    { by destruct (Main.operation_of _). }
    intros _. exists a.
    pose proof (proj1 (missing_mandatory_None _ _) Hm) as Hm'. done.
  - intros (a & -> & -> & -> & Hm & -> & -> & -> & ->).
    apply (proj2 (missing_mandatory_None _ _)) in Hm. by rewrite Hm.
Qed.

(** X17 — [mainExec] goes on to an operation exactly when every check
    is passed and the session opens: arguments were read, neither help
    nor init_config is asked for, every mandatory argument and the
    output directory have a truthy value in the final input data, the
    directory exists, no session is open in it, [openSession] returns,
    and the operation mode is one of the four the [switch] knows; the
    operation then runs on the final input data. *)
Theorem mainExec_runs_iff (input : Main.Input) (file : config_file)
    (args : option Obj) (dir_ok lock_free session_opens : bool)
    (mode : Main.OperationMode) (final : Obj) :
  Main.mainExec input file args dir_ok lock_free session_opens
  = Main.Run mode final ↔
  ∃ a, args = Some a ∧
       final = Main.finalInputData input file a ∧
       truthy (a !! "help") = false ∧
       truthy (a !! "init_config") = false ∧
       (∀ arg, arg ∈ Main.appArgs input → Main.mandatory arg = true →
               truthy (final !! default "" (head (Main.arg_names arg))) = true) ∧
       truthy (final !! "output_dir") = true ∧
       dir_ok = true ∧ lock_free = true ∧ session_opens = true ∧
       final !! "operation_mode" = Some (JStr (operation_name mode)).
Proof. apply run_conditions. Qed.

Lemma exit_codes (input : Main.Input) (file : config_file)
    (args : option Obj) (dir_ok lock_free session_opens : bool) (code : nat) :
  Main.mainExec input file args dir_ok lock_free session_opens = Main.Exit code →
  code = 2 ∨
  (code = 1 ∧ ∃ a, args = Some a ∧
                   (truthy (a !! "help") = true ∨ truthy (a !! "init_config") = true)).
Proof.
  unfold Main.mainExec. destruct args as [a|]; [|intros [= <-]; by left].
  destruct (truthy (a !! "help")) eqn:Hh.
  { intros [= <-]. right. split; [done|]. exists a. by split; [|left]. }
  destruct (truthy (a !! "init_config")) eqn:Hi.
  { intros [= <-]. right. split; [done|]. exists a. by split; [|right]. }
  destruct (Main.missing_mandatory _ _); [intros [= <-]; by left|].
  destruct (negb _); [intros [= <-]; by left|].
  destruct (negb dir_ok); [intros [= <-]; by left|].
  destruct (negb lock_free); [intros [= <-]; by left|].
  destruct (negb session_opens); [done|].
  destruct (Main.operation_of _); [done|]. intros [= <-]. by left.
Qed.

(** X18 — How [mainExec] ends before an operation.  When it resolves
    without running one, it resolves with 2, or with 1, and with 1 only
    after help or init_config was asked for.  It does neither, and its
    promise is never settled, exactly when every check up to the session
    check is passed and [openSession] then throws (it is called outside
    the [try]): arguments were read, neither help nor init_config is
    asked for, every mandatory argument and the output directory have a
    truthy value in the final input data, the directory exists and no
    session is open in it. *)
Theorem mainExec_exit_codes (input : Main.Input) (file : config_file)
    (args : option Obj) (dir_ok lock_free session_opens : bool) :
  (∀ code,
     Main.mainExec input file args dir_ok lock_free session_opens = Main.Exit code →
     code = 2 ∨
     (code = 1 ∧ ∃ a, args = Some a ∧
                      (truthy (a !! "help") = true ∨
                       truthy (a !! "init_config") = true))) ∧
  (Main.mainExec input file args dir_ok lock_free session_opens = Main.Unsettled ↔
   ∃ a, args = Some a ∧
        truthy (a !! "help") = false ∧
        truthy (a !! "init_config") = false ∧
        (∀ arg, arg ∈ Main.appArgs input → Main.mandatory arg = true →
                truthy (Main.finalInputData input file a
                          !! default "" (head (Main.arg_names arg))) = true) ∧
        truthy (Main.finalInputData input file a !! "output_dir") = true ∧
        dir_ok = true ∧ lock_free = true ∧ session_opens = false).
Proof.
  split; [intros code; apply exit_codes|apply unsettled_conditions].
Qed.

Lemma mainExec_exit_codes_witness :
  (Main.mainExec Sample.input Sample.config
     (Some (<["init_config" := JBool true]> Sample.args_cli)) true true true
   = Main.Exit 1 ∧
   (1 = 2 ∨
    (1 = 1 ∧ ∃ a, Some (<["init_config" := JBool true]> Sample.args_cli) = Some a ∧
                  (truthy (a !! "help") = true ∨ truthy (a !! "init_config") = true)))) ∧
  Main.mainExec Sample.input Sample.config (Some Sample.args_cli) true true false
  = Main.Unsettled.
Proof.
  assert (Main.mainExec Sample.input Sample.config
            (Some (<["init_config" := JBool true]> Sample.args_cli)) true true true
          = Main.Exit 1) as H by by vm_compute.
  split.
  - split; [exact H|].
    exact (proj1 (mainExec_exit_codes _ _ _ _ _ _) _ H).
  - apply (proj2 (mainExec_exit_codes Sample.input Sample.config
                    (Some Sample.args_cli) true true false)).
    exists Sample.args_cli. split; [done|]. split; [by vm_compute|].
    split; [by vm_compute|]. split; [|by vm_compute].
    intros arg Harg Hm. revert Hm.
    repeat (apply elem_of_cons in Harg as [->|Harg]; [by vm_compute|]).
    by apply elem_of_nil in Harg.
Defined.

Lemma finalInputData_lookup (input : Main.Input) (file : config_file) (args : Obj)
    (k : string) :
  let d := default ∅ (getConfigData file (JStr "default")) in
  let p := if truthy (args !! "config_profile")
           then default ∅ (getConfigData file (default JNull (args !! "config_profile")))
           else ∅ in
  Main.finalInputData input file args !! k
  = match p !! k with
    | Some v => Some v
    | None => match d !! k with
              | Some v => Some v
              | None => Main.appArgDefaults input !! k
              end
    end.
Proof.
  intros d p. unfold Main.finalInputData, call_mergeData, mergeData. cbn [lookup].
  fold d. fold p. cbn.
  destruct (p !! k) as [v|] eqn:Hp.
  { apply lookup_union_Some_l. by apply lookup_union_Some_l. }
  destruct (d !! k) as [v|] eqn:Hd.
  { apply lookup_union_Some_l. rewrite lookup_union_r; done. }
  rewrite lookup_union_r; [done|]. by apply lookup_union_None.
Qed.

(** X19 — An operation mode of the default profile that the [switch]
    does not know keeps every operation from running, whatever the
    built-in default is: when no profile is selected and the default
    profile sets [operation_mode] to a value other than the four
    implemented modes (a blank or misspelt one, which [getConfigData]
    turns into [null], or [list_changes_files_delta], which it lets
    through), [mainExec] resolves with 2, unless every check is passed
    and [openSession] throws: its promise is then never settled. *)
Theorem unimplemented_mode_masks_default (input : Main.Input)
    (profiles : list profile) (p : profile) (v : jsval) (args : Obj)
    (dir_ok lock_free session_opens : bool) :
  find (λ q, strict_eq (name q) (JStr "default")) profiles = Some p →
  last (filter (λ kv, kv.1 = "operation_mode") (default [] (settings p)))
  = Some ("operation_mode", v) →
  (∀ mode, v ≠ JStr (operation_name mode)) →
  truthy (args !! "config_profile") = false →
  truthy (args !! "help") = false →
  truthy (args !! "init_config") = false →
  Main.mainExec input (Profiles profiles) (Some args) dir_ok lock_free session_opens
  = Main.Exit 2 ∨
  (session_opens = false ∧
   Main.mainExec input (Profiles profiles) (Some args) dir_ok lock_free session_opens
   = Main.Unsettled).
Proof.
  intros Hfind Hlast Hv Hcp Hh Hi.
  destruct (Main.mainExec _ _ _ _ _ _) as [code|mode final|] eqn:Hrun.
  - left. apply exit_codes in Hrun as [->|(-> & a & [= <-] & [?|?])]; congruence.
  - exfalso. apply run_conditions in Hrun
      as (a & [= <-] & -> & _ & _ & _ & _ & _ & _ & _ & Hop).
    assert (default ∅ (getConfigData (Profiles profiles) (JStr "default"))
            !! "operation_mode" = Some (filter_setting "operation_mode" v)) as Hd.
    { unfold getConfigData. rewrite Hfind.
      etrans; [apply config_fold_lookup|]. rewrite decide_False by done.
      by rewrite Hlast. }
    rewrite finalInputData_lookup in Hop. rewrite Hcp, lookup_empty, Hd in Hop.
    injection Hop as Hop.
    destruct (filter_setting_cases "operation_mode" v) as [Hn|(Hsame & _)].
    + by rewrite Hn in Hop.
    + rewrite Hsame in Hop. by apply (Hv mode).
  - right. split; [|done].
    by apply unsettled_conditions in Hrun as (a & _ & _ & _ & _ & _ & _ & _ & ->).
Qed.

Lemma unimplemented_mode_masks_default_witness :
  let p := {| name := JStr "default";
              settings :=
                Some [("sn_instance_name", JStr "acme");
                      ("sn_user_name", JStr "john.doe");
                      ("sn_pass", JStr "letmein1234");
                      ("output_dir", JStr "/home/kb/out");
                      ("operation_mode", JStr "list_changes_files_delta")] |} in
  Main.mainExec Sample.input (Profiles [p]) (Some ∅) true true true = Main.Exit 2 ∧
  Main.mainExec Sample.input (Profiles [p]) (Some ∅) true true false = Main.Unsettled.
Proof.
  intros p. split.
  - destruct (unimplemented_mode_masks_default Sample.input [p] p
                (JStr "list_changes_files_delta") ∅ true true true)
      as [Hexit|[Hno _]]; try done.
    intros []; by vm_compute.
  - destruct (unimplemented_mode_masks_default Sample.input [p] p
                (JStr "list_changes_files_delta") ∅ true true false)
      as [Hexit|[_ Hun]]; try done.
    intros []; by vm_compute.
Defined.

End MainFacts.

(** ** The session around an operation *)

Section SessionRun.
Implicit Types (fs : FS) (env : Env) (folder p : list string).

Lemma subseteq_nondir fs fs' p :
  fs' ⊆ fs → fs !! p ≠ Some Dir → fs' !! p ≠ Some Dir.
Proof. intros Hsub Hp H. apply Hp. by eapply lookup_weaken. Qed.

Lemma insert_file_nondir fs p q c :
  fs !! p ≠ Some Dir → <[q := File c]> fs !! p ≠ Some Dir.
Proof.
  intros Hp. destruct (decide (q = p)) as [->|Hne].
  - by rewrite lookup_insert_eq.
  - by rewrite lookup_insert_ne.
Qed.

Lemma getArticlesList_nondir env fs t p :
  fs !! p ≠ Some Dir → (SnTools.getArticlesList env fs t).1 !! p ≠ Some Dir.
Proof.
  intros Hp. unfold SnTools.getArticlesList. destruct (remote env); [|done]. cbn.
  destruct (NodeFs.writeFile _ _ _) as [fs'|] eqn:E; [|done].
  apply writeFile_Some in E as ->. by apply insert_file_nondir.
Qed.

Lemma getKBChanges_nondir env fs cur old tgt p :
  fs !! p ≠ Some Dir → (SnTools.getKBChanges env fs cur old tgt).1 !! p ≠ Some Dir.
Proof.
  intros Hp. unfold SnTools.getKBChanges.
  destruct (SnTools.read_articles fs cur); [|done].
  destruct (SnTools.read_articles fs old); [|done].
  destruct (NodeFs.writeFile _ _ _) as [fs'|] eqn:E; [|done].
  apply writeFile_Some in E as ->. by apply insert_file_nondir.
Qed.

Lemma move_tree_nondir fs a b p :
  ¬ b `prefix_of` p → fs !! p ≠ Some Dir → NodeFs.move_tree fs a b !! p ≠ Some Dir.
Proof.
  intros Hb Hp. unfold NodeFs.move_tree. rewrite lookup_union_r.
  - apply (subseteq_nondir fs); [|done].
    etrans; apply rm_rf_subseteq.
  - apply not_elem_of_list_to_map_1. intros Hin.
    apply list_elem_of_fmap in Hin as ([k v] & -> & Hin).
    apply list_elem_of_fmap in Hin as ([k' v'] & [= -> ->] & _).
    apply Hb. by apply prefix_app_r.
Qed.

Lemma renameSync_nondir fs a b fs' p :
  NodeFs.renameSync fs a b = Some fs' →
  ¬ b `prefix_of` p → fs !! p ≠ Some Dir → fs' !! p ≠ Some Dir.
Proof.
  unfold NodeFs.renameSync. intros H Hb Hp.
  destruct (fs !! a) as [[|c]|]; [| |done].
  - destruct (decide (a = b)); [congruence|].
    destruct (bool_decide _); [done|].
    destruct (fs !! b) as [[|?]|]; [|done|].
    + destruct (NodeFs.has_children fs b); [done|].
      injection H as <-. by apply move_tree_nondir.
    + destruct (NodeFs.is_dir fs _); [|done].
      injection H as <-. by apply move_tree_nondir.
  - destruct (fs !! b) as [[|?]|]; [done| |];
      (destruct (NodeFs.is_dir fs _); [|done]);
      injection H as <-; apply insert_file_nondir;
      (apply (subseteq_nondir fs); [apply delete_subseteq|done]).
Qed.

Lemma lock_not_below folder (x : string) :
  x ≠ Session.LOCK_FILE_NAME →
  ¬ Path.normalize_segs false folder ++ [x] `prefix_of` Session.lockFilePath folder.
Proof.
  intros Hx Hpre. rewrite lockFilePath_eq in Hpre.
  apply prefix_snoc_eq in Hpre. done.
Qed.

Lemma doListingOnly_nondir env fs folder p :
  fs !! p ≠ Some Dir →
  (Operation.doListingOnly env fs folder "file_list").1 !! p ≠ Some Dir.
Proof.
  intros Hp. unfold Operation.doListingOnly.
  apply getArticlesList_nondir.
  by apply (subseteq_nondir fs); [apply removeFolderContents_subseteq|].
Qed.

Lemma doListingWithChanges_nondir env fs folder :
  fs !! Session.lockFilePath folder ≠ Some Dir →
  (Operation.doListingWithChanges env fs folder "file_list" "file_changes").1
    !! Session.lockFilePath folder ≠ Some Dir.
Proof.
  intros Hp. unfold Operation.doListingWithChanges.
  change (Path.resolve folder (Path.of_string ("file_list" +:+ ".json")))
    with (listFile folder).
  change (Path.append_to_last (listFile folder) ".old") with (oldListFile folder).
  destruct (negb _); [done|].
  destruct (NodeFs.renameSync _ _ _) as [fs1|] eqn:Hren; [|done].
  destruct (SnTools.getArticlesList env fs1 (listFile folder)) as [fs2 o] eqn:Hlist.
  apply getKBChanges_nondir.
  change fs2 with (fs2, o).1. rewrite <- Hlist.
  apply getArticlesList_nondir.
  eapply renameSync_nondir; [done| |done].
  rewrite oldListFile_eq. by apply lock_not_below.
Qed.

Lemma mkdir_fold_lookup (qs : list (list string)) (acc : option FS) fs' p :
  fold_left (λ acc q, fs0 ← acc;
                      match fs0 !! q with
                      | Some (File _) => None
                      | Some Dir => Some fs0
                      | None => Some (<[q := Dir]> fs0)
                      end) qs acc = Some fs' →
  ∃ fs, acc = Some fs ∧ (p ∉ qs → fs' !! p = fs !! p).
Proof.
  revert acc. induction qs as [|q qs IH]; intros acc; cbn [fold_left].
  - intros ->. by exists fs'.
  - intros H. apply IH in H as (fs1 & H1 & Hk).
    destruct acc as [fs|]; [|done]. exists fs. split; [done|].
    intros Hp. apply not_elem_of_cons in Hp as [Hne Hp]. rewrite (Hk Hp).
    cbn in H1. destruct (fs !! q) as [[|?]|]; [| done |].
    + by injection H1 as <-.
    + injection H1 as <-. by rewrite lookup_insert_ne.
Qed.

Lemma mkdirSync_lookup_other fs q fs' p :
  NodeFs.mkdirSync fs q = Some fs' → ¬ p `prefix_of` q → fs' !! p = fs !! p.
Proof.
  unfold NodeFs.mkdirSync. intros H Hp.
  apply (mkdir_fold_lookup _ _ _ p) in H as (fs0 & [= <-] & Hk).
  apply Hk. intros (l1 & l2 & -> & _ & Hq)%ancestors_from_elem.
  apply Hp. cbn in Hq. subst p. by apply prefix_app_r.
Qed.

Lemma download_loop_nondir env (targetDir : list string) (l : list string) (st : FS * list string) p :
  st.1 !! p ≠ Some Dir →
  (fold_left (SnTools.download_one env targetDir) l st).1 !! p ≠ Some Dir.
Proof.
  revert st. induction l as [|n l IH]; intros st Hp; [done|].
  cbn [fold_left]. apply IH. unfold SnTools.download_one.
  destruct (render_ok env n); [|done].
  destruct (NodeFs.writeFile _ _ _) as [fs1|] eqn:E; [|done].
  apply writeFile_Some in E as ->. by apply insert_file_nondir.
Qed.

Lemma fetchArticles_nondir env fs (l : list string) (targetDir : list string)
    (reset : bool) (r : FS * list string) p :
  SnTools.fetchArticles env fs l targetDir reset = Some r →
  fs !! p ≠ Some Dir → r.1 !! p ≠ Some Dir.
Proof.
  unfold SnTools.fetchArticles. destruct (browser_ok env); [|done].
  intros [= <-] Hp. apply download_loop_nondir. cbn [fst].
  destruct reset; [|done].
  by apply (subseteq_nondir fs); [apply removeFolderContents_subseteq|].
Qed.

Lemma ensure_folder_nondir fs folder :
  fs !! Session.lockFilePath folder ≠ Some Dir →
  default fs (NodeFs.mkdirSync fs (pdfHome folder)) !! Session.lockFilePath folder
  ≠ Some Dir.
Proof.
  intros Hp. destruct (NodeFs.mkdirSync fs (pdfHome folder)) as [fs'|] eqn:E; [|done].
  cbn. rewrite (mkdirSync_lookup_other _ _ _ _ E); [done|].
  rewrite lockFilePath_eq, pdfHome_eq. intros [k Hk].
  rewrite <- app_assoc in Hk. apply app_inv_head in Hk. by injection Hk.
Qed.

Lemma doListingWithFiles_nondir env fs folder :
  fs !! Session.lockFilePath folder ≠ Some Dir →
  (Operation.doListingWithFiles env fs folder "file_list").1
    !! Session.lockFilePath folder ≠ Some Dir.
Proof.
  intros Hp. unfold Operation.doListingWithFiles.
  pose proof (doListingOnly_nondir env fs folder _ Hp) as H1.
  destruct (Operation.doListingOnly env fs folder "file_list") as [fs1 o].
  cbn [fst] in H1.
  change (Path.join folder (Path.of_string "PDFs")) with (pdfHome folder).
  pose proof (ensure_folder_nondir fs1 folder H1) as H2.
  destruct (NodeFs.existsSync fs1 (pdfHome folder)).
  - destruct o as [l|]; [|done].
    destruct (SnTools.fetchArticles _ _ _ _ _) as [r|] eqn:E; [|done].
    by eapply fetchArticles_nondir.
  - destruct (NodeFs.mkdirSync fs1 (pdfHome folder)) as [fs2|]; [|done].
    cbn in H2. destruct o as [l|]; [|done].
    destruct (SnTools.fetchArticles _ _ _ _ _) as [r|] eqn:E; [|done].
    by eapply fetchArticles_nondir.
Qed.

Lemma doChangesWithFiles_nondir env fs folder newerOnly :
  fs !! Session.lockFilePath folder ≠ Some Dir →
  (Operation.doChangesWithFiles env fs folder "file_list" "file_changes" newerOnly).1
    !! Session.lockFilePath folder ≠ Some Dir.
Proof.
  intros Hp. unfold Operation.doChangesWithFiles.
  destruct (negb _); [by apply doListingWithFiles_nondir|].
  pose proof (doListingWithChanges_nondir env fs folder Hp) as H1.
  destruct (Operation.doListingWithChanges _ _ _ _ _) as [fs1 [r|]]; [|done].
  cbn [fst] in H1. unfold Operation.download_fresh.
  pose proof (subseteq_nondir _ _ _ (remove_stale_subseteq fs1 folder r newerOnly) H1)
    as H2.
  destruct (bool_decide _); [|done].
  destruct (SnTools.fetchArticles _ _ _ _ _) as [r'|] eqn:E; [|done].
  by eapply fetchArticles_nondir.
Qed.

(** X20 — The session is released: in an existing output folder where
    no session is open, [mainExec] opens its session, runs the operation
    and closes the session again, whatever the operation mode is and
    whatever the catalog and the browser do; afterwards nothing lies at
    the path of the lock file and a next run can open its session. *)
Theorem session_releases_lock env fs folder (mode : Main.OperationMode)
    (newer_only : bool) (uuid : string) :
  Session.canOpenSession fs folder = true →
  NodeFs.is_dir fs (Path.normalize_segs false folder) = true →
  ∃ fs',
    Run.session env fs folder mode newer_only uuid = Some fs' ∧
    fs' !! Session.lockFilePath folder = None ∧
    Session.canOpenSession fs' folder = true.
Proof.
  intros Hopen Hdir. unfold Run.session.
  assert (Session.openSession fs folder uuid
          = (<[Session.lockFilePath folder := File (Opaque uuid)]> fs, Session.Returns))
    as ->.
  { unfold Session.openSession. unfold Session.canOpenSession in Hopen.
    apply negb_true_iff in Hopen. rewrite Hopen.
    apply existsSync_false in Hopen. unfold NodeFs.writeFile. rewrite Hopen.
    by rewrite lockFilePath_eq, parent_snoc, Hdir. }
  set (fs1 := <[Session.lockFilePath folder := File (Opaque uuid)]> fs).
  assert (fs1 !! Session.lockFilePath folder ≠ Some Dir) as H1.
  { subst fs1. by rewrite lookup_insert_eq. }
  assert (Run.ensurePdfsFolder fs1 folder !! Session.lockFilePath folder ≠ Some Dir)
    as H2.
  { unfold Run.ensurePdfsFolder. destruct (negb _); [|done].
    by apply ensure_folder_nondir. }
  set (fs2 := Run.ensurePdfsFolder fs1 folder) in *.
  assert (Run.operation env fs2 folder mode newer_only
            !! Session.lockFilePath folder ≠ Some Dir) as H3.
  { destruct mode; cbn [Run.operation].
    - by apply doListingOnly_nondir.
    - by apply doListingWithChanges_nondir.
    - by apply doListingWithFiles_nondir.
    - by apply doChangesWithFiles_nondir. }
  set (fs3 := Run.operation env fs2 folder mode newer_only) in *.
  eexists. split; [done|].
  assert ((Session.closeSession fs3 folder).1 !! Session.lockFilePath folder = None)
    as Hnone.
  { unfold Session.closeSession.
    destruct (NodeFs.existsSync fs3 _) eqn:He; cbn [negb].
    - unfold NodeFs.unlink.
      destruct (fs3 !! Session.lockFilePath folder) as [[|c]|] eqn:Hl; [done| |].
      + cbn. apply lookup_delete_eq.
      + done.
    - by apply existsSync_false in He. }
  split; [done|]. unfold Session.canOpenSession.
  apply negb_true_iff, existsSync_false. done.
Qed.


Lemma session_releases_lock_witness :
  ∃ fs',
    Run.session (Sample.online [Sample.article "k1" "KB0010001" "2.0"])
      (Sample.workspace [Sample.article "k1" "KB0010001" "1.0"] ["KB0010001"])
      Sample.folder Main.list_changes_files false
      "1b9d6bcd-bbfd-4b2d-9b5d-ab8dfbbd4bed" = Some fs' ∧
    Session.canOpenSession fs' Sample.folder = true.
Proof.
  destruct (session_releases_lock (Sample.online [Sample.article "k1" "KB0010001" "2.0"])
              (Sample.workspace [Sample.article "k1" "KB0010001" "1.0"] ["KB0010001"])
              Sample.folder Main.list_changes_files false
              "1b9d6bcd-bbfd-4b2d-9b5d-ab8dfbbd4bed") as (fs' & H1 & _ & H2);
    [by vm_compute..|].
  exists fs'. split; [exact H1|exact H2].
Defined.

End SessionRun.

(** ** Listing with changes and files *)

Section ChangesWithFiles.
Implicit Types (fs : FS) (env : Env) (folder : list string).

Lemma bucket_numbers (currList olderList : list Article) (n : string) :
  let ch := SnTools.detect_changes currList olderList in
  (n ∈ added ch → n ∈ number <$> currList) ∧
  (n ∈ updated ch → n ∈ number <$> currList) ∧
  (n ∈ removed ch → n ∈ number <$> olderList).
Proof.
  cbv zeta. rewrite detect_changes_records.
  assert (∀ l a, a ∈ map_records l → a ∈ l) as Hin.
  { intros l a Ha. apply map_records_elem in Ha. by apply last_record_Some in Ha as [? _]. }
  cbn [Spec.diff added updated removed].
  split_and!; intros (a & -> & Ha%list_elem_of_filter)%list_elem_of_fmap;
    apply list_elem_of_fmap_2, Hin; tauto.
Qed.

Lemma download_loop_frame env (targetDir : list string) (l : list string)
    (st : FS * list string) (p : list string) :
  (∀ n, n ∈ l → p ≠ SnTools.pdfPath targetDir n) →
  (fold_left (SnTools.download_one env targetDir) l st).1 !! p = st.1 !! p.
Proof.
  revert st. induction l as [|n l IH]; intros st Hp; [done|].
  cbn [fold_left]. rewrite IH by (intros m Hm; apply Hp; by right).
  unfold SnTools.download_one. destruct (render_ok env n); [|done].
  destruct (NodeFs.writeFile _ _ _) as [fs1|] eqn:E; [|done].
  apply writeFile_Some in E as ->. cbn [fst].
  rewrite lookup_insert_ne; [done|]. intros Heq. by apply (Hp n); [left|].
Qed.

Lemma remove_stale_keeps_top fs folder (r : ChangesFile) (newerOnly : bool)
    (name : string) :
  Forall plain folder →
  well_formed fs →
  Forall (λ n, no_slash n = true) (removed (changes r) ++ updated (changes r)) →
  Operation.remove_stale fs folder r newerOnly !! (folder ++ [name])
  = fs !! (folder ++ [name]).
Proof.
  intros Hfolder Hfs Hnums. unfold Operation.remove_stale.
  destruct newerOnly; [done|]. cbn [negb].
  case_bool_decide; [|done].
  unfold FsTools.removeFolderContents.
  destruct (NodeFs.readdir _ _); [|done].
  cbn [FsTools.has_patterns].
  rewrite bool_decide_eq_true_2 by (by rewrite length_fmap).
  apply delete_loop_lookup_other. intros m Hm Hpre.
  apply glob_all_elem in Hm as (pattern & Hpat & Hm).
  apply list_elem_of_fmap in Hpat as (n & -> & Hn).
  rewrite Forall_forall in Hnums. specialize (Hnums n Hn).
  change (Path.join folder (Path.of_string "PDFs")) with (pdfHome folder) in Hm.
  change (Path.join (pdfHome folder) (Path.of_string (n +:+ ".pdf")))
    with (SnTools.pdfPath (pdfHome folder) n) in Hm.
  rewrite pdfPath_plain in Hm by done.
  assert (pdfHome folder = folder ++ ["PDFs"]) as Hhome
    by (by rewrite pdfHome_eq, normalize_plain).
  rewrite Hhome in Hm.
  assert (Forall plain ((folder ++ ["PDFs"]) ++ [n +:+ ".pdf"])) as Hplain.
  { apply plain_snoc; [|by apply pdf_name_plain].
    apply plain_snoc; [done|by repeat split]. }
  assert ((folder ++ ["PDFs"]) ++ [n +:+ ".pdf"] ≠ []) as Hne
    by (intros Hnil; by apply app_eq_nil in Hnil as [_ ?]).
  apply sync_absolute_elem in Hm as [Hkey Hlen]; [|by rewrite of_to_string].
  rewrite of_to_string in Hlen by done.
  cbn [Path.segs] in Hlen. rewrite !length_app in Hlen. cbn in Hlen.
  apply prefix_length in Hpre. unfold Path.join in Hpre.
  rewrite normalize_plain in Hpre.
  - rewrite !length_app in Hpre. cbn in Hpre. lia.
  - apply Forall_app. split; [done|]. by apply Hfs.
Qed.

(** X21 — The download phase of [doChangesWithFiles] leaves the
    bookkeeping alone: when the list file holds a snapshot, the catalog
    answers and the article numbers of both snapshots contain no slash,
    every entry directly in the output folder other than [PDFs] (the
    list file, the rotated list file, the changes file, the lock file)
    is after [doChangesWithFiles], in either mode, what it is after
    [doListingWithChanges] alone. *)
Theorem doChangesWithFiles_keeps_bookkeeping env fs folder
    (S_old S_new : list Article) (newerOnly : bool) (name : string) :
  Forall plain folder →
  well_formed fs →
  fs !! listFile folder = Some (File (JsonArticles S_old)) →
  remote env = Some S_new →
  Forall (λ a, no_slash (number a) = true) (S_old ++ S_new) →
  name ≠ "PDFs" →
  (Operation.doChangesWithFiles env fs folder "file_list" "file_changes" newerOnly).1
    !! (folder ++ [name])
  = (Operation.doListingWithChanges env fs folder "file_list" "file_changes").1
      !! (folder ++ [name]).
Proof.
  intros Hf Hwf Hold Hnew Hnums Hname.
  pose proof (listing_changes_well_formed env fs folder _ Hf Hwf Hold) as Hwf1.
  pose proof (listing_changes_report env fs folder S_old S_new) as Hrep.
  unfold Operation.doChangesWithFiles.
  change (Path.resolve folder (Path.of_string ("file_list" +:+ ".json")))
    with (listFile folder).
  assert (NodeFs.existsSync fs (listFile folder) = true) as ->
    by (apply existsSync_true; by eexists).
  cbn [negb].
  destruct (Operation.doListingWithChanges env fs folder "file_list" "file_changes")
    as [fs1 [r|]]; [|done].
  cbn [fst snd] in *. specialize (Hrep r Hold Hnew eq_refl).
  apply Forall_app in Hnums as [Hnold Hnnew].
  assert (∀ n, (n ∈ added (changes r) ∨ n ∈ updated (changes r) ∨ n ∈ removed (changes r)) →
               no_slash n = true) as Hbuckets.
  { intros n Hn. subst r. cbn [changes] in Hn.
    destruct (bucket_numbers S_new S_old n) as (Ha & Hu & Hr).
    assert (n ∈ number <$> S_new ∨ n ∈ number <$> S_old) as [Hin|Hin] by tauto;
      apply list_elem_of_fmap in Hin as (a & -> & Ha');
      [rewrite Forall_forall in Hnnew; by apply Hnnew
      |rewrite Forall_forall in Hnold; by apply Hnold]. }
  assert (pdfHome folder = folder ++ ["PDFs"]) as Hhome
    by (by rewrite pdfHome_eq, normalize_plain).
  set (fs2 := Operation.remove_stale fs1 folder r newerOnly).
  assert (fs2 !! (folder ++ [name]) = fs1 !! (folder ++ [name])) as <-.
  { apply remove_stale_keeps_top; [done..|].
    apply Forall_forall. intros n [?|?]%elem_of_app; apply Hbuckets; tauto. }
  unfold Operation.download_fresh.
  change (Path.join folder (Path.of_string "PDFs")) with (pdfHome folder).
  destruct (bool_decide _); [|done].
  unfold SnTools.fetchArticles. destruct (browser_ok env); [|done].
  rewrite download_loop_frame; cbn [fst].
  - destruct newerOnly; [|done].
    destruct (monitor_arity env) as [|arity].
    + apply emptying_confined; [done| | |].
      * rewrite Hhome. apply plain_snoc; [done|by repeat split].
      * eapply well_formed_subseteq; [apply remove_stale_subseteq|done].
      * rewrite Hhome. intros Hpre. by apply prefix_snoc_eq in Hpre.
    + by rewrite removeFolderContents_callback.
  - intros n Hn. rewrite pdfPath_plain, Hhome; [|done|].
    + intros Heq. apply (f_equal length) in Heq. rewrite !length_app in Heq. cbn in Heq. lia.
    + apply Hbuckets. apply elem_of_app in Hn. tauto.
Qed.

Lemma doChangesWithFiles_keeps_bookkeeping_witness :
  let S_old := [Sample.article "k1" "KB0010001" "1.0";
                Sample.article "k2" "KB0010002" "1.0"] in
  let S_new := [Sample.article "k1" "KB0010001" "2.0";
                Sample.article "k3" "KB0010003" "1.0"] in
  let fs := Sample.workspace S_old ["KB0010001"; "KB0010002"] in
  (Operation.doChangesWithFiles (Sample.online S_new) fs Sample.folder
     "file_list" "file_changes" false).1 !! (Sample.folder ++ ["file_list.json"])
  = Some (File (JsonArticles S_new)).
Proof.
  intros S_old S_new fs.
  etrans; [apply (doChangesWithFiles_keeps_bookkeeping (Sample.online S_new) fs
                    Sample.folder S_old S_new false "file_list.json")|by vm_compute].
  - by_computation.
  - apply well_formed_check. by_computation.
  - by vm_compute.
  - done.
  - by_computation.
  - done.
Defined.

End ChangesWithFiles.


(** ** A failed listing *)

Section FailedListing.
Implicit Types (fs : FS) (env : Env) (folder : list string).

(** X22 — A failed request to the catalog costs the workspace in the
    modes that start afresh: in an existing folder, when the request
    fails, [doListingOnly] returns nothing and leaves the workspace as
    [resetWorkspace] leaves it, and [doListingWithFiles] reports no
    download, leaves no list file and nothing in the PDFs folder; the
    lock file is as before. *)
Theorem failed_listing_wipes_workspace env fs folder :
  Forall plain folder →
  well_formed fs →
  tree fs →
  NodeFs.is_dir fs folder = true →
  remote env = None →
  let listing := Operation.doListingOnly env fs folder "file_list" in
  let run := Operation.doListingWithFiles env fs folder "file_list" in
  listing = (Operation.resetWorkspace fs folder, None) ∧
  run.2 = [] ∧
  run.1 !! listFile folder = None ∧
  (∀ rest, rest ≠ [] → run.1 !! (pdfHome folder ++ rest) = None) ∧
  run.1 !! Session.lockFilePath folder = fs !! Session.lockFilePath folder.
Proof.
  intros Hf Hwf Ht Hdir Hremote listing run.
  assert (listing = (Operation.resetWorkspace fs folder, None)) as Hlisting.
  { subst listing. unfold Operation.doListingOnly, SnTools.getArticlesList.
    by rewrite Hremote. }
  split; [done|].
  subst run. unfold Operation.doListingWithFiles. fold listing. rewrite Hlisting.
  change (Path.join folder (Path.of_string "PDFs")) with (pdfHome folder).
  set (fs1 := Operation.resetWorkspace fs folder).
  destruct (reset_effect fs folder Hf Hwf) as (Hgone & _ & Hlock & _).
  fold fs1 in Hgone, Hlock.
  assert (fs1 !! listFile folder = None) as Hlist.
  { rewrite (listFile_plain _ Hf). by destruct (Hgone Hdir "file_list.json"). }
  assert (∀ rest, fs1 !! (pdfHome folder ++ rest) = None) as Hclear
    by (intros rest; by apply reset_clears_pdfs).
  set (fs2 := if NodeFs.existsSync fs1 (pdfHome folder) then Some fs1
              else NodeFs.mkdirSync fs1 (pdfHome folder)).
  assert (∀ fs', fs2 = Some fs' →
            ∀ p, ¬ p `prefix_of` pdfHome folder → fs' !! p = fs1 !! p) as Hmk.
  { intros fs' Hfs' p Hp. subst fs2.
    destruct (NodeFs.existsSync fs1 (pdfHome folder)).
    - by injection Hfs' as <-.
    - by eapply mkdirSync_lookup_other. }
  assert (¬ listFile folder `prefix_of` pdfHome folder) as Hl.
  { rewrite (listFile_plain _ Hf), (pdfHome_plain _ Hf).
    intros Hpre. by apply prefix_snoc_eq in Hpre. }
  assert (¬ Session.lockFilePath folder `prefix_of` pdfHome folder) as Hk.
  { rewrite (lockFilePath_plain _ Hf), (pdfHome_plain _ Hf).
    intros Hpre. by apply prefix_snoc_eq in Hpre. }
  assert (∀ rest, rest ≠ [] → ¬ pdfHome folder ++ rest `prefix_of` pdfHome folder) as Hr.
  { intros rest Hne Hpre. apply prefix_length in Hpre.
    rewrite length_app in Hpre. destruct rest; [done|]. cbn in Hpre. lia. }
  destruct fs2 as [fs'|] eqn:Hfs2; cbn [fst snd].
  - specialize (Hmk fs' eq_refl). split; [done|].
    split; [by rewrite Hmk|]. split; [|by rewrite Hmk].
    intros rest Hne. rewrite Hmk by by apply Hr. apply Hclear.
  - done.
Qed.

Lemma failed_listing_wipes_workspace_witness :
  let fs := Sample.workspace [Sample.article "k1" "KB0010001" "1.0"] ["KB0010001"] in
  let run := Operation.doListingWithFiles Sample.offline fs Sample.folder "file_list" in
  run.1 !! listFile Sample.folder = None ∧
  run.1 !! (pdfHome Sample.folder ++ ["KB0010001.pdf"]) = None.
Proof.
  intros fs run.
  destruct (failed_listing_wipes_workspace Sample.offline fs Sample.folder)
    as (_ & _ & H1 & H2 & _).
  - by_computation.
  - apply well_formed_check. by_computation.
  - apply tree_check. by_computation.
  - by vm_compute.
  - done.
  - split; [exact H1|]. by apply H2.
Defined.

End FailedListing.
